(** * Reviewer-FAST: a shallow embedding of the review backend

    The development follows the layout of [backend/]: the Python values and
    control effects the services rely on ([Py]), the feedback store of
    [services/vector_store.py] ([VectorStore]), the diff queries of
    [services/diff_parser.py] ([DiffParser]), the suggestion generator of
    [services/review_service.py] ([ReviewService]), the aggregator of
    [services/stats_service.py] ([StatsService]) and the handlers of
    [api/feedback.py], [api/review.py] and [api/stats.py] ([Api],
    [ReviewApi]).  [Text], [Json] and [Models] hold the string operations,
    the decoded JSON values and the suggestion model the services share;
    [VectorStoreAdd] holds the part of the store that writes suggestions.

    Definitions come first, then the vocabulary the properties are stated
    in, then the properties of each service.  Strings are sequences of
    bytes.  The clock, the identifier source, the generation engine, the
    similarity order of the storage engine, [json.loads], the field
    validators, the diff library, the GitHub fetch and the outcome of
    building a service inside a handler are inputs of the functions that
    use them. *)

From Stdlib Require Import ZArith Lia Ascii String.
From Stdlib Require OrderedTypeEx.
From stdpp Require Import base option list gmap strings pretty sorting.

#[local] Set Warnings "-register-all".

Local Open Scope string_scope.
Local Open Scope list_scope.

(** ** Python values, exceptions and the state-and-exception monad *)

Module Py.

(** The exception classes the modelled code can meet.  All of them derive
    from [Exception]; [HTTPException] is the FastAPI one, carrying the
    response status. *)
Inductive exn : Type :=
| JSONDecodeError (msg : string)
| AttributeError (msg : string)
| TypeError (msg : string)
| ValueError (msg : string)
| IndexError (msg : string)
| ValidationError (msg : string)
| RuntimeError (msg : string)
| HTTPException (status_code : Z) (detail : string).

(** A call either returns a value or raises. *)
Inductive outcome (A : Type) : Type :=
| Return (a : A)
| Raise (e : exn).
Arguments Return {A} a.
Arguments Raise {A} e.

(** Stateful, fallible code: a state transformer whose result is an outcome.
    The state reached when an exception is raised is kept, as mutations done
    before a [raise] are in Python. *)
Definition M (S A : Type) : Type := S -> S * outcome A.

Definition ret {S A} (a : A) : M S A := fun s => (s, Return a).

Definition raise {S A} (e : exn) : M S A := fun s => (s, Raise e).

Definition bind {S A B} (m : M S A) (k : A -> M S B) : M S B :=
  fun s =>
    match m s with
    | (s', Return a) => k a s'
    | (s', Raise e) => (s', Raise e)
    end.

Definition lift {S A} (o : outcome A) : M S A := fun s => (s, o).

Definition get_state {S} : M S S := fun s => (s, Return s).

Definition modify {S} (f : S -> S) : M S unit := fun s => (f s, Return tt).

(** [try: body  except Exception as e: handler e]. Every constructor of [exn]
    is a subclass of [Exception], so the handler sees all of them. *)
Definition try_except {S A} (body : M S A) (handler : exn -> M S A) : M S A :=
  fun s =>
    match body s with
    | (s', Return a) => (s', Return a)
    | (s', Raise e) => handler e s'
    end.

(** [print(...)]: output to the log is not part of the model. *)
Definition print {S} (msg : string) : M S unit := ret tt.

Declare Scope py_scope.
Delimit Scope py_scope with py.
Notation "x <- m ;; k" := (bind m (fun x => k))
  (at level 100, m at level 99, k at level 200, right associativity) : py_scope.

(** [str(e)] for an exception. *)
Definition message (e : exn) : string :=
  match e with
  | JSONDecodeError msg | AttributeError msg | TypeError msg | ValueError msg
  | IndexError msg | ValidationError msg | RuntimeError msg => msg
  | HTTPException status_code detail => pretty status_code +:+ ": " +:+ detail
  end.

(** Characters that cannot be written inside a string literal. *)
Definition nl : string := String "010"%char EmptyString.
Definition dq : string := String "034"%char EmptyString.

(** Values a metadata dictionary of the store holds: this program writes
    strings and integers only. *)
Inductive MetaValue : Type :=
| MStr (s : string)
| MInt (n : Z).

#[export] Instance MetaValue_eq_dec : EqDecision MetaValue.
Proof. solve_decision. Defined.

#[export] Instance MetaValue_countable : Countable MetaValue.
Proof.
  refine (inj_countable'
            (fun v => match v with MStr s => inl s | MInt n => inr n end)
            (fun x => match x with inl s => MStr s | inr n => MInt n end) _).
  intros []; reflexivity.
Defined.

(** [str(v)], as an f-string renders a value. *)
Definition str (v : MetaValue) : string :=
  match v with
  | MStr s => s
  | MInt n => pretty n
  end.

(** Truth value of a metadata value: empty string and zero are false. *)
Definition truthy (v : MetaValue) : bool :=
  match v with
  | MStr s => negb (String.eqb s EmptyString)
  | MInt n => negb (n =? 0)%Z
  end.

(** Truth value of an optional string ([None] and the empty string are
    false). *)
Definition truthy_opt (o : option string) : bool :=
  match o with
  | Some s => negb (String.eqb s EmptyString)
  | None => false
  end.

(** [x or ""] for an optional string. *)
Definition or_empty (o : option string) : string :=
  if truthy_opt o then default EmptyString o else EmptyString.

(** [sep.join(parts)]. *)
Fixpoint join (sep : string) (parts : list string) : string :=
  match parts with
  | [] => EmptyString
  | [p] => p
  | p :: rest => p +:+ sep +:+ join sep rest
  end.

(** [l[:n]] for a Python integer [n]: a negative bound counts from the end. *)
Definition slice_to {A} (n : Z) (l : list A) : list A :=
  if (0 <=? n)%Z then take (Z.to_nat n) l
  else take (length l - Z.to_nat (- n)) l.

(** Order on metadata values as [<] sees it: defined within one type,
    [TypeError] across types. *)
Definition less_than (a b : MetaValue) : outcome bool :=
  match a, b with
  | MStr x, MStr y => Return (String.ltb x y)
  | MInt x, MInt y => Return (x <? y)%Z
  | _, _ => Raise (TypeError "'<' not supported between instances of 'str' and 'int'")
  end.

(** [min(first, *rest)]: the first least element, compared with [<]. *)
Fixpoint min_from (cur : MetaValue) (l : list MetaValue) : outcome MetaValue :=
  match l with
  | [] => Return cur
  | x :: rest =>
      match less_than x cur with
      | Return true => min_from x rest
      | Return false => min_from cur rest
      | Raise e => Raise e
      end
  end.

(** [sorted(l, key=key, reverse=True)]: a stable sort into descending key
    order; elements with equal keys keep their relative order.  Keys of
    different types meet in a comparison and raise [TypeError]. *)
Fixpoint insert_desc {A} (key : A -> MetaValue) (x : A) (l : list A) : outcome (list A) :=
  match l with
  | [] => Return [x]
  | y :: ys =>
      match less_than (key x) (key y) with
      | Return true =>
          match insert_desc key x ys with
          | Return r => Return (y :: r)
          | Raise e => Raise e
          end
      | Return false => Return (x :: y :: ys)
      | Raise e => Raise e
      end
  end.

Fixpoint sorted_desc {A} (key : A -> MetaValue) (l : list A) : outcome (list A) :=
  match l with
  | [] => Return []
  | x :: rest =>
      match sorted_desc key rest with
      | Return s => insert_desc key x s
      | Raise e => Raise e
      end
  end.

End Py.

Import Py.

Local Open Scope py_scope.

(** ** The feedback store ([services/vector_store.py]) *)

Module VectorStore.

Abbreviation Metadata := (gmap string MetaValue).

(** One document of the [suggestions] collection. *)
Record Entry : Type := {
  entry_id : string;
  entry_document : string;
  entry_metadata : Metadata
}.

(** The collection keeps its documents in insertion order. *)
Abbreviation Collection := (list Entry).

(** *** The collection interface of the storage engine

    The engine (a ChromaDB collection) is a library the store calls; the
    three operations the store uses are given the behaviour of its
    interface: lookup by metadata filter, update by id, query by
    similarity. *)

Record GetResult : Type := {
  ids : list string;
  documents : list string;
  metadatas : list Metadata
}.

Record QueryResult : Type := {
  q_documents : option (list (list string));
  q_metadatas : option (list (list Metadata))
}.

(** A [where] filter holds when the metadata has every listed key with the
    listed value. *)
Definition matches_where (where_ : list (string * MetaValue)) (md : Metadata) : bool :=
  forallb (fun kv => bool_decide (md !! kv.1 = Some kv.2)) where_.

Definition pack (hits : list Entry) : GetResult :=
  {| ids := entry_id <$> hits;
     documents := entry_document <$> hits;
     metadatas := entry_metadata <$> hits |}.

(** [collection.get(where=...)]: the engine validates the filter before it
    looks anything up, and refuses a filter with more than one key at its
    top level (several conditions have to be joined under one [$and]
    operator).  Without a filter it answers all records, with a one-key
    filter the records whose metadata has that key with that value, in
    insertion order. *)
Definition collection_get (where_ : list (string * MetaValue)) : M Collection GetResult :=
  match where_ with
  | _ :: _ :: _ => raise (ValueError "Expected where to have exactly one operator")
  | _ =>
      c <- get_state ;;
      ret (pack (List.filter (fun e => matches_where where_ (entry_metadata e)) c))
  end.

(** [collection.update(ids=[doc_id], metadatas=[md])]: the metadata of the
    document with that id is replaced; an unknown id changes nothing. *)
Definition set_metadata (doc_id : string) (md : Metadata) (e : Entry) : Entry :=
  if bool_decide (entry_id e = doc_id)
  then {| entry_id := entry_id e; entry_document := entry_document e; entry_metadata := md |}
  else e.

Definition collection_update (doc_id : string) (md : Metadata) : M Collection unit :=
  modify (fmap (set_metadata doc_id md)).

(** [collection.query(query_texts=[text], n_results=n)]: up to [n] stored
    documents ranked by similarity to [text].  The similarity order [rank]
    belongs to the engine, which refuses a request for zero or fewer
    results. *)
Definition collection_query (rank : string -> Collection -> list Entry)
    (text : string) (n_results : Z) : M Collection QueryResult :=
  c <- get_state ;;
  if (n_results <=? 0)%Z
  then raise (ValueError "Number of requested results cannot be negative, or zero")
  else
    let hits := take (Z.to_nat n_results) (rank text c) in
    ret {| q_documents := Some [entry_document <$> hits];
           q_metadatas := Some [entry_metadata <$> hits] |}.

(** *** [store_feedback] *)

Definition get_or (md : Metadata) (key : string) (dflt : MetaValue) : MetaValue :=
  default dflt (md !! key).

(** The metadata written back by [store_feedback]. *)
Definition updated_metadata (metadata : Metadata) (now action : string)
    (reason edited_suggestion : option string) : Metadata :=
  let updated := <["action" := MStr action]> metadata in
  let updated := <["reason" := MStr (or_empty reason)]> updated in
  let updated := <["feedback_timestamp" := MStr now]> updated in
  if truthy_opt edited_suggestion then
    let e := default EmptyString edited_suggestion in
    <["suggestion" := MStr e]> (<["edited_suggestion" := MStr e]> updated)
  else updated.

(** [now] is the reading of [datetime.utcnow().isoformat()] during the call. *)
Definition store_feedback (now : string) (review_id suggestion_id action : string)
    (reason edited_suggestion : option string) : M Collection unit :=
  try_except
    (results <- collection_get [("review_id", MStr review_id);
                                ("suggestion_id", MStr suggestion_id)] ;;
     match ids results with
     | doc_id :: _ =>
         let metadata := match metadatas results with m :: _ => m | [] => ∅ end in
         collection_update doc_id
           (updated_metadata metadata now action reason edited_suggestion)
     | [] =>
         print ("Warning: Suggestion " +:+ suggestion_id +:+ " not found in vector store")
     end)
    (fun e => print "Error storing feedback").

(** *** [find_similar_code] *)

(** The dictionaries [find_similar_code] returns. *)
Record SimilarReview : Type := {
  sr_code_context : string;
  sr_suggestion : MetaValue;
  sr_action : MetaValue;
  sr_reason : MetaValue;
  sr_category : MetaValue;
  sr_confidence : MetaValue
}.

(** [action in ["accept", "reject", "edit"]]. *)
Definition is_feedback_action (action : MetaValue) : bool :=
  bool_decide (action ∈ [MStr "accept"; MStr "reject"; MStr "edit"]).

(** The [for i in range(len(results["documents"][0]))] loop with its
    [break]; [i] is the index of the head of [docs] in the result row. *)
Fixpoint similar_loop (limit : Z) (metadatas0 : list Metadata) (i : nat)
    (docs : list string) (similar_reviews : list SimilarReview) : list SimilarReview :=
  match docs with
  | [] => similar_reviews
  | doc :: rest =>
      let metadata := default ∅ (metadatas0 !! i) in
      let action := get_or metadata "action" (MStr "pending") in
      let similar_reviews :=
        if is_feedback_action action then
          similar_reviews ++
            [ {| sr_code_context := doc;
                 sr_suggestion := get_or metadata "suggestion" (MStr EmptyString);
                 sr_action := action;
                 sr_reason := get_or metadata "reason" (MStr EmptyString);
                 sr_category := get_or metadata "category" (MStr EmptyString);
                 sr_confidence := get_or metadata "confidence" (MInt 0) |} ]
        else similar_reviews in
      if (limit <=? Z.of_nat (length similar_reviews))%Z then similar_reviews
      else similar_loop limit metadatas0 (S i) rest similar_reviews
  end.

Definition similar_of_results (limit : Z) (results : QueryResult) : list SimilarReview :=
  match q_documents results with
  | Some (docs0 :: _) =>
      match docs0 with
      | [] => []
      | _ :: _ =>
          let metadatas0 :=
            match q_metadatas results with
            | Some (m0 :: _) => m0
            | _ => []
            end in
          similar_loop limit metadatas0 0 docs0 []
      end
  | _ => []
  end.

Definition find_similar_code (rank : string -> Collection -> list Entry)
    (code_context : string) (limit : Z) : M Collection (list SimilarReview) :=
  try_except
    (queried <- try_except
                  (results <- collection_query rank code_context (Z.min (limit * 3) 20) ;;
                   ret (Some results))
                  (fun e => _ <- print "ChromaDB query error" ;; ret None) ;;
     match queried with
     | None => ret []
     | Some results => ret (similar_of_results limit results)
     end)
    (fun e => _ <- print "Error finding similar code" ;; ret []).

(** *** [get_review] and [get_recent_reviews] *)

Record SuggestionSummary : Type := {
  ss_id : MetaValue;
  ss_line_number : MetaValue;
  ss_category : MetaValue;
  ss_suggestion : MetaValue;
  ss_confidence : MetaValue;
  ss_action : MetaValue
}.

Record FileGroup : Type := {
  fg_file_path : MetaValue;
  fg_suggestions : list SuggestionSummary
}.

(** The summary dictionary of one review session. *)
Record Review : Type := {
  review_id : MetaValue;
  files : list FileGroup;
  created_at : MetaValue;
  suggestion_count : nat
}.

Definition summary_of (metadata : Metadata) : SuggestionSummary :=
  {| ss_id := get_or metadata "suggestion_id" (MStr EmptyString);
     ss_line_number := get_or metadata "line_number" (MInt 0);
     ss_category := get_or metadata "category" (MStr EmptyString);
     ss_suggestion := get_or metadata "suggestion" (MStr EmptyString);
     ss_confidence := get_or metadata "confidence" (MInt 0);
     ss_action := get_or metadata "action" (MStr "pending") |}.

(** [files[file_path]["suggestions"].append(s)] on the insertion-ordered
    dictionary [files], creating the group when the path is new. *)
Fixpoint add_to_files (file_path : MetaValue) (s : SuggestionSummary)
    (files : list FileGroup) : list FileGroup :=
  match files with
  | [] => [ {| fg_file_path := file_path; fg_suggestions := [s] |} ]
  | g :: rest =>
      if bool_decide (fg_file_path g = file_path)
      then {| fg_file_path := fg_file_path g; fg_suggestions := fg_suggestions g ++ [s] |} :: rest
      else g :: add_to_files file_path s rest
  end.

(** The [for i, doc_id in enumerate(results["ids"])] loop. *)
Fixpoint group_loop (metadatas_ : list Metadata) (i : nat) (ids_ : list string)
    (files : list FileGroup) : outcome (list FileGroup) :=
  match ids_ with
  | [] => Return files
  | _ :: rest =>
      let metadata :=
        match metadatas_ with
        | [] => Return ∅
        | _ :: _ =>
            match metadatas_ !! i with
            | Some m => Return m
            | None => Raise (IndexError "list index out of range")
            end
        end in
      match metadata with
      | Raise e => Raise e
      | Return metadata =>
          let file_path := get_or metadata "file_path" (MStr "unknown") in
          group_loop metadatas_ (S i) rest (add_to_files file_path (summary_of metadata) files)
      end
  end.

(** [[m.get("timestamp", "") for m in metadatas if m.get("timestamp")]]. *)
Definition timestamps_of (metadatas_ : list Metadata) : list MetaValue :=
  omap (fun m : Metadata =>
          match m !! "timestamp" with
          | Some t => if truthy t then Some t else None
          | None => None
          end) metadatas_.

(** [now] is what [datetime.utcnow().isoformat()] would read. *)
Definition get_review (now : string) (review_id : MetaValue) : M Collection (option Review) :=
  try_except
    (results <- collection_get [("review_id", review_id)] ;;
     match ids results with
     | [] => ret None
     | _ :: _ =>
         files <- lift (group_loop (metadatas results) 0 (ids results) []) ;;
         created_at <- lift match timestamps_of (metadatas results) with
                            | [] => Return (MStr now)
                            | t :: ts => min_from t ts
                            end ;;
         ret (Some {| review_id := review_id;
                      files := files;
                      created_at := created_at;
                      suggestion_count := length (ids results) |})
     end)
    (fun e => _ <- print "Error getting review" ;; ret None).

(** [review_ids.add(v)], the set kept as the list of its distinct members. *)
Definition set_add (v : MetaValue) (members : list MetaValue) : list MetaValue :=
  if bool_decide (v ∈ members) then members else members ++ [v].

(** The loop that collects the review ids of all metadatas. *)
Definition collect_review_ids (metadatas_ : list Metadata) : list MetaValue :=
  foldl (fun members (m : Metadata) =>
           match m !! "review_id" with
           | Some v => set_add v members
           | None => members
           end) [] metadatas_.

(** The [for review_id in list(review_ids)[:limit]] loop. *)
Fixpoint reviews_loop (now : string) (review_ids : list MetaValue) (reviews : list Review)
    : M Collection (list Review) :=
  match review_ids with
  | [] => ret reviews
  | review_id :: rest =>
      review <- get_review now review_id ;;
      match review with
      | Some r => reviews_loop now rest (reviews ++ [r])
      | None => reviews_loop now rest reviews
      end
  end.

(** [set_iter] is the order in which Python iterates the set of review ids
    (it depends on the hashes of the ids, not on the data). *)
Definition get_recent_reviews (set_iter : list MetaValue -> list MetaValue)
    (now : string) (limit : Z) : M Collection (list Review) :=
  try_except
    (all_results <- collection_get [] ;;
     let review_ids := collect_review_ids (metadatas all_results) in
     reviews <- reviews_loop now (slice_to limit (set_iter review_ids)) [] ;;
     lift (sorted_desc created_at reviews))
    (fun e => _ <- print "Error getting recent reviews" ;; ret []).

End VectorStore.

(** ** The diff model and its context query ([services/diff_parser.py]) *)

Module DiffParser.

(** One line of a hunk, as [parse] records it. *)
Record Line : Type := {
  line_type : string;
  value : string;
  source_line_no : option Z;
  target_line_no : option Z
}.

Record Hunk : Type := {
  source_start : Z;
  source_length : Z;
  target_start : Z;
  target_length : Z;
  lines : list Line
}.

Record FileChange : Type := {
  path : string;
  additions : Z;
  deletions : Z;
  hunks : list Hunk
}.

Record ParsedDiff : Type := {
  files : list FileChange;
  raw_content : string
}.

(** The test of the inner loop:
    [line["target_line_no"] and abs(line["target_line_no"] - line_number) <= context_lines].
    A missing number and the number zero are both false in Python. *)
Definition in_context (line_number context_lines : Z) (line : Line) : bool :=
  match target_line_no line with
  | Some t => negb (t =? 0)%Z && (Z.abs (t - line_number) <=? context_lines)%Z
  | None => false
  end.

(** The text appended for a line: its target number, a colon and a blank,
    its value. *)
Definition render (line : Line) : string :=
  match target_line_no line with
  | Some t => pretty t +:+ ": " +:+ value line
  | None => "None: " +:+ value line
  end.

(** [for line in hunk["lines"]: ... context.append(...)]. *)
Fixpoint lines_loop (line_number context_lines : Z) (ls : list Line)
    (context : list string) : list string :=
  match ls with
  | [] => context
  | line :: rest =>
      lines_loop line_number context_lines rest
        (if in_context line_number context_lines line
         then context ++ [render line] else context)
  end.

(** [for hunk in file_change.hunks: ...]. *)
Fixpoint hunks_loop (line_number context_lines : Z) (hs : list Hunk)
    (context : list string) : list string :=
  match hs with
  | [] => context
  | hunk :: rest =>
      hunks_loop line_number context_lines rest
        (lines_loop line_number context_lines (lines hunk) context)
  end.

(** [for file_change in diff.files: if file_change.path == file_path: ... return]. *)
Fixpoint files_loop (fs : list FileChange) (file_path : string)
    (line_number context_lines : Z) : string :=
  match fs with
  | [] => EmptyString
  | file_change :: rest =>
      if String.eqb (path file_change) file_path
      then join nl (hunks_loop line_number context_lines (hunks file_change) [])
      else files_loop rest file_path line_number context_lines
  end.

Definition get_file_context (diff : ParsedDiff) (file_path : string)
    (line_number context_lines : Z) : string :=
  files_loop (files diff) file_path line_number context_lines.

(** *** [parse]

    What the diff library ([unidiff.PatchSet]) hands to [parse]: for each
    file of the patch its path, whether the patch removes the file, its
    numbers of added and removed lines, and its hunks with their lines. *)
Record PatchedLine : Type := {
  pl_line_type : string;
  pl_value : string;
  pl_source_line_no : option Z;
  pl_target_line_no : option Z
}.

Record PatchedHunk : Type := {
  ph_source_start : Z;
  ph_source_length : Z;
  ph_target_start : Z;
  ph_target_length : Z;
  ph_lines : list PatchedLine
}.

Record PatchedFile : Type := {
  pf_path : string;
  is_removed_file : bool;
  added : Z;
  removed : Z;
  pf_hunks : list PatchedHunk
}.

(** The dictionary appended for a line, and the one built for a hunk. *)
Definition line_data (line : PatchedLine) : Line :=
  {| line_type := pl_line_type line;
     value := pl_value line;
     source_line_no := pl_source_line_no line;
     target_line_no := pl_target_line_no line |}.

Definition hunk_data (hunk : PatchedHunk) : Hunk :=
  {| source_start := ph_source_start hunk;
     source_length := ph_source_length hunk;
     target_start := ph_target_start hunk;
     target_length := ph_target_length hunk;
     lines := line_data <$> ph_lines hunk |}.

(** [for patched_file in patch_set: if patched_file.is_removed_file: continue ...
    files.append(file_change)]. *)
Fixpoint parse_loop (patch_set : list PatchedFile) (files : list FileChange) : list FileChange :=
  match patch_set with
  | [] => files
  | patched_file :: rest =>
      if is_removed_file patched_file then parse_loop rest files
      else
        parse_loop rest
          (files ++ [ {| path := pf_path patched_file;
                         additions := added patched_file;
                         deletions := removed patched_file;
                         hunks := hunk_data <$> pf_hunks patched_file |} ])
  end.

(** [PatchSet] is the constructor of the diff library, which raises on text
    it cannot read. *)
Definition parse (PatchSet : string -> outcome (list PatchedFile)) (diff_content : string)
    : outcome ParsedDiff :=
  match PatchSet diff_content with
  | Raise e => Raise e
  | Return patch_set =>
      Return {| files := parse_loop patch_set []; raw_content := diff_content |}
  end.


End DiffParser.

(** ** Text helpers and decoded JSON values *)

Module Text.

(** [str.isspace] on the ASCII range.  A string is the bytes of the text, so
    white space outside ASCII (U+0085, U+00A0, U+2028 and the like) is not
    recognised: [strip] below is Python's on text that begins and ends with
    ASCII characters. *)
Definition is_space (c : ascii) : bool :=
  let n := nat_of_ascii c in
  ((9 <=? n) && (n <=? 13) || (28 <=? n) && (n <=? 32))%nat.

Fixpoint lstrip (s : string) : string :=
  match s with
  | String c rest => if is_space c then lstrip rest else s
  | EmptyString => EmptyString
  end.

Fixpoint rstrip (s : string) : string :=
  match s with
  | String c rest =>
      match rstrip rest with
      | EmptyString => if is_space c then EmptyString else String c EmptyString
      | r => String c r
      end
  | EmptyString => EmptyString
  end.

(** [s.strip()]. *)
Definition strip (s : string) : string := rstrip (lstrip s).

(** [sub in s]. *)
Fixpoint contains (sub s : string) : bool :=
  String.prefix sub s ||
  match s with
  | String _ rest => contains sub rest
  | EmptyString => false
  end.

(** [s.split(sep)] for a non-empty separator: [skip] counts the characters
    of a separator still to be passed over, [cur] is the piece being read. *)
Fixpoint split_go (sep : string) (skip : nat) (cur : string) (s : string) : list string :=
  match s with
  | EmptyString => [cur]
  | String c rest =>
      match skip with
      | S k => split_go sep k cur rest
      | O =>
          if String.prefix sep s
          then cur :: split_go sep (String.length sep - 1) EmptyString rest
          else split_go sep O (cur +:+ String c EmptyString) rest
      end
  end.

Definition split (sep s : string) : list string := split_go sep O EmptyString s.

(** [l[i]] with its [IndexError]. *)
Definition index {A} (l : list A) (i : nat) : outcome A :=
  match l !! i with
  | Some x => Return x
  | None => Raise (IndexError "list index out of range")
  end.

End Text.

Module Json.

(** What [json.loads] can return.  A float is kept as its literal. *)
Inductive JSON : Type :=
| JNull
| JBool (b : bool)
| JInt (n : Z)
| JFloat (literal : string)
| JStr (s : string)
| JArr (items : list JSON)
| JObj (members : list (string * JSON)).

(** [d.get(key, default)] on a decoded object; when a key is repeated in the
    text the last member is the one the dictionary holds. *)
Fixpoint obj_get (members : list (string * JSON)) (key : string) (dflt : JSON) : JSON :=
  match members with
  | [] => dflt
  | (k, v) :: rest =>
      if String.eqb k key then obj_get rest key v else obj_get rest key dflt
  end.

(** [x.get(key, default)] for any decoded value: only dictionaries have it. *)
Definition get (x : JSON) (key : string) (dflt : JSON) : outcome JSON :=
  match x with
  | JObj members => Return (obj_get members key dflt)
  | _ => Raise (AttributeError "object has no attribute 'get'")
  end.

Fixpoint chars (s : string) : list JSON :=
  match s with
  | EmptyString => []
  | String c rest => JStr (String c EmptyString) :: chars rest
  end.

(** The keys of a decoded object, each once, in order of first appearance. *)
Fixpoint keys (members : list (string * JSON)) (seen : list string) : list JSON :=
  match members with
  | [] => []
  | (k, _) :: rest =>
      if bool_decide (k ∈ seen) then keys rest seen
      else JStr k :: keys rest (k :: seen)
  end.

(** [for item in x]: the items a [for] loop visits, or [TypeError]. *)
Definition iterate (x : JSON) : outcome (list JSON) :=
  match x with
  | JArr items => Return items
  | JObj members => Return (keys members [])
  | JStr s => Return (chars s)
  | _ => Raise (TypeError "object is not iterable")
  end.

(** *** A decoder for the fragment of JSON without floats

    Used to run the parser on concrete responses: [null], [true], [false],
    integers, strings with the short escapes, arrays and objects. *)

Definition is_digit (c : ascii) : bool :=
  let n := nat_of_ascii c in ((48 <=? n) && (n <=? 57))%nat.

Definition is_ws (c : ascii) : bool :=
  let n := nat_of_ascii c in
  ((n =? 32) || (n =? 9) || (n =? 10) || (n =? 13))%nat.

Fixpoint skip_ws (s : string) : string :=
  match s with
  | String c rest => if is_ws c then skip_ws rest else s
  | EmptyString => EmptyString
  end.

(** The character an escape sequence stands for; [u] escapes are outside the
    fragment. *)
Definition unescape (c : ascii) : option ascii :=
  if Ascii.eqb c "034"%char then Some "034"%char
  else if Ascii.eqb c "092"%char then Some "092"%char
  else if Ascii.eqb c "/"%char then Some "/"%char
  else if Ascii.eqb c "n"%char then Some "010"%char
  else if Ascii.eqb c "t"%char then Some "009"%char
  else if Ascii.eqb c "r"%char then Some "013"%char
  else if Ascii.eqb c "b"%char then Some "008"%char
  else if Ascii.eqb c "f"%char then Some "012"%char
  else None.

(** Reads the body of a string up to its closing quote. *)
Fixpoint read_string (s : string) : option (string * string) :=
  match s with
  | EmptyString => None
  | String c rest =>
      if Ascii.eqb c "034"%char then Some (EmptyString, rest)
      else if Ascii.eqb c "092"%char then
        match rest with
        | String e rest' =>
            match unescape e, read_string rest' with
            | Some ch, Some (body, rest'') => Some (String ch body, rest'')
            | _, _ => None
            end
        | EmptyString => None
        end
      else if (nat_of_ascii c <? 32)%nat then None
      else match read_string rest with
           | Some (body, rest') => Some (String c body, rest')
           | None => None
           end
  end.

Fixpoint read_digits (acc : Z) (s : string) : Z * string :=
  match s with
  | String c rest =>
      if is_digit c
      then read_digits (acc * 10 + Z.of_nat (nat_of_ascii c - 48)) rest
      else (acc, s)
  | EmptyString => (acc, EmptyString)
  end.

(** A number of the fragment: an optional sign and digits with no leading
    zero, not followed by a fraction or an exponent. *)
Definition read_int (s : string) : option (Z * string) :=
  let '(neg, s1) :=
    match s with
    | String "-"%char rest => (true, rest)
    | _ => (false, s)
    end in
  match s1 with
  | String c rest =>
      if is_digit c then
        let '(n, s2) := read_digits 0 s1 in
        let leading_zero := Ascii.eqb c "0"%char && negb (String.eqb (String c s2) s1) in
        let more :=
          match s2 with
          | String d _ => Ascii.eqb d "."%char || Ascii.eqb d "e"%char || Ascii.eqb d "E"%char
          | EmptyString => false
          end in
        if leading_zero || more then None
        else Some (if neg then (- n)%Z else n, s2)
      else None
  | EmptyString => None
  end.

Fixpoint read_value (fuel : nat) (s : string) {struct fuel} : option (JSON * string) :=
  match fuel with
  | O => None
  | S fuel =>
      let s := skip_ws s in
      if String.prefix "null" s then Some (JNull, String.substring 4 (String.length s - 4) s)
      else if String.prefix "true" s then Some (JBool true, String.substring 4 (String.length s - 4) s)
      else if String.prefix "false" s then Some (JBool false, String.substring 5 (String.length s - 5) s)
      else
        match s with
        | String c rest =>
            if Ascii.eqb c "034"%char then
              match read_string rest with
              | Some (body, rest') => Some (JStr body, rest')
              | None => None
              end
            else if Ascii.eqb c "["%char then
              match skip_ws rest with
              | String "]"%char rest' => Some (JArr [], rest')
              | _ => read_items fuel rest []
              end
            else if Ascii.eqb c "{"%char then
              match skip_ws rest with
              | String "}"%char rest' => Some (JObj [], rest')
              | _ => read_members fuel rest []
              end
            else
              match read_int s with
              | Some (n, rest') => Some (JInt n, rest')
              | None => None
              end
        | EmptyString => None
        end
  end
with read_items (fuel : nat) (s : string) (acc : list JSON) {struct fuel}
    : option (JSON * string) :=
  match fuel with
  | O => None
  | S fuel =>
      match read_value fuel s with
      | Some (v, rest) =>
          match skip_ws rest with
          | String ","%char rest' => read_items fuel rest' (acc ++ [v])
          | String "]"%char rest' => Some (JArr (acc ++ [v]), rest')
          | _ => None
          end
      | None => None
      end
  end
with read_members (fuel : nat) (s : string) (acc : list (string * JSON)) {struct fuel}
    : option (JSON * string) :=
  match fuel with
  | O => None
  | S fuel =>
      match skip_ws s with
      | String c rest =>
          if Ascii.eqb c "034"%char then
            match read_string rest with
            | Some (k, rest1) =>
                match skip_ws rest1 with
                | String ":"%char rest2 =>
                    match read_value fuel rest2 with
                    | Some (v, rest3) =>
                        match skip_ws rest3 with
                        | String ","%char rest4 => read_members fuel rest4 (acc ++ [(k, v)])
                        | String "}"%char rest4 => Some (JObj (acc ++ [(k, v)]), rest4)
                        | _ => None
                        end
                    | None => None
                    end
                | _ => None
                end
            | None => None
            end
          else None
      | EmptyString => None
      end
  end.

(** [json.loads] on the fragment; anything else is reported as a decode
    error. *)
Definition loads_fragment (s : string) : outcome JSON :=
  match read_value (S (String.length s)) s with
  | Some (v, rest) =>
      match skip_ws rest with
      | EmptyString => Return v
      | _ => Raise (JSONDecodeError "Extra data")
      end
  | None => Raise (JSONDecodeError "Expecting value")
  end.

End Json.

(** ** The data model of a suggestion ([models.py]) *)

Module Models.

Import Json.

Record Suggestion : Type := {
  id : string;
  line_number : Z;
  end_line_number : option Z;
  file_path : string;
  category : string;
  suggestion : string;
  confidence : Z;
  code_snippet : string
}.

(** Field validators that accept a value of the annotated type and nothing
    else.  Every release of the validation library accepts these inputs; the
    lax modes accept more (digits in a string for an [int], say), which is
    why the services below take the validators as parameters. *)
Definition strict_int (v : JSON) : option Z :=
  match v with
  | JInt n => Some n
  | _ => None
  end.

Definition strict_str (v : JSON) : option string :=
  match v with
  | JStr s => Some s
  | _ => None
  end.

(** [Optional[int]]: [None] is allowed, anything else goes through the
    [int] validator. *)
Definition optional (validate_int : JSON -> option Z) (v : JSON) : option (option Z) :=
  match v with
  | JNull => Some None
  | _ => Some <$> validate_int v
  end.

(** The constructor [Suggestion(...)]: every field is validated, and one
    [ValidationError] reports every field that failed.  [id] and
    [file_path] are strings produced by the caller. *)
Definition new_Suggestion (validate_int : JSON -> option Z) (validate_str : JSON -> option string)
    (id_ : string) (line_number_ end_line_number_ : JSON) (file_path_ : string)
    (category_ suggestion_ confidence_ code_snippet_ : JSON) : outcome Suggestion :=
  match validate_int line_number_, optional validate_int end_line_number_,
        validate_str category_, validate_str suggestion_,
        validate_int confidence_, validate_str code_snippet_ with
  | Some ln, Some eln, Some cat, Some sug, Some conf, Some snip =>
      Return {| id := id_; line_number := ln; end_line_number := eln;
                file_path := file_path_; category := cat; suggestion := sug;
                confidence := conf; code_snippet := snip |}
  | _, _, _, _, _, _ => Raise (ValidationError "validation error for Suggestion")
  end.

End Models.

(** ** Writing a review to the store ([services/vector_store.py], continued) *)

Module VectorStoreAdd.

Import VectorStore Models.

(** [collection.add(documents=[document], ids=[doc_id], metadatas=[md])]: the
    record is appended to the collection; a record whose id the collection
    already holds is ignored, and no exception is raised for it. *)
Definition collection_add (doc_id document : string) (md : Metadata) : M Collection unit :=
  modify (fun c =>
            if bool_decide (doc_id ∈ (entry_id <$> c)) then c
            else c ++ [ {| entry_id := doc_id;
                           entry_document := document;
                           entry_metadata := md |} ]).

(** The id under which a suggestion is stored. *)
Definition doc_id_of (review_id file_path : string) (suggestion : Suggestion) : string :=
  review_id +:+ "_" +:+ file_path +:+ "_" +:+ id suggestion.

(** The metadata dictionary of a freshly stored suggestion; [now] is the
    reading of the clock when the dictionary is built. *)
Definition pending_metadata (review_id file_path : string) (suggestion : Suggestion)
    (now : string) : Metadata :=
  list_to_map
    [ ("review_id", MStr review_id);
      ("file_path", MStr file_path);
      ("suggestion_id", MStr (id suggestion));
      ("suggestion", MStr (Models.suggestion suggestion));
      ("category", MStr (category suggestion));
      ("confidence", MInt (confidence suggestion));
      ("line_number", MInt (line_number suggestion));
      ("action", MStr "pending");
      ("timestamp", MStr now) ].

(** [for suggestion in suggestions: ... add(...)]; [clock k] is what
    [datetime.utcnow().isoformat()] reads in turn [k] of the loop. *)
Fixpoint add_loop (clock : nat -> string) (k : nat) (review_id file_path code_context : string)
    (suggestions : list Suggestion) : M Collection unit :=
  match suggestions with
  | [] => ret tt
  | suggestion :: rest =>
      _ <- collection_add (doc_id_of review_id file_path suggestion) code_context
             (pending_metadata review_id file_path suggestion (clock k)) ;;
      add_loop clock (S k) review_id file_path code_context rest
  end.

Definition store_review_context (clock : nat -> string)
    (review_id file_path code_context : string) (suggestions : list Suggestion)
    : M Collection unit :=
  try_except
    (add_loop clock 0 review_id file_path code_context suggestions)
    (fun e => print "Error storing review context").

End VectorStoreAdd.

(** ** The suggestion generator and orchestrator ([services/review_service.py]) *)

Module ReviewService.

Import Text Json Models.

(** What a review request can touch: the feedback store, and how many
    identifiers and model answers have been drawn so far. *)
Record World : Type := {
  suggestions_collection : VectorStore.Collection;
  uuids_drawn : nat;
  llm_calls : nat
}.

(** A store operation run inside a request. *)
Definition on_store {A} (m : M VectorStore.Collection A) : M World A :=
  fun w =>
    let '(c, o) := m (suggestions_collection w) in
    ({| suggestions_collection := c; uuids_drawn := uuids_drawn w; llm_calls := llm_calls w |}, o).

(** A method that owns a local variable of type [L] next to the world. *)
Definition with_local {L A} (init : L) (m : M (World * L) A) : M World A :=
  fun w => let '((w', _), o) := m (w, init) in (w', o).

Definition on_world {L A} (m : M World A) : M (World * L) A :=
  fun wl => let '(w', o) := m wl.1 in ((w', wl.2), o).

(** [_build_code_context]: the changed lines of a file, one per line. *)
Definition changed_line (line : DiffParser.Line) : option string :=
  if bool_decide (DiffParser.line_type line ∈ ["+"; "-"]) then
    let line_num :=
      match DiffParser.target_line_no line with
      | Some t => if (t =? 0)%Z then default 0%Z (DiffParser.source_line_no line) else t
      | None => default 0%Z (DiffParser.source_line_no line)
      end in
    Some (DiffParser.line_type line +:+ " " +:+ pretty line_num +:+ ": " +:+ DiffParser.value line)
  else None.

Definition _build_code_context (file_change : DiffParser.FileChange) : string :=
  join nl (mbind (fun hunk => omap changed_line (DiffParser.lines hunk))
             (DiffParser.hunks file_change)).

(** *** [_build_review_prompt] *)

(** The loop that sorts the similar reviews into the two pattern lists. *)
Fixpoint patterns_loop (similar_reviews : list VectorStore.SimilarReview)
    (accepted_patterns rejected_patterns : list string) : list string * list string :=
  match similar_reviews with
  | [] => (accepted_patterns, rejected_patterns)
  | review :: rest =>
      if bool_decide (VectorStore.sr_action review = MStr "accept") then
        patterns_loop rest
          (accepted_patterns ++ ["- " +:+ str (VectorStore.sr_suggestion review)])
          rejected_patterns
      else if bool_decide (VectorStore.sr_action review = MStr "reject") then
        patterns_loop rest accepted_patterns
          (rejected_patterns ++ ["- " +:+ str (VectorStore.sr_suggestion review)])
      else patterns_loop rest accepted_patterns rejected_patterns
  end.

(** The two guidance blocks, each absent when its list is empty. *)
Definition accepts_block (accepted_patterns : list string) : string :=
  match accepted_patterns with
  | [] => EmptyString
  | _ => "User typically accepts:" +:+ nl +:+ join nl (take 3 accepted_patterns) +:+ nl
  end.

Definition rejects_block (rejected_patterns : list string) : string :=
  match rejected_patterns with
  | [] => EmptyString
  | _ => "User typically rejects:" +:+ nl +:+ join nl (take 3 rejected_patterns) +:+ nl
  end.

Definition learned_header : string := nl +:+ nl +:+ "## Learned Preferences:" +:+ nl.

(** The value of the local [learned_context]. *)
Definition learned_context (similar_reviews : list VectorStore.SimilarReview) : string :=
  match similar_reviews with
  | [] => EmptyString
  | _ :: _ =>
      let '(accepted_patterns, rejected_patterns) := patterns_loop similar_reviews [] [] in
      match accepted_patterns, rejected_patterns with
      | [], [] => EmptyString
      | _, _ =>
          learned_header +:+ accepts_block accepted_patterns +:+ rejects_block rejected_patterns
      end
  end.

(** The prompt template with its three holes. *)
Definition prompt_template (file_path code_context learned : string) : string :=
  join nl
    [ "You are an expert code reviewer. Analyze the following code changes and provide specific, actionable suggestions.";
      EmptyString;
      "## File: " +:+ file_path;
      EmptyString;
      "## Code Changes:";
      "```diff";
      code_context;
      "```";
      EmptyString;
      "## Review Guidelines:";
      "1. Focus on: bugs, performance issues, security vulnerabilities, best practices, and code clarity";
      "2. Be specific and actionable - suggest concrete improvements";
      "3. Prioritize important issues over style nitpicks";
      "4. Provide confidence scores (0-100) for each suggestion";
      "5. Categorize suggestions: bug, performance, security, best_practice, readability, style";
      learned;
      EmptyString;
      "## Output Format (JSON array):";
      "[";
      "  {";
      "    " +:+ dq +:+ "line_number" +:+ dq +:+ ": <int>,";
      "    " +:+ dq +:+ "end_line_number" +:+ dq +:+ ": <int or null>,";
      "    " +:+ dq +:+ "category" +:+ dq +:+ ": " +:+ dq +:+ "<category>" +:+ dq +:+ ",";
      "    " +:+ dq +:+ "suggestion" +:+ dq +:+ ": " +:+ dq +:+ "<detailed suggestion>" +:+ dq +:+ ",";
      "    " +:+ dq +:+ "confidence" +:+ dq +:+ ": <0-100>,";
      "    " +:+ dq +:+ "code_snippet" +:+ dq +:+ ": " +:+ dq +:+ "<relevant code snippet>" +:+ dq;
      "  }";
      "]";
      EmptyString;
      "Provide only the JSON array, no additional text." ].

Definition _build_review_prompt (code_context file_path : string)
    (similar_reviews : list VectorStore.SimilarReview) : string :=
  prompt_template file_path code_context (learned_context similar_reviews).

(** *** The collaborators of the service *)

Section Service.

(** The similarity order of the storage engine. *)
Variable rank : string -> VectorStore.Collection -> list VectorStore.Entry.
(** The answer of the generation engine to its n-th call. *)
Variable llm : nat -> string -> outcome string.
(** The n-th identifier [uuid.uuid4()] hands out. *)
Variable uuid_source : nat -> string.
(** [json.loads]. *)
Variable json_loads : string -> outcome JSON.
(** The field validators of the [Suggestion] model. *)
Variable validate_int : JSON -> option Z.
Variable validate_str : JSON -> option string.
(** [MIN_CONFIDENCE_TO_SHOW] as read at construction. *)
Variable min_confidence : Z.

Definition uuid4 : M World string :=
  fun w =>
    ({| suggestions_collection := suggestions_collection w;
        uuids_drawn := S (uuids_drawn w);
        llm_calls := llm_calls w |},
     Return (uuid_source (uuids_drawn w))).

Definition _call_llm (prompt : string) : M World string :=
  fun w =>
    ({| suggestions_collection := suggestions_collection w;
        uuids_drawn := uuids_drawn w;
        llm_calls := S (llm_calls w) |},
     llm (llm_calls w) prompt).

(** *** [_parse_llm_response] *)

(** The text handed to [json.loads]: the stripped response, or the inside
    of its first fenced block. *)
Definition extract_json {S} (response : string) : M S string :=
  let response := strip response in
  if contains "```json" response then
    after <- lift (index (split "```json" response) 1) ;;
    inside <- lift (index (split "```" after) 0) ;;
    ret (strip inside)
  else if contains "```" response then
    after <- lift (index (split "```" response) 1) ;;
    inside <- lift (index (split "```" after) 0) ;;
    ret (strip inside)
  else ret response.

(** One turn of the loop body up to the constructed [Suggestion]; the
    identifier is drawn before the item is looked at. *)
Definition build_suggestion (file_path : string) (sug_data : JSON) : M World Suggestion :=
  id_ <- uuid4 ;;
  ln <- lift (get sug_data "line_number" (JInt 0)) ;;
  eln <- lift (get sug_data "end_line_number" JNull) ;;
  cat <- lift (get sug_data "category" (JStr "best_practice")) ;;
  sug <- lift (get sug_data "suggestion" (JStr EmptyString)) ;;
  conf <- lift (get sug_data "confidence" (JInt 50)) ;;
  snip <- lift (get sug_data "code_snippet" (JStr EmptyString)) ;;
  lift (new_Suggestion validate_int validate_str id_ ln eln file_path cat sug conf snip).

(** [for sug_data in suggestions_data: ... suggestions.append(suggestion)],
    the local list [suggestions] being the second component of the state. *)
Fixpoint suggestions_loop (file_path : string) (items : list JSON)
    : M (World * list Suggestion) unit :=
  match items with
  | [] => ret tt
  | sug_data :: rest =>
      s <- on_world (build_suggestion file_path sug_data) ;;
      _ <- modify (fun wl : World * list Suggestion => (wl.1, wl.2 ++ [s])) ;;
      suggestions_loop file_path rest
  end.

Definition _parse_llm_response (response file_path : string) : M World (list Suggestion) :=
  with_local []
    (_ <- try_except
            (text <- extract_json response ;;
             suggestions_data <- lift (json_loads text) ;;
             items <- lift (iterate suggestions_data) ;;
             suggestions_loop file_path items)
            (fun e =>
               match e with
               | JSONDecodeError _ => print "Error parsing LLM response"
               | _ => print "Error creating suggestions"
               end) ;;
     frame <- get_state ;;
     ret frame.2).

(** *** [_review_file] and [generate_review] *)

Definition _review_file (file_change : DiffParser.FileChange) (parsed_diff : DiffParser.ParsedDiff)
    (review_id : string) : M World (list Suggestion) :=
  let code_context := _build_code_context file_change in
  similar_reviews <- on_store (VectorStore.find_similar_code rank code_context 3) ;;
  let prompt := _build_review_prompt code_context (DiffParser.path file_change) similar_reviews in
  try_except
    (response <- _call_llm prompt ;;
     _parse_llm_response response (DiffParser.path file_change))
    (fun e => _ <- print "Error generating review" ;; ret []).

(** The loop over the files of the diff, extending [all_suggestions]. *)
Fixpoint review_loop (fs : list DiffParser.FileChange) (parsed_diff : DiffParser.ParsedDiff)
    (review_id : string) (all_suggestions : list Suggestion) : M World (list Suggestion) :=
  match fs with
  | [] => ret all_suggestions
  | file_change :: rest =>
      file_suggestions <- _review_file file_change parsed_diff review_id ;;
      review_loop rest parsed_diff review_id (all_suggestions ++ file_suggestions)
  end.

(** The value of the local [all_suggestions] when the loop is over. *)
Definition all_suggestions (parsed_diff : DiffParser.ParsedDiff) (review_id : string)
    : M World (list Suggestion) :=
  review_loop (DiffParser.files parsed_diff) parsed_diff review_id [].

Definition generate_review (parsed_diff : DiffParser.ParsedDiff) (review_id : string)
    : M World (list Suggestion) :=
  generated <- all_suggestions parsed_diff review_id ;;
  ret (List.filter (fun s => (min_confidence <=? confidence s)%Z) generated).

End Service.

(** *** [store_review_session]

    [clock k] gives the readings of the clock while the suggestions of the
    [k]-th file are stored. *)
Fixpoint session_loop (clock : nat -> nat -> string) (k : nat) (review_id : string)
    (fs : list DiffParser.FileChange) (suggestions : list Suggestion) : M World unit :=
  match fs with
  | [] => ret tt
  | file_change :: rest =>
      let code_context := _build_code_context file_change in
      let file_suggestions :=
        List.filter (fun s => String.eqb (file_path s) (DiffParser.path file_change))
          suggestions in
      _ <- on_store (VectorStoreAdd.store_review_context (clock k) review_id
                       (DiffParser.path file_change) code_context file_suggestions) ;;
      session_loop clock (S k) review_id rest suggestions
  end.

Definition store_review_session (clock : nat -> nat -> string) (review_id : string)
    (parsed_diff : DiffParser.ParsedDiff) (suggestions : list Suggestion) : M World unit :=
  session_loop clock 0 review_id (DiffParser.files parsed_diff) suggestions.


End ReviewService.

(** ** The statistics aggregator ([services/stats_service.py]) *)

Module StatsService.

Import VectorStore.

(** The inner dictionaries of [by_category] and [by_confidence]. *)
Record CategoryCounts : Type := {
  cat_accept : Z;
  cat_reject : Z;
  cat_edit : Z
}.

Record ConfidenceCounts : Type := {
  conf_accept : Z;
  conf_reject : Z
}.

Record Pattern : Type := {
  p_category : MetaValue;
  p_action : MetaValue;
  p_confidence : MetaValue;
  p_timestamp : MetaValue
}.

(** The value of [acceptance_rate]: the integer [0] of the two early
    returns, or the float [round(accepts / total * 100, 2)], kept as the two
    counts it is computed from. *)
Inductive Rate : Type :=
| RateInt (n : Z)
| RatePercent (accepts total : Z).

(** The dictionary [get_statistics] returns; a key the dictionary lacks is
    [None]. *)
Record Statistics : Type := {
  error : option string;
  total_feedback : Z;
  acceptance_rate : Rate;
  accepts : option Z;
  rejects : option Z;
  edits : option Z;
  by_category : option (gmap MetaValue CategoryCounts);
  by_confidence : option (gmap string ConfidenceCounts);
  recent_patterns : option (list Pattern)
}.

(** The locals of the counting loop. *)
Record Tally : Type := {
  t_accepts : Z;
  t_rejects : Z;
  t_edits : Z;
  t_by_category : gmap MetaValue CategoryCounts;
  t_by_confidence : gmap string ConfidenceCounts
}.

Definition tally0 : Tally :=
  {| t_accepts := 0; t_rejects := 0; t_edits := 0; t_by_category := ∅; t_by_confidence := ∅ |}.

(** [by_category[category][field] += 1] on the [defaultdict]. *)
Definition bump_category (category : MetaValue) (f : CategoryCounts -> CategoryCounts)
    (m : gmap MetaValue CategoryCounts) : gmap MetaValue CategoryCounts :=
  <[category := f (default {| cat_accept := 0; cat_reject := 0; cat_edit := 0 |} (m !! category))]> m.

Definition bump_confidence (range : string) (f : ConfidenceCounts -> ConfidenceCounts)
    (m : gmap string ConfidenceCounts) : gmap string ConfidenceCounts :=
  <[range := f (default {| conf_accept := 0; conf_reject := 0 |} (m !! range))]> m.

(** The label of the 20-point bucket of a confidence; floor division is not
    defined on a string. *)
Definition confidence_range (confidence : MetaValue) : outcome string :=
  match confidence with
  | MInt n => Return (pretty (n / 20 * 20)%Z +:+ "-" +:+ pretty (n / 20 * 20 + 19)%Z)
  | MStr _ => Raise (TypeError "unsupported operand type(s) for //: 'str' and 'int'")
  end.

(** The body of [for metadata in feedback_items]. *)
Definition count_item (metadata : Metadata) (t : Tally) : outcome Tally :=
  let action := get_or metadata "action" (MStr EmptyString) in
  let category := get_or metadata "category" (MStr "unknown") in
  let confidence := get_or metadata "confidence" (MInt 50) in
  let t :=
    if bool_decide (action = MStr "accept") then
      {| t_accepts := t_accepts t + 1; t_rejects := t_rejects t; t_edits := t_edits t;
         t_by_category :=
           bump_category category
             (fun c => {| cat_accept := cat_accept c + 1; cat_reject := cat_reject c; cat_edit := cat_edit c |})
             (t_by_category t);
         t_by_confidence := t_by_confidence t |}
    else if bool_decide (action = MStr "reject") then
      {| t_accepts := t_accepts t; t_rejects := t_rejects t + 1; t_edits := t_edits t;
         t_by_category :=
           bump_category category
             (fun c => {| cat_accept := cat_accept c; cat_reject := cat_reject c + 1; cat_edit := cat_edit c |})
             (t_by_category t);
         t_by_confidence := t_by_confidence t |}
    else if bool_decide (action = MStr "edit") then
      {| t_accepts := t_accepts t; t_rejects := t_rejects t; t_edits := t_edits t + 1;
         t_by_category :=
           bump_category category
             (fun c => {| cat_accept := cat_accept c; cat_reject := cat_reject c; cat_edit := cat_edit c + 1 |})
             (t_by_category t);
         t_by_confidence := t_by_confidence t |}
    else t in
  match confidence_range confidence with
  | Raise e => Raise e
  | Return range =>
      Return
        (if bool_decide (action = MStr "accept") then
           {| t_accepts := t_accepts t; t_rejects := t_rejects t; t_edits := t_edits t;
              t_by_category := t_by_category t;
              t_by_confidence :=
                bump_confidence range
                  (fun c => {| conf_accept := conf_accept c + 1; conf_reject := conf_reject c |})
                  (t_by_confidence t) |}
         else if bool_decide (action = MStr "reject") then
           {| t_accepts := t_accepts t; t_rejects := t_rejects t; t_edits := t_edits t;
              t_by_category := t_by_category t;
              t_by_confidence :=
                bump_confidence range
                  (fun c => {| conf_accept := conf_accept c; conf_reject := conf_reject c + 1 |})
                  (t_by_confidence t) |}
         else t)
  end.

Fixpoint count_loop (feedback_items : list Metadata) (t : Tally) : outcome Tally :=
  match feedback_items with
  | [] => Return t
  | metadata :: rest =>
      match count_item metadata t with
      | Return t' => count_loop rest t'
      | Raise e => Raise e
      end
  end.

(** The loop that keeps the metadata of the documents with feedback. *)
Fixpoint feedback_loop (metadatas_ : list Metadata) (i : nat) (ids_ : list string)
    (feedback_items : list Metadata) : list Metadata :=
  match ids_ with
  | [] => feedback_items
  | _ :: rest =>
      let metadata := default ∅ (metadatas_ !! i) in
      let action := get_or metadata "action" (MStr "pending") in
      feedback_loop metadatas_ (S i) rest
        (if is_feedback_action action then feedback_items ++ [metadata] else feedback_items)
  end.

(** [x.get("feedback_timestamp", x.get("timestamp", ""))]. *)
Definition feedback_time (x : Metadata) : MetaValue :=
  get_or x "feedback_timestamp" (get_or x "timestamp" (MStr EmptyString)).

Definition pattern_of (metadata : Metadata) : Pattern :=
  {| p_category := get_or metadata "category" (MStr EmptyString);
     p_action := get_or metadata "action" (MStr EmptyString);
     p_confidence := get_or metadata "confidence" (MInt 0);
     p_timestamp := feedback_time metadata |}.

(** The dictionary returned when no document has feedback. *)
Definition zeroed : Statistics :=
  {| error := None; total_feedback := 0; acceptance_rate := RateInt 0;
     accepts := None; rejects := None; edits := None;
     by_category := Some ∅; by_confidence := Some ∅; recent_patterns := Some [] |}.

(** The dictionary returned by the exception handler. *)
Definition failed (e : exn) : Statistics :=
  {| error := Some (message e); total_feedback := 0; acceptance_rate := RateInt 0;
     accepts := None; rejects := None; edits := None;
     by_category := None; by_confidence := None; recent_patterns := None |}.

(** [get_statistics], reading the collection through [fetch]. *)
Definition get_statistics_via (fetch : M Collection GetResult) : M Collection Statistics :=
  try_except
    (all_results <- fetch ;;
     let feedback_items := feedback_loop (metadatas all_results) 0 (ids all_results) [] in
     match feedback_items with
     | [] => ret zeroed
     | _ :: _ =>
         let total := Z.of_nat (length feedback_items) in
         t <- lift (count_loop feedback_items tally0) ;;
         sorted_items <- lift (sorted_desc feedback_time feedback_items) ;;
         ret {| error := None;
                total_feedback := total;
                acceptance_rate :=
                  if (0 <? total)%Z then RatePercent (t_accepts t) total else RateInt 0;
                accepts := Some (t_accepts t);
                rejects := Some (t_rejects t);
                edits := Some (t_edits t);
                by_category := Some (t_by_category t);
                by_confidence := Some (t_by_confidence t);
                recent_patterns := Some (pattern_of <$> take 10 sorted_items) |}
     end)
    (fun e => _ <- print "Error getting statistics" ;; ret (failed e)).

(** [get_statistics] on the collection of the store. *)
Definition get_statistics : M Collection Statistics :=
  get_statistics_via (collection_get []).

End StatsService.

(** ** The HTTP handlers ([api/feedback.py], [api/review.py]) and the feedback
    service ([services/feedback_service.py]) *)

Module Api.

Import VectorStore.

Record FeedbackRequest : Type := {
  review_id : string;
  suggestion_id : string;
  action : string;
  reason : option string;
  edited_suggestion : option string
}.

Record FeedbackResponse : Type := {
  success : bool;
  message : string
}.

(** A handler builds its service inside its own [try].  The constructors
    [FeedbackService()], [ReviewService()] and [StatsService()] read the
    environment and open the persistent store; they raise when that fails (a
    threshold that is no number, a store that cannot be opened) and do not
    change what the store holds.  The outcome of the construction is an
    input of the handler. *)
Abbreviation Construction := (outcome unit).

(** [FeedbackService.process_feedback]. *)
Definition process_feedback (now : string) (review_id suggestion_id action : string)
    (reason edited_suggestion : option string) : M Collection unit :=
  store_feedback now review_id suggestion_id action reason edited_suggestion.

Definition submit_feedback (new_FeedbackService : Construction) (now : string)
    (request : FeedbackRequest) : M Collection FeedbackResponse :=
  try_except
    (_ <- (if bool_decide (action request ∈ ["accept"; "reject"; "edit"])
           then ret tt
           else raise (HTTPException 400 "Invalid action. Must be 'accept', 'reject', or 'edit'")) ;;
     feedback_service <- lift new_FeedbackService ;;
     _ <- process_feedback now (review_id request) (suggestion_id request) (action request)
            (reason request) (edited_suggestion request) ;;
     ret {| success := true;
            message := "Feedback " +:+ action request +:+ "ed successfully" |})
    (fun e => raise (HTTPException 500 (Py.message e))).

(** The status of the HTTP response the framework sends for the outcome of
    a handler. *)
Definition response_status {A} (o : outcome A) : Z :=
  match o with
  | Return _ => 200
  | Raise (HTTPException status_code _) => status_code
  | Raise _ => 500
  end.

(** [GET /api/review/{review_id}] of [api/review.py], whose handler lets an
    [HTTPException] of its own pass through. *)
Definition get_review_endpoint (new_ReviewService : Construction) (now : string)
    (review_id : string) : M Collection VectorStore.Review :=
  try_except
    (review_service <- lift new_ReviewService ;;
     review <- VectorStore.get_review now (MStr review_id) ;;
     match review with
     | Some r => ret r
     | None => raise (HTTPException 404 "Review not found")
     end)
    (fun e =>
       match e with
       | HTTPException _ _ => raise e
       | _ => raise (HTTPException 500 (Py.message e))
       end).

(** [GET /api/reviews] of [api/review.py]; the service method
    [ReviewService.get_recent_reviews] hands the call to the store. *)
Definition get_reviews (new_ReviewService : Construction)
    (set_iter : list MetaValue -> list MetaValue) (now : string)
    (limit : Z) : M Collection (list VectorStore.Review) :=
  try_except
    (review_service <- lift new_ReviewService ;;
     reviews <- VectorStore.get_recent_reviews set_iter now limit ;;
     ret reviews)
    (fun e => raise (HTTPException 500 (Py.message e))).

(** [GET /api/stats] of [api/stats.py]. *)
Definition get_stats (new_StatsService : Construction)
    : M Collection StatsService.Statistics :=
  try_except
    (stats_service <- lift new_StatsService ;;
     stats <- StatsService.get_statistics ;;
     ret stats)
    (fun e => raise (HTTPException 500 (Py.message e))).


End Api.

(** ** The handler that creates a review ([api/review.py]) *)

Module ReviewApi.

Import Models.

Record ReviewRequest : Type := {
  source : string;
  url : option string;
  content : option string;
  pr_number : option Z;
  repo_owner : option string;
  repo_name : option string
}.

Record ReviewResponse : Type := {
  review_id : string;
  suggestions : list Suggestion;
  file_count : Z;
  total_changes : Z;
  created_at : string
}.

(** Truth value of an optional integer ([None] and zero are false). *)
Definition truthy_int (o : option Z) : bool :=
  match o with
  | Some n => negb (n =? 0)%Z
  | None => false
  end.

(** [sum(f.additions + f.deletions for f in parsed_diff.files)]. *)
Definition sum_changes (fs : list DiffParser.FileChange) : Z :=
  foldl (fun total f => (total + (DiffParser.additions f + DiffParser.deletions f))%Z) 0%Z fs.

Section Handler.

(** The collaborators of the review service. *)
Variable rank : string -> VectorStore.Collection -> list VectorStore.Entry.
Variable llm : nat -> string -> outcome string.
Variable uuid_source : nat -> string.
Variable json_loads : string -> outcome Json.JSON.
Variable validate_int : Json.JSON -> option Z.
Variable validate_str : Json.JSON -> option string.
Variable min_confidence : Z.
(** The constructor of the diff library. *)
Variable PatchSet : string -> outcome (list DiffParser.PatchedFile).
(** The two fetches of [GitHubService], which answer with the diff text and a
    file path, or raise. *)
Variable fetch_pr_diff : string -> outcome (string * string).
Variable fetch_pr_diff_by_repo : string -> string -> Z -> outcome (string * string).
(** The readings of the clock while the session is stored, and the reading
    that dates the response. *)
Variable clock : nat -> nat -> string.
Variable now : string.

(** The part of the handler that settles [diff_content]. *)
Definition get_diff_content (request : ReviewRequest) : M ReviewService.World string :=
  if String.eqb (source request) "github" then
    if negb (truthy_opt (url request)) &&
       negb (truthy_opt (repo_owner request) && truthy_opt (repo_name request) &&
             truthy_int (pr_number request))
    then raise (HTTPException 400 "GitHub URL or repo details required")
    else
      fetched <- lift (if truthy_opt (url request)
                       then fetch_pr_diff (default EmptyString (url request))
                       else fetch_pr_diff_by_repo
                              (default EmptyString (repo_owner request))
                              (default EmptyString (repo_name request))
                              (default 0%Z (pr_number request))) ;;
      ret fetched.1
  else if String.eqb (source request) "diff" then
    if negb (truthy_opt (content request))
    then raise (HTTPException 400 "Diff content required")
    else ret (default EmptyString (content request))
  else raise (HTTPException 400 "Invalid source type").

Definition create_review (request : ReviewRequest) : M ReviewService.World ReviewResponse :=
  try_except
    (review_id <- ReviewService.uuid4 uuid_source ;;
     diff_content <- get_diff_content request ;;
     parsed_diff <- lift (DiffParser.parse PatchSet diff_content) ;;
     suggestions <- ReviewService.generate_review rank llm uuid_source json_loads
                      validate_int validate_str min_confidence parsed_diff review_id ;;
     _ <- ReviewService.store_review_session clock review_id parsed_diff suggestions ;;
     ret {| review_id := review_id;
            suggestions := suggestions;
            file_count := Z.of_nat (length (DiffParser.files parsed_diff));
            total_changes := sum_changes (DiffParser.files parsed_diff);
            created_at := now |})
    (fun e => raise (HTTPException 500 (Py.message e))).

End Handler.

End ReviewApi.


(** ** Vocabulary for the properties of the store *)

Module StoreSpec.

Import VectorStore.

(** The filter [store_feedback] looks a document up with. *)
Definition key_of (rid sid : string) (e : Entry) : bool :=
  matches_where [("review_id", MStr rid); ("suggestion_id", MStr sid)] (entry_metadata e).

(** What a reader of the store sees for a (review, suggestion) pair: the
    metadata of the first document that matches both ids. *)
Definition observe (review_id suggestion_id : string) (c : Collection) : option Metadata :=
  entry_metadata <$>
    head (List.filter
            (fun e => matches_where [("review_id", MStr review_id);
                                     ("suggestion_id", MStr suggestion_id)]
                        (entry_metadata e)) c).

(** The test both [find_similar_code] and [get_statistics] apply to the
    metadata of a document. *)
Definition has_feedback (m : Metadata) : bool :=
  is_feedback_action (get_or m "action" (MStr "pending")).

(** [a] does not sort below [b]: its key is not less than the key of [b]. *)
Definition not_before {A} (key : A -> MetaValue) (a b : A) : Prop :=
  less_than (key a) (key b) = Return false.

(** A document is in a terminal action state when its metadata records one
    of the three feedback actions. *)
Definition in_terminal_state (e : Entry) : Prop :=
  exists a, a ∈ ["accept"; "reject"; "edit"] /\ entry_metadata e !! "action" = Some (MStr a).

#[export] Instance in_terminal_state_dec e : Decision (in_terminal_state e).
Proof.
  unfold in_terminal_state. destruct (entry_metadata e !! "action") as [[a|n]|].
  - destruct (decide (a ∈ ["accept"; "reject"; "edit"])) as [H|H].
    + left. exists a. auto.
    + right. intros (a' & Ha & [= <-]). auto.
  - right. intros (a' & _ & [=]).
  - right. intros (a' & _ & [=]).
Defined.

End StoreSpec.

(** ** The context query as its documentation states it *)

Module DiffSpec.

Import DiffParser.

(** A line lies within the window of a line number when it has a target
    line number at most [window] away from it. *)
Definition within_window (line_number window : Z) (line : Line) : Prop :=
  exists t, target_line_no line = Some t /\ (Z.abs (t - line_number) <= window)%Z.

#[export] Instance within_window_dec line_number window line :
  Decision (within_window line_number window line).
Proof.
  unfold within_window. destruct (target_line_no line) as [t|].
  - destruct (decide (Z.abs (t - line_number) <= window)%Z) as [H|H].
    + left. exists t. auto.
    + right. intros (t' & [= <-] & H'). auto.
  - right. intros (t' & [=] & _).
Defined.

(** The text of a numbered line. *)
Definition numbered (line : Line) : string :=
  match target_line_no line with
  | Some t => pretty t +:+ ": " +:+ value line
  | None => value line
  end.

(** The context of a file as a selection of its lines: the selected lines of
    the first file with that path, in order, one per line of text. *)
Definition context_of (selected : Line -> Prop) `{!forall line, Decision (selected line)}
    (diff : ParsedDiff) (file_path : string) : string :=
  match List.find (fun f => String.eqb (path f) file_path) (files diff) with
  | None => EmptyString
  | Some f => join nl (numbered <$> filter selected (mbind lines (hunks f)))
  end.

Definition zero_line_diff : ParsedDiff :=
  {| files := [ {| path := "a.py"; additions := 1; deletions := 0;
                   hunks := [ {| source_start := 0; source_length := 0;
                                 target_start := 0; target_length := 1;
                                 lines := [ {| line_type := "+"; value := "x";
                                               source_line_no := None;
                                               target_line_no := Some 0%Z |} ] |} ] |} ];
     raw_content := EmptyString |}.

End DiffSpec.

(** ** The text of the prompt, written out *)

Module PromptSpec.

Import VectorStore ReviewService.

(** The guidance lines of the accepted and of the rejected suggestions among
    the similar reviews, in retrieval order. *)
Definition accepted_texts (similar_reviews : list SimilarReview) : list string :=
  (fun r => "- " +:+ str (sr_suggestion r)) <$>
    filter (fun r => sr_action r = MStr "accept") similar_reviews.

Definition rejected_texts (similar_reviews : list SimilarReview) : list string :=
  (fun r => "- " +:+ str (sr_suggestion r)) <$>
    filter (fun r => sr_action r = MStr "reject") similar_reviews.

(** The learned-preferences section for the guidance lines it shows: nothing
    at all without a line, else the header and a block for each kind of
    line that is shown. *)
Definition preferences_section (shown_accepts shown_rejects : list string) : string :=
  match shown_accepts, shown_rejects with
  | [], [] => EmptyString
  | _, _ =>
      nl +:+ nl +:+ "## Learned Preferences:" +:+ nl +:+
      match shown_accepts with
      | [] => EmptyString
      | _ => "User typically accepts:" +:+ nl +:+ join nl shown_accepts +:+ nl
      end +:+
      match shown_rejects with
      | [] => EmptyString
      | _ => "User typically rejects:" +:+ nl +:+ join nl shown_rejects +:+ nl
      end
  end.

(** The text of a prompt for a file, its changes and the text in the place
    of the learned preferences, character by character. *)
Definition prompt_text (file_path code_context preferences : string) : string :=
  "You are an expert code reviewer. Analyze the following code changes and provide specific, actionable suggestions."
  +:+ nl +:+ nl +:+
  "## File: " +:+ file_path +:+ nl +:+ nl +:+
  "## Code Changes:" +:+ nl +:+
  "```diff" +:+ nl +:+
  code_context +:+ nl +:+
  "```" +:+ nl +:+ nl +:+
  "## Review Guidelines:" +:+ nl +:+
  "1. Focus on: bugs, performance issues, security vulnerabilities, best practices, and code clarity"
  +:+ nl +:+
  "2. Be specific and actionable - suggest concrete improvements" +:+ nl +:+
  "3. Prioritize important issues over style nitpicks" +:+ nl +:+
  "4. Provide confidence scores (0-100) for each suggestion" +:+ nl +:+
  "5. Categorize suggestions: bug, performance, security, best_practice, readability, style"
  +:+ nl +:+
  preferences +:+ nl +:+ nl +:+
  "## Output Format (JSON array):" +:+ nl +:+
  "[" +:+ nl +:+
  "  {" +:+ nl +:+
  "    " +:+ dq +:+ "line_number" +:+ dq +:+ ": <int>," +:+ nl +:+
  "    " +:+ dq +:+ "end_line_number" +:+ dq +:+ ": <int or null>," +:+ nl +:+
  "    " +:+ dq +:+ "category" +:+ dq +:+ ": " +:+ dq +:+ "<category>" +:+ dq +:+ "," +:+ nl +:+
  "    " +:+ dq +:+ "suggestion" +:+ dq +:+ ": " +:+ dq +:+ "<detailed suggestion>" +:+ dq +:+ ","
  +:+ nl +:+
  "    " +:+ dq +:+ "confidence" +:+ dq +:+ ": <0-100>," +:+ nl +:+
  "    " +:+ dq +:+ "code_snippet" +:+ dq +:+ ": " +:+ dq +:+ "<relevant code snippet>" +:+ dq
  +:+ nl +:+
  "  }" +:+ nl +:+
  "]" +:+ nl +:+ nl +:+
  "Provide only the JSON array, no additional text.".

End PromptSpec.

(** ** What the response parser builds *)

Module ParseSpec.

Import Json Models.

(** The suggestion built from one decoded item under a given identifier,
    without the bookkeeping of the identifier source. *)
Definition suggestion_of (validate_int : JSON -> option Z) (validate_str : JSON -> option string)
    (id_ file_path : string) (sug_data : JSON) : outcome Suggestion :=
  match sug_data with
  | JObj members =>
      new_Suggestion validate_int validate_str id_
        (obj_get members "line_number" (JInt 0))
        (obj_get members "end_line_number" JNull)
        file_path
        (obj_get members "category" (JStr "best_practice"))
        (obj_get members "suggestion" (JStr EmptyString))
        (obj_get members "confidence" (JInt 50))
        (obj_get members "code_snippet" (JStr EmptyString))
  | _ => Raise (AttributeError "object has no attribute 'get'")
  end.

(** The suggestions of the items that precede the first item whose
    construction fails; the n-th item draws the n-th identifier. *)
Fixpoint built_prefix (uuid_source : nat -> string)
    (validate_int : JSON -> option Z) (validate_str : JSON -> option string)
    (file_path : string) (n : nat) (items : list JSON) : list Suggestion :=
  match items with
  | [] => []
  | sug_data :: rest =>
      match suggestion_of validate_int validate_str (uuid_source n) file_path sug_data with
      | Return s =>
          s :: built_prefix uuid_source validate_int validate_str file_path (S n) rest
      | Raise _ => []
      end
  end.

(** The world after [k] more identifiers have been drawn. *)
Definition advance (k : nat) (w : ReviewService.World) : ReviewService.World :=
  {| ReviewService.suggestions_collection := ReviewService.suggestions_collection w;
     ReviewService.uuids_drawn := k + ReviewService.uuids_drawn w;
     ReviewService.llm_calls := ReviewService.llm_calls w |}.

(** A response whose second item cannot become a [Suggestion]. *)
Definition partial_response : string :=
  "[{" +:+ dq +:+ "line_number" +:+ dq +:+ ": 3, "
       +:+ dq +:+ "suggestion" +:+ dq +:+ ": " +:+ dq +:+ "use f-string" +:+ dq +:+ ", "
       +:+ dq +:+ "confidence" +:+ dq +:+ ": 90}, {"
       +:+ dq +:+ "line_number" +:+ dq +:+ ": null}]".

Definition example_uuid (n : nat) : string := "uuid-" +:+ pretty n.

Definition world0 : ReviewService.World :=
  {| ReviewService.suggestions_collection := [];
     ReviewService.uuids_drawn := 0;
     ReviewService.llm_calls := 0 |}.

End ParseSpec.

(** ** The reviews of the files of a diff, one by one *)

Module GenerateSpec.

Import Models ReviewService.

(** The calls of a per-file reviewer on the files of a diff, one after the
    other: for each file, the world its call starts in and the suggestions
    the call returns.  Each call starts in the world the call before it
    left; the list ends before a call that raises. *)
Fixpoint file_runs (review_file : DiffParser.FileChange -> M World (list Suggestion))
    (fs : list DiffParser.FileChange) (w : World)
    : list (DiffParser.FileChange * World * list Suggestion) :=
  match fs with
  | [] => []
  | f :: rest =>
      match review_file f w with
      | (w', Return suggestions) => (f, w, suggestions) :: file_runs review_file rest w'
      | (_, Raise _) => []
      end
  end.

End GenerateSpec.

(** ** Example stores *)

Module RecentExample.

Import VectorStore.

(** A stored suggestion of review [rid], created at [ts]. *)
Definition stored (rid ts : string) : Entry :=
  {| entry_id := rid +:+ "_f.py_s1";
     entry_document := "+ 1: x";
     entry_metadata :=
       list_to_map [ ("review_id", MStr rid); ("file_path", MStr "f.py");
                     ("suggestion_id", MStr "s1"); ("suggestion", MStr "rename x");
                     ("category", MStr "style"); ("confidence", MInt 80);
                     ("line_number", MInt 1); ("action", MStr "pending");
                     ("timestamp", MStr ts) ] |}.

Definition january : string := "2024-01-01T00:00:00".
Definition june : string := "2024-06-01T00:00:00".

(** Two stores with the reviews [a] and [b], inserted in that order; the
    newer review is [b] in the first and [a] in the second. *)
Definition store_b_newer : Collection := [stored "a" january; stored "b" june].
Definition store_a_newer : Collection := [stored "a" june; stored "b" january].

(** The summary of such a review. *)
Definition summary (rid ts : string) : Review :=
  {| review_id := MStr rid;
     files :=
       [ {| fg_file_path := MStr "f.py";
            fg_suggestions :=
              [ {| ss_id := MStr "s1"; ss_line_number := MInt 1;
                   ss_category := MStr "style"; ss_suggestion := MStr "rename x";
                   ss_confidence := MInt 80; ss_action := MStr "pending" |} ] |} ];
     created_at := MStr ts;
     suggestion_count := 1 |}.

End RecentExample.


Module Examples.

Import VectorStore.

(** A suggestion of review [r1] on [f.py] in a given action state. *)
Definition judged (sid action_ : string) : Entry :=
  {| entry_id := "r1_f.py_" +:+ sid;
     entry_document := "+ 1: x = compute()";
     entry_metadata :=
       list_to_map [ ("review_id", MStr "r1"); ("file_path", MStr "f.py");
                     ("suggestion_id", MStr sid); ("suggestion", MStr "name the result");
                     ("category", MStr "readability"); ("confidence", MInt 70);
                     ("line_number", MInt 1); ("action", MStr action_);
                     ("timestamp", MStr "2024-03-01T12:00:00") ] |}.

(** A store with one pending, one accepted and one rejected suggestion. *)
Definition mixed_store : Collection :=
  [judged "s1" "pending"; judged "s2" "accept"; judged "s3" "reject"].

(** A similarity order: the insertion order of the store. *)
Definition insertion_order (text : string) (c : Collection) : list Entry := c.

(** Similar feedback that holds an edited suggestion only. *)
Definition edit_only : list SimilarReview :=
  [ {| sr_code_context := "+ 1: x = compute()";
       sr_suggestion := MStr "name the result";
       sr_action := MStr "edit";
       sr_reason := MStr EmptyString;
       sr_category := MStr "readability";
       sr_confidence := MInt 70 |} ].

(** A feedback request whose action is outside the enumeration. *)
Definition approve_request : Api.FeedbackRequest :=
  {| Api.review_id := "r1";
     Api.suggestion_id := "s1";
     Api.action := "approve";
     Api.reason := None;
     Api.edited_suggestion := None |}.

(** The end-to-end example of the specification: one added line at target
    line 10 of [a.py], and an engine that answers with one suggestion. *)
Definition bs : string := String "092"%char EmptyString.

Definition hi_line : DiffParser.Line :=
  {| DiffParser.line_type := "+";
     DiffParser.value := "print(" +:+ dq +:+ "hi" +:+ dq +:+ ")" +:+ nl;
     DiffParser.source_line_no := None;
     DiffParser.target_line_no := Some 10%Z |}.

Definition one_line_file (path_ : string) : DiffParser.FileChange :=
  {| DiffParser.path := path_; DiffParser.additions := 1; DiffParser.deletions := 0;
     DiffParser.hunks :=
       [ {| DiffParser.source_start := 9; DiffParser.source_length := 0;
            DiffParser.target_start := 10; DiffParser.target_length := 1;
            DiffParser.lines := [hi_line] |} ] |}.

Definition hi_diff : DiffParser.ParsedDiff :=
  {| DiffParser.files := [one_line_file "a.py"]; DiffParser.raw_content := EmptyString |}.

Definition two_file_diff : DiffParser.ParsedDiff :=
  {| DiffParser.files := [one_line_file "a.py"; one_line_file "b.py"];
     DiffParser.raw_content := EmptyString |}.

Definition hi_response : string :=
  "[{" +:+ dq +:+ "line_number" +:+ dq +:+ ":10,"
       +:+ dq +:+ "category" +:+ dq +:+ ":" +:+ dq +:+ "style" +:+ dq +:+ ","
       +:+ dq +:+ "suggestion" +:+ dq +:+ ":" +:+ dq +:+ "use f-string" +:+ dq +:+ ","
       +:+ dq +:+ "confidence" +:+ dq +:+ ":80,"
       +:+ dq +:+ "code_snippet" +:+ dq +:+ ":" +:+ dq
       +:+ "print(" +:+ bs +:+ dq +:+ "hi" +:+ bs +:+ dq +:+ ")" +:+ dq +:+ "}]".

(** An engine that always gives that answer, and one whose first answer is
    not JSON. *)
Definition steady_engine (n : nat) (prompt : string) : outcome string :=
  Return hi_response.

Definition stumbling_engine (n : nat) (prompt : string) : outcome string :=
  match n with
  | O => Return "I could not find anything to say about this file."
  | S _ => Return hi_response
  end.

End Examples.

(** ** Vocabulary for the summaries of a review *)

Module ReviewSpec.

Import VectorStore.

(** The documents of a review: those [get_review] asks the collection for. *)
Definition of_review (rid : MetaValue) (c : Collection) : list Entry :=
  List.filter (fun e => matches_where [("review_id", rid)] (entry_metadata e)) c.

(** The number of suggestions a list of file groups holds. *)
Definition total_suggestions (files : list FileGroup) : nat :=
  sum_list_with (fun g => length (fg_suggestions g)) files.

(** The keys [store_feedback] may write. *)
Definition feedback_keys : list string :=
  ["suggestion"; "edited_suggestion"; "feedback_timestamp"; "reason"; "action"].

End ReviewSpec.

(** ** Vocabulary for the statistics *)

Module StatsSpec.

Import VectorStore StatsService.

(** A metadata the aggregator can count and sort: its confidence, if it has
    one, is an integer, and the time it is sorted by is a string. *)
Definition countable (m : Metadata) : Prop :=
  (exists n, get_or m "confidence" (MInt 50) = MInt n) /\
  (exists s, feedback_time m = MStr s).

(** The number of judgements a breakdown holds. *)
Definition category_total (m : gmap MetaValue CategoryCounts) : Z :=
  map_fold (fun _ c total => (cat_accept c + cat_reject c + cat_edit c + total)%Z) 0%Z m.

Definition confidence_total (m : gmap string ConfidenceCounts) : Z :=
  map_fold (fun _ c total => (conf_accept c + conf_reject c + total)%Z) 0%Z m.

End StatsSpec.

(** ** Vocabulary for stored reviews *)

Module ContextSpec.

Import VectorStore Models VectorStoreAdd.

(** The document [store_review_context] writes for a suggestion at clock
    reading [now]. *)
Definition stored_entry (rid fp ctx : string) (s : Suggestion) (now : string) : Entry :=
  {| entry_id := doc_id_of rid fp s;
     entry_document := ctx;
     entry_metadata := pending_metadata rid fp s now |}.

(** The documents of a list of suggestions, the first written at reading
    [k] of the clock. *)
Fixpoint stored_entries (clock : nat -> string) (k : nat) (rid fp ctx : string)
    (ss : list Suggestion) : list Entry :=
  match ss with
  | [] => []
  | s :: rest => stored_entry rid fp ctx s (clock k) :: stored_entries clock (S k) rid fp ctx rest
  end.

(** What a summary shows of a suggestion nobody has judged yet. *)
Definition pending_summary (s : Suggestion) : SuggestionSummary :=
  {| ss_id := MStr (id s);
     ss_line_number := MInt (line_number s);
     ss_category := MStr (category s);
     ss_suggestion := MStr (suggestion s);
     ss_confidence := MInt (confidence s);
     ss_action := MStr "pending" |}.

End ContextSpec.

(** ** Vocabulary for parsed patches and review requests *)

Module PatchSpec.

Import DiffParser.

(** The files of a patch that [parse] keeps. *)
Definition kept (patch_set : list PatchedFile) : list PatchedFile :=
  List.filter (fun f => negb (is_removed_file f)) patch_set.

(** The file change built from a patched file. *)
Definition file_change_of (patched_file : PatchedFile) : FileChange :=
  {| path := pf_path patched_file;
     additions := added patched_file;
     deletions := removed patched_file;
     hunks := hunk_data <$> pf_hunks patched_file |}.


End PatchSpec.

Module RequestSpec.

Import ReviewApi.

(** A request the handler refuses before it fetches or parses anything: a
    source that is neither github nor diff, a diff request without content,
    or a github request that has neither a URL nor all of owner, repository
    name and pull request number. *)
Definition refused (request : ReviewRequest) : bool :=
  if String.eqb (source request) "github" then
    negb (truthy_opt (url request)) &&
    negb (truthy_opt (repo_owner request) && truthy_opt (repo_name request) &&
          truthy_int (pr_number request))
  else if String.eqb (source request) "diff" then negb (truthy_opt (content request))
  else true.

(** A suggestion was stored for a file of the diff it is about. *)
Definition stored_for (rid : string) (fs : list DiffParser.FileChange)
    (ss : list Models.Suggestion) (e : VectorStore.Entry) : Prop :=
  exists f s t,
    f ∈ fs /\ s ∈ ss /\ Models.file_path s = DiffParser.path f /\
    e = ContextSpec.stored_entry rid (DiffParser.path f)
          (ReviewService._build_code_context f) s t.

(** The world with documents appended to its store. *)
Definition with_added (added : VectorStore.Collection) (w : ReviewService.World)
    : ReviewService.World :=
  {| ReviewService.suggestions_collection := ReviewService.suggestions_collection w ++ added;
     ReviewService.uuids_drawn := ReviewService.uuids_drawn w;
     ReviewService.llm_calls := ReviewService.llm_calls w |}.

End RequestSpec.

(** ** Examples for the review session *)

Module SessionExamples.

Import Models.

(** Two suggestions for [a.py], as the generator builds them. *)
Definition fstring_suggestion (id_ : string) : Suggestion :=
  {| id := id_; line_number := 10; end_line_number := None; file_path := "a.py";
     category := "style"; suggestion := "use f-string"; confidence := 80;
     code_snippet := "print(x)" |}.

Definition two_suggestions : list Suggestion :=
  [fstring_suggestion "u1"; fstring_suggestion "u2"].

(** A clock that stands still. *)
Definition noon (k : nat) : string := "2024-03-01T12:00:00".

Definition session_noon (file_no k : nat) : string := "2024-03-01T12:00:00".

(** A patch that adds one line to [a.py] and removes [old.py]. *)
Definition hi_patch : list DiffParser.PatchedFile :=
  [ {| DiffParser.pf_path := "a.py"; DiffParser.is_removed_file := false;
       DiffParser.added := 1; DiffParser.removed := 0;
       DiffParser.pf_hunks :=
         [ {| DiffParser.ph_source_start := 9; DiffParser.ph_source_length := 0;
              DiffParser.ph_target_start := 10; DiffParser.ph_target_length := 1;
              DiffParser.ph_lines :=
                [ {| DiffParser.pl_line_type := "+";
                     DiffParser.pl_value := "print(x)";
                     DiffParser.pl_source_line_no := None;
                     DiffParser.pl_target_line_no := Some 10%Z |} ] |} ] |};
    {| DiffParser.pf_path := "old.py"; DiffParser.is_removed_file := true;
       DiffParser.added := 0; DiffParser.removed := 3;
       DiffParser.pf_hunks := [] |} ].

(** A diff library that reads every text as that patch, and fetches that
    fail for want of a token. *)
Definition reads_hi_patch (diff_content : string) : outcome (list DiffParser.PatchedFile) :=
  Return hi_patch.

Definition no_token (pr_url : string) : outcome (string * string) :=
  Raise (RuntimeError "GitHub token not configured").

Definition no_token_by_repo (owner repo_name : string) (pr_number : Z)
    : outcome (string * string) :=
  Raise (RuntimeError "GitHub token not configured").

(** A request with an unknown source, and a diff request. *)
Definition svn_request : ReviewApi.ReviewRequest :=
  {| ReviewApi.source := "svn"; ReviewApi.url := None; ReviewApi.content := Some "Index: a.py";
     ReviewApi.pr_number := None; ReviewApi.repo_owner := None; ReviewApi.repo_name := None |}.


(** A world whose store already holds the review [r1]. *)
Definition busy_world : ReviewService.World :=
  {| ReviewService.suggestions_collection := Examples.mixed_store;
     ReviewService.uuids_drawn := 0;
     ReviewService.llm_calls := 0 |}.

End SessionExamples.

(** ** Vocabulary for the text of an answer *)

Module TextSpec.

(** Whether a character occurs in a string. *)
Fixpoint has_char (c : ascii) (s : string) : bool :=
  match s with
  | EmptyString => false
  | String d rest => Ascii.eqb d c || has_char c rest
  end.

Definition backtick : ascii := "096"%char.

(** An answer that wraps a one-item array in an object, and one that puts
    the array of the end-to-end example in a fenced block. *)
Definition wrapped_response : string :=
  "{" +:+ dq +:+ "suggestions" +:+ dq +:+ ": [{" +:+ dq +:+ "line_number" +:+ dq +:+ ": 3}]}".

Definition fenced_response : string :=
  "Here is my review:" +:+ nl +:+ "```json" +:+ nl +:+ Examples.hi_response +:+ nl +:+ "```"
    +:+ nl +:+ "Let me know if you need more." +:+ nl.

End TextSpec.

(** ** Vocabulary for a stored session *)

Module SessionSpec.

Import VectorStore Models.

(** The suggestions [store_review_session] hands over for a file. *)
Definition for_file (f : DiffParser.FileChange) (ss : list Suggestion) : list Suggestion :=
  List.filter (fun s => String.eqb (file_path s) (DiffParser.path f)) ss.

(** The documents of a session: for each file of the diff, in order, those
    of the suggestions for that file; [k] numbers the first file. *)
Fixpoint session_entries (clock : nat -> nat -> string) (k : nat) (rid : string)
    (fs : list DiffParser.FileChange) (ss : list Suggestion) : list Entry :=
  match fs with
  | [] => []
  | f :: rest =>
      ContextSpec.stored_entries (clock k) 0 rid (DiffParser.path f)
        (ReviewService._build_code_context f) (for_file f ss)
      ++ session_entries clock (S k) rid rest ss
  end.

Definition underscore : ascii := "095"%char.

End SessionSpec.


(** * Properties *)

(** ** Generic facts about lists and filters *)

Section ListFacts.

Lemma filter_all {A} (l : list A) : List.filter (fun _ => true) l = l.
Proof. induction l as [|x l IH]; cbn; [|rewrite IH]; reflexivity. Qed.

Lemma bool_filter_as_filter {A} (f : A -> bool) (P : A -> Prop)
    `{!forall x, Decision (P x)} (l : list A) :
  (forall x, f x = true <-> P x) -> List.filter f l = filter P l.
Proof.
  intros Hf. induction l as [|x l IH]; [reflexivity|].
  cbn [List.filter]. rewrite filter_cons, IH.
  destruct (f x) eqn:Hx.
  - rewrite decide_True by (apply Hf; exact Hx). reflexivity.
  - rewrite decide_False; [reflexivity|]. intros HP. apply Hf in HP. congruence.
Qed.

Lemma filter_none {A} (P : A -> Prop) `{!forall x, Decision (P x)} (l : list A) :
  (forall x, x ∈ l -> ~ P x) -> filter P l = [].
Proof.
  induction l as [|x l IH]; intros Hno; [reflexivity|].
  rewrite filter_cons, decide_False by (apply Hno; left).
  apply IH. intros y Hy. apply Hno. right. exact Hy.
Qed.

Lemma bool_filter_sublist {A} (f : A -> bool) (l : list A) : sublist (List.filter f l) l.
Proof.
  induction l as [|x l IH]; cbn [List.filter]; [constructor|].
  destruct (f x); [apply sublist_skip | apply sublist_cons]; exact IH.
Qed.

End ListFacts.

(** ** [store_feedback] *)

Section StoreFeedbackFacts.

Import VectorStore StoreSpec.

(** The engine refuses the filter [store_feedback] looks its record up
    with: it has two keys. *)
Lemma collection_get_two_keys rid sid (c : Collection) :
  collection_get [("review_id", MStr rid); ("suggestion_id", MStr sid)] c =
    (c, Raise (ValueError "Expected where to have exactly one operator")).
Proof. reflexivity. Qed.

(** The refusal is raised inside the [try] of [store_feedback] and swallowed
    by its handler: the call returns and has written nothing. *)
Lemma store_feedback_unfold now rid sid a r ed (c : Collection) :
  store_feedback now rid sid a r ed c = (c, Return tt).
Proof.
  unfold store_feedback, try_except, bind. rewrite collection_get_two_keys. reflexivity.
Qed.

Lemma observe_head rid sid (c : Collection) :
  observe rid sid c = entry_metadata <$> head (List.filter (key_of rid sid) c).
Proof. reflexivity. Qed.

(** C3: [store_feedback] returns without raising on every store, also for a
    pair with no matching record, and changes no stored record.  But the
    lookup by both ids is refused by the engine and the refusal is
    swallowed, so nothing is written for an existing pair either: after two
    calls with different actions the store is the one before the calls, the
    record found for the pair is the record found before, and an action
    that record did not carry before is not observable after. *)
Theorem store_feedback_second_write_lost
    (c : Collection) (rid sid : string)
    (t1 a1 : string) (r1 e1 : option string) (t2 a2 : string) (r2 e2 : option string) :
  let run1 := store_feedback t1 rid sid a1 r1 e1 c in
  let run2 := store_feedback t2 rid sid a2 r2 e2 run1.1 in
  (exists msg,
     (collection_get [("review_id", MStr rid); ("suggestion_id", MStr sid)] c).2 =
       Raise (ValueError msg)) /\
  run1 = (c, Return tt) /\ run2 = (c, Return tt) /\
  observe rid sid run2.1 = observe rid sid c /\
  (forall m0, observe rid sid c = Some m0 ->
     m0 !! "action" <> Some (MStr a2) ->
     exists m2, observe rid sid run2.1 = Some m2 /\
                m2 !! "action" <> Some (MStr a2) /\
                m2 !! "feedback_timestamp" = m0 !! "feedback_timestamp" /\
                m2 !! "reason" = m0 !! "reason").
Proof.
  cbv zeta. rewrite (store_feedback_unfold t1). cbn [fst].
  rewrite (store_feedback_unfold t2). cbn [fst].
  split; [rewrite collection_get_two_keys; cbn [snd]; eauto|].
  split; [reflexivity|]. split; [reflexivity|]. split; [reflexivity|].
  intros m0 Hobs Hother. exists m0. auto.
Qed.

(** C10: with an edited text that is [None] or the empty string,
    [store_feedback] keeps the suggestion text and the edited_suggestion
    field of every stored document.  But it does not update the action, the
    reason and the feedback time either: the store is left as it was, and
    the record found for the pair is the record found before the call. *)
Theorem store_feedback_empty_edit_updates_nothing
    (c : Collection) (now rid sid a : string) (r ed : option string) :
  ed = None \/ ed = Some EmptyString ->
  let c' := (store_feedback now rid sid a r ed c).1 in
  c' = c /\
  (forall i e, c !! i = Some e ->
     exists e', c' !! i = Some e' /\
       entry_metadata e' !! "suggestion" = entry_metadata e !! "suggestion" /\
       entry_metadata e' !! "edited_suggestion" = entry_metadata e !! "edited_suggestion") /\
  (forall m0, observe rid sid c = Some m0 ->
     observe rid sid c' = Some m0 /\
     (m0 !! "action" <> Some (MStr a) ->
      observe rid sid c' <>
        Some (<["feedback_timestamp" := MStr now]>
                (<["reason" := MStr (or_empty r)]> (<["action" := MStr a]> m0))))).
Proof.
  intros _. cbv zeta. rewrite store_feedback_unfold. cbn [fst].
  split; [reflexivity|]. split.
  - intros i e He. exists e. auto.
  - intros m0 Hobs. split; [exact Hobs|]. intros Hother. rewrite Hobs. intros [= Heq].
    apply Hother. rewrite Heq.
    rewrite lookup_insert_ne, lookup_insert_ne, lookup_insert_eq by discriminate.
    reflexivity.
Qed.

End StoreFeedbackFacts.

(** ** [find_similar_code] *)

Section FindSimilarFacts.

Import VectorStore.

Lemma find_similar_code_unfold rank text limit (c : Collection) :
  find_similar_code rank text limit c =
    (c, Return
          (if (Z.min (limit * 3) 20 <=? 0)%Z then []
           else
             let hits := take (Z.to_nat (Z.min (limit * 3) 20)) (rank text c) in
             match hits with
             | [] => []
             | _ :: _ =>
                 similar_loop limit (entry_metadata <$> hits) 0 (entry_document <$> hits) []
             end)).
Proof.
  cbv [find_similar_code try_except bind collection_query get_state ret raise print].
  destruct (Z.min (limit * 3) 20 <=? 0)%Z; [reflexivity|].
  cbv [similar_of_results q_documents q_metadatas].
  destruct (take _ (rank text c)); reflexivity.
Qed.

Lemma similar_loop_length limit metas docs : forall i acc,
  (Z.of_nat (length acc) < limit)%Z ->
  (Z.of_nat (length (similar_loop limit metas i docs acc)) <= limit)%Z.
Proof.
  induction docs as [|doc docs IH]; intros i acc Hacc; cbn [similar_loop].
  - lia.
  - destruct (is_feedback_action _).
    + rewrite length_app. cbn [length].
      destruct (Z.leb_spec limit (Z.of_nat (length acc + 1))).
      * rewrite length_app. cbn [length]. lia.
      * apply IH. rewrite length_app. cbn [length]. lia.
    + destruct (Z.leb_spec limit (Z.of_nat (length acc))); [lia|]. apply IH. lia.
Qed.

(** Whatever the engine answers, only records with feedback are kept, and
    for a positive limit at most [limit] of them. *)
Lemma similar_loop_feedback_only limit metas docs : forall i acc,
  Forall (fun r => is_feedback_action (sr_action r) = true) acc ->
  Forall (fun r => is_feedback_action (sr_action r) = true)
    (similar_loop limit metas i docs acc).
Proof.
  induction docs as [|doc docs IH]; intros i acc Hacc; cbn [similar_loop]; [exact Hacc|].
  destruct (is_feedback_action _) eqn:Hact.
  - assert (Hacc' : Forall (fun r => is_feedback_action (sr_action r) = true)
                      (acc ++ [ {| sr_code_context := doc;
                                   sr_suggestion := get_or (default ∅ (metas !! i)) "suggestion" (MStr EmptyString);
                                   sr_action := get_or (default ∅ (metas !! i)) "action" (MStr "pending");
                                   sr_reason := get_or (default ∅ (metas !! i)) "reason" (MStr EmptyString);
                                   sr_category := get_or (default ∅ (metas !! i)) "category" (MStr EmptyString);
                                   sr_confidence := get_or (default ∅ (metas !! i)) "confidence" (MInt 0) |} ])).
    { apply Forall_app. split; [exact Hacc|]. apply Forall_singleton. exact Hact. }
    destruct (_ <=? _)%Z; [exact Hacc'|]. apply IH. exact Hacc'.
  - destruct (_ <=? _)%Z; [exact Hacc|]. apply IH. exact Hacc.
Qed.

Lemma similar_of_results_feedback_only limit (results : QueryResult) :
  Forall (fun r => sr_action r ∈ [MStr "accept"; MStr "reject"; MStr "edit"])
    (similar_of_results limit results) /\
  ((1 <= limit)%Z -> (Z.of_nat (length (similar_of_results limit results)) <= limit)%Z).
Proof.
  unfold similar_of_results.
  destruct (q_documents results) as [[|docs0 others]|]; [split; [constructor | cbn; lia] | |
                                                         split; [constructor | cbn; lia]].
  destruct docs0 as [|doc docs]; [split; [constructor | cbn; lia]|]. split.
  - eapply Forall_impl; [apply similar_loop_feedback_only; constructor|].
    intros r Hr. unfold is_feedback_action in Hr. apply bool_decide_eq_true_1 in Hr. exact Hr.
  - intros Hlimit. apply similar_loop_length. cbn. lia.
Qed.


Lemma similar_loop_Forall (P : SimilarReview -> Prop) limit (hits : list Entry) :
  (forall e, e ∈ hits ->
     is_feedback_action (get_or (entry_metadata e) "action" (MStr "pending")) = true ->
     P {| sr_code_context := entry_document e;
          sr_suggestion := get_or (entry_metadata e) "suggestion" (MStr EmptyString);
          sr_action := get_or (entry_metadata e) "action" (MStr "pending");
          sr_reason := get_or (entry_metadata e) "reason" (MStr EmptyString);
          sr_category := get_or (entry_metadata e) "category" (MStr EmptyString);
          sr_confidence := get_or (entry_metadata e) "confidence" (MInt 0) |}) ->
  forall rest i acc,
    drop i hits = rest -> Forall P acc ->
    Forall P (similar_loop limit (entry_metadata <$> hits) i (entry_document <$> rest) acc).
Proof.
  intros HP rest. induction rest as [|e rest IH]; intros i acc Hdrop Hacc; cbn [fmap list_fmap similar_loop].
  - exact Hacc.
  - assert (Hi : hits !! i = Some e).
    { rewrite <- (Nat.add_0_r i), <- lookup_drop, Hdrop. reflexivity. }
    assert (Hrest : drop (S i) hits = rest).
    { rewrite <- (Nat.add_1_r i), <- drop_drop, Hdrop. reflexivity. }
    rewrite list_lookup_fmap, Hi. cbn [fmap option_fmap option_map default].
    destruct (is_feedback_action _) eqn:Hact.
    + assert (Hacc' : Forall P (acc ++
         [{| sr_code_context := entry_document e;
             sr_suggestion := get_or (entry_metadata e) "suggestion" (MStr EmptyString);
             sr_action := get_or (entry_metadata e) "action" (MStr "pending");
             sr_reason := get_or (entry_metadata e) "reason" (MStr EmptyString);
             sr_category := get_or (entry_metadata e) "category" (MStr EmptyString);
             sr_confidence := get_or (entry_metadata e) "confidence" (MInt 0) |}])).
      { apply Forall_app. split; [exact Hacc|]. apply Forall_singleton.
        apply HP; [|exact Hact]. apply list_elem_of_lookup. eauto. }
      destruct (_ <=? _)%Z; [exact Hacc'|]. apply IH; assumption.
    + destruct (_ <=? _)%Z; [exact Hacc|]. apply IH; assumption.
Qed.

(** C1: whatever the corpus, the query text and the similarity order,
    [find_similar_code] returns, and every record it returns carries one of
    the actions accept, reject, edit and comes from a stored document whose
    metadata records that action (so no pending document and no document
    without an action is returned); for a limit that is not negative at
    most [limit] records are returned. *)
Theorem find_similar_code_only_terminal
    (rank : string -> Collection -> list Entry) (c : Collection)
    (code_context : string) (limit : Z) :
  (forall text store e, e ∈ rank text store -> e ∈ store) ->
  exists result,
    find_similar_code rank code_context limit c = (c, Return result) /\
    (forall r, r ∈ result ->
       sr_action r ∈ [MStr "accept"; MStr "reject"; MStr "edit"] /\
       exists e, e ∈ c /\ entry_document e = sr_code_context r /\
                 entry_metadata e !! "action" = Some (sr_action r)) /\
    ((0 <= limit)%Z -> (Z.of_nat (length result) <= limit)%Z).
Proof.
  intros Hrank. rewrite find_similar_code_unfold. eexists. split; [reflexivity|].
  destruct (Z.leb_spec (Z.min (limit * 3) 20) 0) as [Hn|Hn].
  - split; [intros r Hr; inversion Hr | cbn; lia].
  - cbv zeta. set (hits := take _ (rank code_context c)).
    assert (Hhits : forall e, e ∈ hits -> e ∈ c).
    { intros e He. apply (Hrank code_context). unfold hits in He.
      apply list_elem_of_lookup in He as [i Hi]. apply lookup_take_Some in Hi as [Hi _].
      apply list_elem_of_lookup. eauto. }
    destruct hits as [|h hits'] eqn:Hh; [split; [intros r Hr; inversion Hr | cbn; lia]|].
    rewrite <- Hh in *. clear Hh h hits'. split.
    + apply Forall_forall.
      apply (similar_loop_Forall _ limit hits); [|reflexivity|constructor].
      intros e He Hact. cbn [sr_action sr_code_context].
      unfold is_feedback_action in Hact. apply bool_decide_eq_true_1 in Hact.
      split; [exact Hact|]. exists e. split; [auto|]. split; [reflexivity|].
      unfold get_or in *. destruct (entry_metadata e !! "action") as [v|]; [reflexivity|].
      exfalso. cbn [default] in Hact. revert Hact. compute_done.
    + intros _. apply similar_loop_length. cbn. lia.
Qed.

End FindSimilarFacts.

(** ** [get_recent_reviews] *)

Section RecentFacts.

Import VectorStore StoreSpec RecentExample.

Lemma get_recent_reviews_unfold set_iter now limit (c : Collection) :
  get_recent_reviews set_iter now limit c =
    match reviews_loop now
            (slice_to limit (set_iter (collect_review_ids (entry_metadata <$> c)))) [] c with
    | (c', Return reviews) =>
        match sorted_desc created_at reviews with
        | Return sorted_reviews => (c', Return sorted_reviews)
        | Raise _ => (c', Return [])
        end
    | (c', Raise _) => (c', Return [])
    end.
Proof.
  unfold get_recent_reviews, collection_get.
  cbv [try_except bind get_state ret pack metadatas matches_where forallb lift print].
  rewrite filter_all.
  destruct (reviews_loop _ _ _ _) as [c' [reviews|e]]; [|reflexivity].
  destruct (sorted_desc _ _); reflexivity.
Qed.

(** The summaries [get_review] builds in the two example stores. *)
Lemma get_review_of_stored :
  get_review "now" (MStr "a") store_b_newer =
    (store_b_newer, Return (Some (summary "a" january))) /\
  get_review "now" (MStr "b") store_b_newer =
    (store_b_newer, Return (Some (summary "b" june))) /\
  get_review "now" (MStr "a") store_a_newer =
    (store_a_newer, Return (Some (summary "a" june))) /\
  get_review "now" (MStr "b") store_a_newer =
    (store_a_newer, Return (Some (summary "b" january))).
Proof. repeat split; vm_compute; reflexivity. Qed.

(** C7: each of the two example stores holds a review created in June and a
    review created in January; whatever order the set of review ids is
    iterated in, in one of the two stores [get_recent_reviews] with limit 1
    returns the summary of the January review alone and leaves the most
    recent review out: the ids are cut to [limit] before the summaries are
    sorted by creation time. *)
Theorem get_recent_reviews_misses_latest (set_iter : list MetaValue -> list MetaValue) :
  (forall l, NoDup l -> set_iter l ≡ₚ l) ->
  (get_review "now" (MStr "b") store_b_newer).2 = Return (Some (summary "b" june)) /\
  (get_review "now" (MStr "a") store_a_newer).2 = Return (Some (summary "a" june)) /\
  less_than (MStr january) (MStr june) = Return true /\
  (get_recent_reviews set_iter "now" 1 store_b_newer =
     (store_b_newer, Return [summary "a" january]) \/
   get_recent_reviews set_iter "now" 1 store_a_newer =
     (store_a_newer, Return [summary "b" january])).
Proof.
  intros Hiter.
  assert (Hnd : NoDup [MStr "a"; MStr "b"]) by compute_done.
  pose proof get_review_of_stored as (Hab & Hbb & Haa & Hba).
  rewrite Hbb, Haa.
  split; [reflexivity|]. split; [reflexivity|]. split; [reflexivity|].
  destruct (Permutation_length_2_inv (symmetry (Hiter _ Hnd))) as [Horder|Horder].
  - left. rewrite get_recent_reviews_unfold.
    change (collect_review_ids (entry_metadata <$> store_b_newer))
      with (set_add (MStr "b") (set_add (MStr "a") [])).
    change (set_add (MStr "b") (set_add (MStr "a") [])) with [MStr "a"; MStr "b"].
    rewrite Horder.
    change (slice_to 1 [MStr "a"; MStr "b"]) with [MStr "a"]. cbn [reviews_loop].
    cbv [bind]. rewrite Hab. reflexivity.
  - right. rewrite get_recent_reviews_unfold.
    change (collect_review_ids (entry_metadata <$> store_a_newer))
      with (set_add (MStr "b") (set_add (MStr "a") [])).
    change (set_add (MStr "b") (set_add (MStr "a") [])) with [MStr "a"; MStr "b"].
    rewrite Horder.
    change (slice_to 1 [MStr "b"; MStr "a"]) with [MStr "b"]. cbn [reviews_loop].
    cbv [bind]. rewrite Hba. reflexivity.
Qed.

Lemma less_than_asym a b : less_than a b = Return true -> less_than b a = Return false.
Proof.
  destruct a as [x|x], b as [y|y]; cbn [less_than]; try discriminate; intros [= H]; f_equal.
  - unfold String.ltb in *. rewrite String.compare_antisym.
    destruct (String.compare x y); cbn; congruence.
  - apply Z.ltb_lt in H. apply Z.ltb_ge. lia.
Qed.

Lemma insert_desc_sorted {A} (key : A -> MetaValue) x : forall l r,
  Sorted (not_before key) l -> insert_desc key x l = Return r ->
  Sorted (not_before key) r /\ r ≡ₚ x :: l /\
  (forall z, head r = Some z -> z = x \/ head l = Some z).
Proof.
  induction l as [|y ys IH]; intros r Hs Hr; cbn [insert_desc] in Hr.
  - injection Hr as <-. repeat split; [repeat constructor | reflexivity | ].
    intros z [= <-]. auto.
  - destruct (less_than (key x) (key y)) as [[|]|e] eqn:Hlt; [| |discriminate].
    + destruct (insert_desc key x ys) as [r'|e] eqn:Hins; [|discriminate].
      injection Hr as <-. apply Sorted_inv in Hs as [Hs Hhd].
      destruct (IH r' Hs eq_refl) as (Hs' & Hp & Hh). repeat split.
      * constructor; [exact Hs'|]. destruct r' as [|z r'']; constructor.
        destruct (Hh z eq_refl) as [->|Hz].
        -- apply less_than_asym. exact Hlt.
        -- destruct ys as [|y' ys']; [discriminate|]. injection Hz as ->.
           inversion Hhd; assumption.
      * rewrite Hp. apply Permutation_swap.
      * intros z [= <-]. auto.
    + injection Hr as <-. repeat split.
      * constructor; [exact Hs|]. constructor. exact Hlt.
      * reflexivity.
      * intros z [= <-]. auto.
Qed.

Lemma sorted_desc_sorted {A} (key : A -> MetaValue) : forall l r,
  sorted_desc key l = Return r -> Sorted (not_before key) r /\ r ≡ₚ l.
Proof.
  induction l as [|x l IH]; intros r Hr; cbn [sorted_desc] in Hr.
  - injection Hr as <-. split; [constructor | reflexivity].
  - destruct (sorted_desc key l) as [s|e]; [|discriminate].
    destruct (IH s eq_refl) as [Hs Hp].
    destruct (insert_desc_sorted key x s r Hs Hr) as (Hs' & Hp' & _).
    split; [exact Hs'|]. rewrite Hp', Hp. reflexivity.
Qed.

Lemma get_review_returns now rid (c : Collection) :
  exists o, get_review now rid c = (c, Return o) /\
            (forall r, o = Some r -> review_id r = rid).
Proof.
  unfold get_review, collection_get.
  cbv [try_except bind get_state ret pack ids metadatas lift print].
  destruct (entry_id <$> List.filter _ c) as [|i rest_ids].
  - eexists. split; [reflexivity|]. discriminate.
  - destruct (group_loop _ _ _ _) as [fs|e].
    + destruct (timestamps_of _) as [|t ts].
      * eexists. split; [reflexivity|]. intros r [= <-]. reflexivity.
      * destruct (min_from t ts) as [m|e].
        -- eexists. split; [reflexivity|]. intros r [= <-]. reflexivity.
        -- eexists. split; [reflexivity|]. discriminate.
    + eexists. split; [reflexivity|]. discriminate.
Qed.

Lemma reviews_loop_returns now (c : Collection) : forall rids acc,
  exists rs, reviews_loop now rids acc c = (c, Return (acc ++ rs)) /\
             sublist (review_id <$> rs) rids.
Proof.
  induction rids as [|rid rids IH]; intros acc; cbn [reviews_loop].
  - exists []. rewrite app_nil_r. split; [reflexivity | constructor].
  - destruct (get_review_returns now rid c) as (o & Hg & Hid).
    cbv [bind]. rewrite Hg. destruct o as [r|].
    + destruct (IH (acc ++ [r])) as (rs & Hrs & Hsub).
      exists (r :: rs). rewrite Hrs, <- app_assoc. split; [reflexivity|].
      cbn [fmap list_fmap]. rewrite (Hid r eq_refl). apply sublist_skip. exact Hsub.
    + destruct (IH acc) as (rs & Hrs & Hsub).
      exists rs. split; [exact Hrs|]. apply sublist_cons. exact Hsub.
Qed.

Lemma set_add_NoDup v members : NoDup members -> NoDup (set_add v members).
Proof.
  intros Hnd. unfold set_add. case_bool_decide as Hin; [exact Hnd|].
  apply NoDup_app. split; [exact Hnd|]. split.
  - intros x Hx Hx'. apply list_elem_of_singleton in Hx'. subst x. contradiction.
  - apply NoDup_singleton.
Qed.

Lemma collect_review_ids_NoDup (ms : list Metadata) : NoDup (collect_review_ids ms).
Proof.
  unfold collect_review_ids.
  assert (H : forall acc, NoDup acc ->
            NoDup (foldl (fun members (m : Metadata) =>
                            match m !! "review_id" with
                            | Some v => set_add v members
                            | None => members
                            end) acc ms)).
  { induction ms as [|m ms IH]; intros acc Hacc; cbn [foldl]; [exact Hacc|].
    apply IH. destruct (m !! "review_id"); [apply set_add_NoDup|]; exact Hacc. }
  apply H. constructor.
Qed.

Lemma slice_to_bound {A} (n : Z) (l : list A) :
  (0 <= n)%Z -> (Z.of_nat (length (slice_to n l)) <= n)%Z /\ sublist (slice_to n l) l.
Proof.
  intros Hn. unfold slice_to. destruct (Z.leb_spec 0 n); [|lia].
  split; [rewrite length_take; lia | apply sublist_take].
Qed.

(** X1: what does hold of [get_recent_reviews]: for a limit that is not
    negative it returns at most [limit] summaries, of distinct review ids,
    in descending order of creation time. *)
Lemma get_recent_reviews_bounded_sorted set_iter now limit (c : Collection) :
  (forall l, NoDup l -> set_iter l ≡ₚ l) -> (0 <= limit)%Z ->
  exists rs,
    get_recent_reviews set_iter now limit c = (c, Return rs) /\
    (Z.of_nat (length rs) <= limit)%Z /\
    NoDup (review_id <$> rs) /\
    Sorted (not_before created_at) rs.
Proof.
  intros Hiter Hlimit. rewrite get_recent_reviews_unfold.
  set (rids := slice_to limit (set_iter (collect_review_ids (entry_metadata <$> c)))).
  destruct (slice_to_bound limit (set_iter (collect_review_ids (entry_metadata <$> c))) Hlimit)
    as [Hlen Hsl]. fold rids in Hlen, Hsl.
  assert (Hnd : NoDup rids).
  { eapply sublist_NoDup; [|exact Hsl].
    rewrite (Hiter _ (collect_review_ids_NoDup _)). apply collect_review_ids_NoDup. }
  destruct (reviews_loop_returns now c rids []) as (rs & Hloop & Hsub).
  rewrite Hloop. cbn [app].
  destruct (sorted_desc created_at rs) as [sorted|e] eqn:Hsort.
  - destruct (sorted_desc_sorted created_at rs sorted Hsort) as [Hs Hp].
    exists sorted. split; [reflexivity|]. split.
    + rewrite Hp. apply sublist_length in Hsub. rewrite length_fmap in Hsub. lia.
    + split; [|exact Hs]. rewrite Hp. eapply sublist_NoDup; [exact Hnd | exact Hsub].
  - exists []. split; [reflexivity|]. cbn. split; [lia|]. split; constructor.
Qed.

End RecentFacts.

(** ** [get_file_context] *)

Section DiffFacts.

Import DiffParser DiffSpec.

Lemma lines_loop_filter line_number window ls : forall context,
  lines_loop line_number window ls context =
  context ++ (render <$> List.filter (in_context line_number window) ls).
Proof.
  induction ls as [|line ls IH]; intros context; cbn [lines_loop List.filter].
  - cbn. rewrite app_nil_r. reflexivity.
  - rewrite IH. destruct (in_context line_number window line); cbn [fmap list_fmap].
    + rewrite <- app_assoc. reflexivity.
    + reflexivity.
Qed.

Lemma hunks_loop_filter line_number window hs : forall context,
  hunks_loop line_number window hs context =
  context ++ (render <$> List.filter (in_context line_number window) (mbind lines hs)).
Proof.
  induction hs as [|h hs IH]; intros context; cbn [hunks_loop mbind list_bind].
  - cbn. rewrite app_nil_r. reflexivity.
  - rewrite IH, lines_loop_filter, List.filter_app, fmap_app, app_assoc. reflexivity.
Qed.

Lemma in_context_spec line_number window line :
  in_context line_number window line = true <->
  within_window line_number window line /\ target_line_no line <> Some 0%Z.
Proof.
  unfold in_context, within_window. destruct (target_line_no line) as [t|].
  - rewrite andb_true_iff, negb_true_iff, Z.eqb_neq, Z.leb_le. split.
    + intros [Hz Hw]. split; [exists t; auto | congruence].
    + intros [(t' & [= <-] & Hw) Hz]. split; [congruence | exact Hw].
  - split; [discriminate | intros [(t' & [=] & _) _]].
Qed.

Lemma filter_in_context line_number window (ls : list Line) :
  render <$> List.filter (in_context line_number window) ls =
  numbered <$> filter (fun line => within_window line_number window line
                                   /\ target_line_no line <> Some 0%Z) ls.
Proof.
  rewrite (bool_filter_as_filter _ _ _ (in_context_spec line_number window)).
  apply Forall_fmap_ext, Forall_forall. intros line Hin.
  apply list_elem_of_filter in Hin as [[(t & Ht & _) _] _].
  unfold render, numbered. rewrite Ht. reflexivity.
Qed.

(** C6, amended: [get_file_context] returns the newline-joined texts, in
    original order, of exactly those lines of the first file with the given
    path whose target line number is present, is not zero and lies within
    the window of the requested line, each as its number, a colon and its
    text; the empty string if no file has that path.  It is a function of
    its arguments. *)
Theorem get_file_context_window (diff : ParsedDiff) (file_path : string)
    (line_number context_lines : Z) :
  get_file_context diff file_path line_number context_lines =
  context_of (fun line => within_window line_number context_lines line
                          /\ target_line_no line <> Some 0%Z) diff file_path.
Proof.
  unfold get_file_context, context_of.
  induction (files diff) as [|f fs IH]; cbn [files_loop List.find]; [reflexivity|].
  destruct (String.eqb (path f) file_path); [|exact IH].
  rewrite hunks_loop_filter, filter_in_context. reflexivity.
Qed.

(** C6, counterexample: a line whose target line number is 0 lies within 5
    of line 2, yet the query leaves it out. *)
Lemma get_file_context_zero_line_excluded :
  get_file_context zero_line_diff "a.py" 2 5 = EmptyString /\
  context_of (within_window 2 5) zero_line_diff "a.py" = "0: x".
Proof. split; reflexivity. Qed.

End DiffFacts.

(** ** [_build_review_prompt] *)

Section PromptFacts.

Import VectorStore ReviewService PromptSpec.

Lemma patterns_loop_texts similar : forall acc rej,
  patterns_loop similar acc rej = (acc ++ accepted_texts similar, rej ++ rejected_texts similar).
Proof.
  unfold accepted_texts, rejected_texts.
  induction similar as [|r similar IH]; intros acc rej; cbn [patterns_loop].
  - cbn. rewrite !app_nil_r. reflexivity.
  - rewrite !filter_cons. case_bool_decide as Ha.
    + rewrite IH, decide_True by exact Ha.
      rewrite decide_False by (rewrite Ha; discriminate).
      cbn [fmap list_fmap]. rewrite <- app_assoc. reflexivity.
    + rewrite (decide_False (P := sr_action r = MStr "accept")) by exact Ha.
      case_bool_decide as Hr.
      * rewrite IH, decide_True by exact Hr. cbn [fmap list_fmap].
        rewrite <- app_assoc. reflexivity.
      * rewrite IH, decide_False by exact Hr. reflexivity.
Qed.

Lemma learned_context_section similar :
  learned_context similar =
  preferences_section (take 3 (accepted_texts similar)) (take 3 (rejected_texts similar)).
Proof.
  unfold learned_context. destruct similar as [|r similar]; [reflexivity|].
  rewrite patterns_loop_texts. cbn [app].
  destruct (accepted_texts (r :: similar)) as [|a A], (rejected_texts (r :: similar)) as [|b B];
    reflexivity.
Qed.

(** The prompt is the written-out text with the learned preferences in
    their place. *)
Lemma build_review_prompt_text code_context file_path similar :
  _build_review_prompt code_context file_path similar =
  prompt_text file_path code_context
    (preferences_section (take 3 (accepted_texts similar)) (take 3 (rejected_texts similar))).
Proof.
  unfold _build_review_prompt. rewrite learned_context_section.
  generalize (preferences_section (take 3 (accepted_texts similar))
                (take 3 (rejected_texts similar))).
  intros preferences. reflexivity.
Qed.

(** C8: the prompt is, character by character, the fixed text around the
    file path and the code changes with the learned-preferences section in
    its one place, and that section shows the first three accepted and the
    first three rejected suggestion texts and no other: reviews that agree
    on these give the same prompt.  When no similar review is accepted or
    rejected the section is empty: the prompt is the fixed text alone, the
    same as without any similar review, and the fixed text holds neither
    the header of the section nor the opening of a guidance block. *)
Theorem prompt_guidance_at_most_three
    (code_context file_path : string) (similar_reviews : list SimilarReview) :
  let shown_accepts := take 3 (accepted_texts similar_reviews) in
  let shown_rejects := take 3 (rejected_texts similar_reviews) in
  _build_review_prompt code_context file_path similar_reviews =
    prompt_text file_path code_context (preferences_section shown_accepts shown_rejects) /\
  length shown_accepts <= 3 /\ length shown_rejects <= 3 /\
  sublist shown_accepts (accepted_texts similar_reviews) /\
  sublist shown_rejects (rejected_texts similar_reviews) /\
  (forall others,
     take 3 (accepted_texts others) = shown_accepts ->
     take 3 (rejected_texts others) = shown_rejects ->
     _build_review_prompt code_context file_path others =
     _build_review_prompt code_context file_path similar_reviews) /\
  ((forall r, r ∈ similar_reviews ->
      sr_action r <> MStr "accept" /\ sr_action r <> MStr "reject") ->
   _build_review_prompt code_context file_path similar_reviews =
     prompt_text file_path code_context EmptyString /\
   _build_review_prompt code_context file_path similar_reviews =
     _build_review_prompt code_context file_path []) /\
  Text.contains "Learned Preferences" (_build_review_prompt EmptyString EmptyString []) = false /\
  Text.contains "User typically" (_build_review_prompt EmptyString EmptyString []) = false.
Proof.
  cbv zeta. split; [apply build_review_prompt_text|].
  split; [rewrite length_take; lia|]. split; [rewrite length_take; lia|].
  split; [apply sublist_take|]. split; [apply sublist_take|].
  split.
  { intros others Ha Hr. rewrite !build_review_prompt_text, Ha, Hr. reflexivity. }
  split.
  - intros Hnone.
    assert (HA : accepted_texts similar_reviews = []).
    { unfold accepted_texts. rewrite filter_none; [reflexivity|].
      intros r Hr. apply (Hnone r Hr). }
    assert (HR : rejected_texts similar_reviews = []).
    { unfold rejected_texts. rewrite filter_none; [reflexivity|].
      intros r Hr. apply (Hnone r Hr). }
    rewrite !build_review_prompt_text, HA, HR. split; reflexivity.
  - split; vm_compute; reflexivity.
Qed.

End PromptFacts.

(** ** [_parse_llm_response] and [generate_review] *)

Section ParseFacts.

Import Text Json Models ReviewService ParseSpec GenerateSpec.

Variable rank : string -> VectorStore.Collection -> list VectorStore.Entry.
Variable llm : nat -> string -> outcome string.
Variable uuid_source : nat -> string.
Variable json_loads : string -> outcome JSON.
Variable validate_int : JSON -> option Z.
Variable validate_str : JSON -> option string.
Variable min_confidence : Z.

Lemma split_go_nonempty sep s : forall skip cur, split_go sep skip cur s <> [].
Proof.
  induction s as [|ch s IH]; intros skip cur; cbn [split_go]; [discriminate|].
  destruct skip; [|apply IH]. destruct (String.prefix sep _); [discriminate | apply IH].
Qed.

Lemma split_index_0 sep s : exists first, index (split sep s) 0 = Return first.
Proof.
  unfold index, split. pose proof (split_go_nonempty sep s 0 EmptyString) as H.
  destruct (split_go sep 0 EmptyString s) as [|x l]; [congruence|]. exists x. reflexivity.
Qed.

Lemma split_go_contains sep s : forall cur,
  sep <> EmptyString -> contains sep s = true ->
  exists a b rest, split_go sep 0 cur s = a :: b :: rest.
Proof.
  induction s as [|ch s IH]; intros cur Hsep Hc.
  - destruct sep; [congruence | cbn in Hc; congruence].
  - cbn [split_go]. cbn [contains] in Hc.
    destruct (String.prefix sep (String ch s)).
    + pose proof (split_go_nonempty sep s (String.length sep - 1) EmptyString) as Hne.
      destruct (split_go sep (String.length sep - 1) EmptyString s) as [|b rest]; [congruence|].
      eauto.
    + apply IH; assumption.
Qed.

Lemma split_index_1 sep s :
  sep <> EmptyString -> contains sep s = true ->
  exists after, index (split sep s) 1 = Return after.
Proof.
  intros Hsep Hc. unfold split.
  destruct (split_go_contains sep s EmptyString Hsep Hc) as (a & b & rest & ->).
  exists b. reflexivity.
Qed.

(** The extraction of the JSON text always succeeds. *)
Lemma extract_json_returns {S} response (s : S) :
  exists text, extract_json response s = (s, Return text).
Proof.
  unfold extract_json.
  destruct (contains "```json" (strip response)) eqn:Hj.
  - destruct (split_index_1 "```json" (strip response)) as [after Ha];
      [discriminate | exact Hj |].
    destruct (split_index_0 "```" after) as [inside Hi].
    cbv [bind lift ret]. rewrite Ha, Hi. eauto.
  - destruct (contains "```" (strip response)) eqn:Hf.
    + destruct (split_index_1 "```" (strip response)) as [after Ha];
        [discriminate | exact Hf |].
      destruct (split_index_0 "```" after) as [inside Hi].
      cbv [bind lift ret]. rewrite Ha, Hi. eauto.
    + cbv [ret]. eauto.
Qed.

Lemma build_suggestion_eval file_path sug_data w :
  build_suggestion uuid_source validate_int validate_str file_path sug_data w =
    (advance 1 w,
     suggestion_of validate_int validate_str (uuid_source (uuids_drawn w)) file_path sug_data).
Proof.
  unfold build_suggestion, suggestion_of, advance.
  destruct sug_data; reflexivity.
Qed.

Lemma suggestions_loop_eval file_path items : forall w acc,
  exists k o,
    suggestions_loop uuid_source validate_int validate_str file_path items (w, acc) =
      ((advance k w,
        acc ++ built_prefix uuid_source validate_int validate_str file_path (uuids_drawn w) items),
       o).
Proof.
  induction items as [|x items IH]; intros w acc; cbn [suggestions_loop built_prefix].
  - exists 0, (Return tt). cbv [ret advance]. rewrite app_nil_r. destruct w; reflexivity.
  - cbv [bind on_world]. cbn [fst snd]. rewrite build_suggestion_eval.
    destruct (suggestion_of _ _ _ _ x) as [s|e].
    + cbv [modify]. cbn [fst snd].
      destruct (IH (advance 1 w) (acc ++ [s])) as (k & o & ->).
      exists (k + 1), o. rewrite <- app_assoc. cbn [app uuids_drawn advance].
      f_equal. f_equal. unfold advance. cbn. f_equal. lia.
    + exists 1, (Raise e). rewrite app_nil_r. reflexivity.
Qed.

(** C2, amended: for every response and file path [_parse_llm_response]
    returns a list and never raises; the list is empty when the text is not
    valid JSON or does not decode to something a loop can visit; otherwise
    it holds the suggestions of the items before the first item whose
    construction fails, which is the empty list only if the first item
    fails. *)
Theorem parse_llm_response_keeps_built_prefix (response file_path : string) (w : World) :
  exists text k result,
    extract_json response w = (w, Return text) /\
    _parse_llm_response uuid_source json_loads validate_int validate_str response file_path w =
      (advance k w, Return result) /\
    match json_loads text with
    | Raise _ => result = []
    | Return suggestions_data =>
        match iterate suggestions_data with
        | Raise _ => result = []
        | Return items =>
            result = built_prefix uuid_source validate_int validate_str file_path
                       (uuids_drawn w) items
        end
    end.
Proof.
  destruct (extract_json_returns response w) as [text Hw].
  destruct (extract_json_returns response (w, @nil Suggestion)) as [text' Hwl].
  assert (text' = text) as ->.
  { revert Hw Hwl. unfold extract_json.
    repeat match goal with |- context [if ?b then _ else _] => destruct b end;
      cbv [bind lift ret];
      repeat match goal with |- context [index ?l ?i] => destruct (index l i) end;
      congruence. }
  exists text.
  unfold _parse_llm_response, with_local, try_except.
  cbv [bind]. rewrite Hwl. cbv [lift get_state ret print].
  destruct (json_loads text) as [data|e].
  - destruct (iterate data) as [items|e].
    + destruct (suggestions_loop_eval file_path items w []) as (k & o & Hloop).
      rewrite Hloop. exists k. eexists. split; [exact Hw|].
      destruct o as [[]|e]; [|destruct e]; split; reflexivity.
    + exists 0. eexists. split; [exact Hw|].
      destruct e; (split; [destruct w; reflexivity | reflexivity]).
  - exists 0. eexists. split; [exact Hw|].
    destruct e; (split; [destruct w; reflexivity | reflexivity]).
Qed.

(** C2, counterexample: the second item of this response cannot be
    constructed, and the parser returns the suggestion of the first item, not
    the empty list. *)
Lemma parse_llm_response_partial_result :
  loads_fragment partial_response =
    Return (JArr [ JObj [("line_number", JInt 3); ("suggestion", JStr "use f-string");
                         ("confidence", JInt 90)];
                   JObj [("line_number", JNull)] ]) /\
  (build_suggestion example_uuid strict_int strict_str "a.py"
     (JObj [("line_number", JNull)]) (advance 1 world0)).2 =
    Raise (ValidationError "validation error for Suggestion") /\
  (_parse_llm_response example_uuid loads_fragment strict_int strict_str
     partial_response "a.py" world0).2 =
    Return [ {| id := "uuid-0"; line_number := 3; end_line_number := None;
                file_path := "a.py"; category := "best_practice";
                suggestion := "use f-string"; confidence := 90;
                code_snippet := EmptyString |} ] /\
  (_parse_llm_response example_uuid loads_fragment strict_int strict_str
     partial_response "a.py" world0).2 <> Return [].
Proof.
  split; [vm_compute; reflexivity|]. split; [vm_compute; reflexivity|].
  split; [vm_compute; reflexivity|]. vm_compute. discriminate.
Qed.

Lemma find_similar_code_returns text limit (c : VectorStore.Collection) :
  exists similar, VectorStore.find_similar_code rank text limit c = (c, Return similar).
Proof.
  cbv [VectorStore.find_similar_code try_except bind VectorStore.collection_query
         get_state ret raise print].
  destruct (Z.min (limit * 3) 20 <=? 0)%Z; eauto.
Qed.

Lemma review_file_returns file_change parsed_diff review_id w :
  exists w' file_suggestions,
    _review_file rank llm uuid_source json_loads validate_int validate_str
      file_change parsed_diff review_id w = (w', Return file_suggestions).
Proof.
  unfold _review_file.
  destruct (find_similar_code_returns (_build_code_context file_change) 3
              (suggestions_collection w)) as [similar Hs].
  cbv [bind on_store]. rewrite Hs. cbv [try_except].
  match goal with |- context [let (_, _) := ?body in _] => destruct body as [w1 [l|e]] end;
    cbv [print ret]; eauto.
Qed.

Lemma review_loop_returns parsed_diff review_id fs : forall acc w,
  exists w' generated,
    review_loop rank llm uuid_source json_loads validate_int validate_str
      fs parsed_diff review_id acc w = (w', Return generated).
Proof.
  induction fs as [|f fs IH]; intros acc w; cbn [review_loop].
  - cbv [ret]. eauto.
  - destruct (review_file_returns f parsed_diff review_id w) as (w1 & l & Hf).
    cbv [bind]. rewrite Hf. apply IH.
Qed.

(** The loop over the files collects what each call of [_review_file]
    returns, every file having its call. *)
Lemma review_loop_runs parsed_diff review_id fs : forall acc w,
  let review_file := fun f =>
    _review_file rank llm uuid_source json_loads validate_int validate_str
      f parsed_diff review_id in
  exists w',
    review_loop rank llm uuid_source json_loads validate_int validate_str
      fs parsed_diff review_id acc w =
      (w', Return (acc ++ concat ((fun run => run.2) <$> file_runs review_file fs w))) /\
    (fun run => run.1.1) <$> file_runs review_file fs w = fs.
Proof.
  cbv zeta. induction fs as [|f fs IH]; intros acc w; cbn [review_loop file_runs].
  - exists w. cbn. rewrite app_nil_r. split; reflexivity.
  - destruct (review_file_returns f parsed_diff review_id w) as (w1 & l & Hf).
    cbv [bind]. rewrite Hf.
    destruct (IH (acc ++ l) w1) as (w' & Hloop & Hfiles).
    exists w'. rewrite Hloop. cbn [fmap list_fmap concat fst snd].
    rewrite <- app_assoc. split; [reflexivity|]. f_equal. exact Hfiles.
Qed.

(** C5: [generate_review] returns.  Every file of the diff is reviewed by
    one call of [_review_file], in order, each call starting in the world
    the call before it left; the result holds, in the order the calls
    returned them, exactly the suggestions those calls returned whose
    confidence is at least the configured minimum: none below it, and every
    one at or above it. *)
Theorem generate_review_filters_by_confidence
    (parsed_diff : DiffParser.ParsedDiff) (review_id : string) (w : World) :
  let review_file := fun f =>
    _review_file rank llm uuid_source json_loads validate_int validate_str
      f parsed_diff review_id in
  let runs := file_runs review_file (DiffParser.files parsed_diff) w in
  exists w' result,
    generate_review rank llm uuid_source json_loads validate_int validate_str min_confidence
      parsed_diff review_id w = (w', Return result) /\
    (fun run => run.1.1) <$> runs = DiffParser.files parsed_diff /\
    (forall f w0 returned, (f, w0, returned) ∈ runs ->
       (review_file f w0).2 = Return returned) /\
    result = List.filter (fun s => (min_confidence <=? confidence s)%Z)
               (concat ((fun run => run.2) <$> runs)) /\
    (forall s, s ∈ result -> (min_confidence <= confidence s)%Z) /\
    (forall f w0 returned s,
       (f, w0, returned) ∈ runs -> s ∈ returned ->
       (min_confidence <= confidence s)%Z -> s ∈ result).
Proof.
  cbv zeta. unfold generate_review, all_suggestions.
  destruct (review_loop_runs parsed_diff review_id (DiffParser.files parsed_diff) [] w)
    as (w' & Hloop & Hfiles).
  cbv zeta in Hloop, Hfiles. cbn [app] in Hloop.
  cbv [bind ret]. rewrite Hloop. eexists. eexists. split; [reflexivity|].
  split; [exact Hfiles|]. split.
  { clear. generalize (DiffParser.files parsed_diff). intros fs. revert w.
    induction fs as [|g fs IH]; intros w f w0 returned Hin; cbn [file_runs] in Hin;
      [inversion Hin|].
    destruct (_review_file _ _ _ _ _ _ g parsed_diff review_id w) as [w1 [l|e]] eqn:Hg;
      [|inversion Hin].
    apply elem_of_cons in Hin as [[= -> -> ->]|Hin]; [rewrite Hg; reflexivity|].
    exact (IH _ _ _ _ Hin). }
  split; [reflexivity|]. split.
  - intros s Hs. apply list_elem_of_In, filter_In in Hs as [_ Hs]. apply Z.leb_le. exact Hs.
  - intros f w0 returned s Hrun Hs Hconf.
    apply list_elem_of_In, filter_In. split; [|apply Z.leb_le; exact Hconf].
    apply List.in_concat. exists returned. split; [|apply list_elem_of_In; exact Hs].
    apply list_elem_of_In.
    apply (list_elem_of_fmap_2 (fun run : DiffParser.FileChange * World * list Suggestion =>
                                  run.2) _ (f, w0, returned)).
    exact Hrun.
Qed.

End ParseFacts.

(** ** The generator on the examples of the specification *)

Section GeneratorExamples.

Import Json Models ReviewService ParseSpec Examples.

(** One added line and a one-item answer give exactly one suggestion. *)
Example generate_review_end_to_end :
  (generate_review insertion_order steady_engine example_uuid loads_fragment
     strict_int strict_str 30 hi_diff "review-1" world0).2 =
  Return [ {| id := "uuid-0"; line_number := 10; end_line_number := None;
              file_path := "a.py"; category := "style"; suggestion := "use f-string";
              confidence := 80;
              code_snippet := "print(" +:+ dq +:+ "hi" +:+ dq +:+ ")" |} ].
Proof. vm_compute. reflexivity. Qed.

(** An answer that is not JSON for the first file gives no suggestion for
    it and leaves the suggestion of the second file in the result. *)
Example generate_review_isolates_bad_answer :
  (generate_review insertion_order stumbling_engine example_uuid loads_fragment
     strict_int strict_str 30 two_file_diff "review-1" world0).2 =
  Return [ {| id := "uuid-0"; line_number := 10; end_line_number := None;
              file_path := "b.py"; category := "style"; suggestion := "use f-string";
              confidence := 80;
              code_snippet := "print(" +:+ dq +:+ "hi" +:+ dq +:+ ")" |} ].
Proof. vm_compute. reflexivity. Qed.

(** A suggestion below the threshold is dropped. *)
Example generate_review_drops_low_confidence :
  (generate_review insertion_order steady_engine example_uuid loads_fragment
     strict_int strict_str 81 hi_diff "review-1" world0).2 = Return [].
Proof. vm_compute. reflexivity. Qed.

End GeneratorExamples.

(** ** [get_statistics] *)

Section StatsFacts.

Import VectorStore StatsService StoreSpec.

Lemma has_feedback_spec e : has_feedback (entry_metadata e) = true <-> in_terminal_state e.
Proof.
  unfold has_feedback, is_feedback_action, in_terminal_state, get_or.
  rewrite bool_decide_eq_true.
  destruct (entry_metadata e !! "action") as [[a|n]|]; cbn [default].
  - rewrite !elem_of_cons, !elem_of_nil. split.
    + intros [[= ->]|[[= ->]|[[= ->]|[]]]]; eexists; (split; [|reflexivity]); compute_done.
    + intros (a' & Ha & [= <-]). rewrite !elem_of_cons, elem_of_nil in Ha.
      destruct Ha as [->|[->|[->|[]]]]; auto.
  - split; [|intros (a' & _ & [=])]. rewrite !elem_of_cons, elem_of_nil.
    intros [[=]|[[=]|[[=]|[]]]].
  - split; [|intros (a' & _ & [=])]. rewrite !elem_of_cons, elem_of_nil.
    intros [[=]|[[=]|[[=]|[]]]].
Qed.

Lemma feedback_loop_filter (c : Collection) : forall rest i acc,
  drop i c = rest ->
  feedback_loop (entry_metadata <$> c) i (entry_id <$> rest) acc =
  acc ++ List.filter has_feedback (entry_metadata <$> rest).
Proof.
  intros rest. induction rest as [|e rest IH]; intros i acc Hdrop;
    cbn [fmap list_fmap feedback_loop List.filter].
  - rewrite app_nil_r. reflexivity.
  - assert (Hi : c !! i = Some e).
    { rewrite <- (Nat.add_0_r i), <- lookup_drop, Hdrop. reflexivity. }
    assert (Hrest : drop (S i) c = rest).
    { rewrite <- (Nat.add_1_r i), <- drop_drop, Hdrop. reflexivity. }
    rewrite list_lookup_fmap, Hi. cbn [fmap option_fmap option_map default].
    rewrite (IH (S i) _ Hrest). unfold id.
    change (is_feedback_action (get_or (entry_metadata e) "action" (MStr "pending")))
      with (has_feedback (entry_metadata e)).
    destruct (has_feedback (entry_metadata e)); [rewrite <- app_assoc|]; reflexivity.
Qed.

(** The statistics are a function of the metadata of the documents with
    feedback. *)
Lemma get_statistics_unfold (c : Collection) :
  get_statistics c =
    (c, match List.filter has_feedback (entry_metadata <$> c) with
        | [] => Return zeroed
        | _ :: _ =>
            let items := List.filter has_feedback (entry_metadata <$> c) in
            match count_loop items tally0 with
            | Raise e => Return (failed e)
            | Return t =>
                match sorted_desc feedback_time items with
                | Raise e => Return (failed e)
                | Return sorted_items =>
                    Return
                      {| error := None;
                         total_feedback := Z.of_nat (length items);
                         acceptance_rate :=
                           if (0 <? Z.of_nat (length items))%Z
                           then RatePercent (t_accepts t) (Z.of_nat (length items))
                           else RateInt 0;
                         accepts := Some (t_accepts t);
                         rejects := Some (t_rejects t);
                         edits := Some (t_edits t);
                         by_category := Some (t_by_category t);
                         by_confidence := Some (t_by_confidence t);
                         recent_patterns := Some (pattern_of <$> take 10 sorted_items) |}
                end
            end
        end).
Proof.
  unfold get_statistics, get_statistics_via, collection_get.
  cbv [try_except bind get_state ret pack ids metadatas matches_where forallb].
  rewrite filter_all.
  rewrite (feedback_loop_filter c c 0 [] eq_refl). cbn [app].
  destruct (List.filter has_feedback (entry_metadata <$> c)) as [|m items]; [reflexivity|].
  cbv [lift]. destruct (count_loop _ _); [|reflexivity].
  destruct (sorted_desc _ _); reflexivity.
Qed.

Lemma feedback_items_filter (c : Collection) :
  List.filter has_feedback (entry_metadata <$> filter in_terminal_state c) =
  List.filter has_feedback (entry_metadata <$> c).
Proof.
  induction c as [|e c IH]; [reflexivity|].
  rewrite filter_cons. destruct (decide (in_terminal_state e)) as [H|H].
  - cbn [fmap list_fmap List.filter]. rewrite IH. reflexivity.
  - cbn [fmap list_fmap List.filter]. rewrite IH.
    destruct (has_feedback (entry_metadata e)) eqn:Hf; [|reflexivity].
    apply has_feedback_spec in Hf. contradiction.
Qed.

(** C9: [get_statistics] returns a dictionary whatever the collection
    answers, also when reading it fails; documents that are not in a terminal
    action state do not change its result; and when no document is in a
    terminal action state the result is exactly the zeroed dictionary. *)
Theorem get_statistics_zeroed_without_feedback (c : Collection) :
  (forall fetch, exists c' stats, get_statistics_via fetch c = (c', Return stats)) /\
  (get_statistics c).2 = (get_statistics (filter in_terminal_state c)).2 /\
  ((forall e, e ∈ c -> ~ in_terminal_state e) ->
   get_statistics c =
     (c, Return {| error := None; total_feedback := 0; acceptance_rate := RateInt 0;
                   accepts := None; rejects := None; edits := None;
                   by_category := Some ∅; by_confidence := Some ∅;
                   recent_patterns := Some [] |})).
Proof.
  split; [|split].
  - intros fetch. unfold get_statistics_via, try_except.
    match goal with |- context [let (_, _) := ?body in _] => destruct body as [c' [s|e]] end;
      cbv [bind print ret]; eauto.
  - rewrite !get_statistics_unfold. cbn [snd]. rewrite feedback_items_filter. reflexivity.
  - intros Hnone. rewrite get_statistics_unfold.
    assert (List.filter has_feedback (entry_metadata <$> c) = []) as ->; [|reflexivity].
    clear -Hnone. induction c as [|e c IH]; [reflexivity|].
    cbn [fmap list_fmap List.filter].
    destruct (has_feedback (entry_metadata e)) eqn:Hf.
    + apply has_feedback_spec in Hf. exfalso. apply (Hnone e); [left|exact Hf].
    + apply IH. intros e' He'. apply Hnone. right. exact He'.
Qed.

(** A rejected suggestion in the store shows up as one reject in the
    statistics. *)
Example get_statistics_counts_reject :
  let c := [Examples.judged "s1" "reject"] in
  exists stats,
    (get_statistics c).2 = Return stats /\
    total_feedback stats = 1%Z /\ rejects stats = Some 1%Z /\ accepts stats = Some 0%Z /\
    by_confidence stats = Some {[ "60-79" := {| conf_accept := 0; conf_reject := 1 |} ]}.
Proof. cbv zeta. eexists. split; [reflexivity|]. repeat split. Qed.

End StatsFacts.

(** ** [submit_feedback] *)

Section ApiFacts.

Import VectorStore Api.

(** C4: for a request whose action is outside the enumeration the handler
    raises the 400 exception inside its own [try], the blanket handler turns
    it into a 500 exception, and the response status is 500; the store is
    not touched. *)
Theorem submit_feedback_invalid_action_status (new_FeedbackService : Construction)
    (now : string) (request : FeedbackRequest) (c : Collection) :
  action request ∉ ["accept"; "reject"; "edit"] ->
  (exists detail,
     (submit_feedback new_FeedbackService now request c).2 = Raise (HTTPException 500 detail)) /\
  response_status (submit_feedback new_FeedbackService now request c).2 = 500%Z /\
  (submit_feedback new_FeedbackService now request c).1 = c.
Proof.
  intros Hbad. unfold submit_feedback.
  cbv [try_except bind]. rewrite bool_decide_eq_false_2 by exact Hbad.
  cbv [raise]. cbn. eauto.
Qed.

(** The sibling endpoint keeps the status it raised: an unknown review is
    answered with 404. *)
Lemma get_review_endpoint_not_found (now review_id : string) (c : Collection) :
  (VectorStore.get_review now (MStr review_id) c).2 = Return None ->
  response_status (get_review_endpoint (Return tt) now review_id c).2 = 404%Z.
Proof.
  intros Hnone. unfold get_review_endpoint. cbv [try_except bind lift].
  destruct (VectorStore.get_review now (MStr review_id) c) as [c' o].
  cbn [snd] in Hnone. subst o. reflexivity.
Qed.

End ApiFacts.

(** ** [store_feedback]: what it leaves alone, and edits *)

Section StoreFeedbackFrame.

Import VectorStore StoreSpec ReviewSpec.

(** X2: when document ids are unique, [store_feedback] keeps the number, the
    order, the ids and the documents of the store; in every metadata it keeps
    each key other than suggestion, edited_suggestion, feedback_timestamp,
    reason and action; and every document other than the first one that
    matches the (review, suggestion) pair is left exactly as it was. *)
Theorem store_feedback_frame
    (c : Collection) (now rid sid a : string) (r ed : option string) :
  NoDup (entry_id <$> c) ->
  let c' := (store_feedback now rid sid a r ed c).1 in
  length c' = length c /\
  forall i e, c !! i = Some e ->
    exists e', c' !! i = Some e' /\
      entry_id e' = entry_id e /\ entry_document e' = entry_document e /\
      (forall k, k ∉ feedback_keys -> entry_metadata e' !! k = entry_metadata e !! k) /\
      (head (List.filter (key_of rid sid) c) <> Some e -> e' = e).
Proof.
  intros _. cbv zeta. rewrite store_feedback_unfold. cbn [fst].
  split; [reflexivity|]. intros i e He. exists e. repeat split; auto.
Qed.

(** X3: an edited text is never written.  After [store_feedback] with an
    edited text that is not empty, for a pair that has a record, the record
    found for the pair is the one found before, the summary built from it
    shows the suggestion text and the action it showed before, and
    [get_review] answers for every review what it answered before. *)
Theorem store_feedback_edit_is_not_written
    (c : Collection) (now rid sid a text : string) (r : option string) (m0 : Metadata) :
  text <> EmptyString ->
  observe rid sid c = Some m0 ->
  let c' := (store_feedback now rid sid a r (Some text) c).1 in
  exists m,
    observe rid sid c' = Some m /\
    ss_suggestion (summary_of m) = ss_suggestion (summary_of m0) /\
    ss_action (summary_of m) = ss_action (summary_of m0) /\
    m !! "edited_suggestion" = m0 !! "edited_suggestion" /\
    forall now' rid', get_review now' rid' c' = get_review now' rid' c.
Proof.
  intros _ Hobs. cbv zeta. rewrite store_feedback_unfold. cbn [fst].
  exists m0. auto.
Qed.

End StoreFeedbackFrame.

(** ** [get_review] *)

Section GetReviewFacts.

Import VectorStore StoreSpec ReviewSpec.

Lemma string_ltb_trans x y z :
  String.ltb x y = true -> String.ltb y z = true -> String.ltb x z = true.
Proof.
  unfold String.ltb.
  destruct (String.compare x y) eqn:Hxy; try discriminate.
  destruct (String.compare y z) eqn:Hyz; try discriminate.
  intros _ _.
  apply OrderedTypeEx.String_as_OT.cmp_lt in Hxy, Hyz.
  pose proof (OrderedTypeEx.String_as_OT.lt_trans _ _ _ Hxy Hyz) as Hxz.
  apply OrderedTypeEx.String_as_OT.cmp_lt in Hxz.
  unfold OrderedTypeEx.String_as_OT.cmp in Hxz. rewrite Hxz. reflexivity.
Qed.

Lemma string_ltb_total x y : String.ltb x y = false -> x = y \/ String.ltb y x = true.
Proof.
  unfold String.ltb. destruct (String.compare x y) eqn:Hxy; try discriminate.
  - intros _. left. apply String.compare_eq_iff. exact Hxy.
  - intros _. right. rewrite String.compare_antisym, Hxy. reflexivity.
Qed.

Lemma less_than_trans a b c :
  less_than a b = Return true -> less_than b c = Return true -> less_than a c = Return true.
Proof.
  destruct a as [x|x], b as [y|y], c as [z|z]; cbn [less_than]; try discriminate;
    intros [= H1] [= H2]; f_equal.
  - eapply string_ltb_trans; eassumption.
  - apply Z.ltb_lt in H1, H2. apply Z.ltb_lt. lia.
Qed.

Lemma less_than_total a b :
  less_than a b = Return false -> a = b \/ less_than b a = Return true.
Proof.
  destruct a as [x|x], b as [y|y]; cbn [less_than]; try discriminate; intros [= H].
  - destruct (string_ltb_total x y H) as [->|H']; [left | right; f_equal]; auto.
  - apply Z.ltb_ge in H. destruct (decide (x = y)) as [->|Hne]; [left; reflexivity|].
    right. f_equal. apply Z.ltb_lt. lia.
Qed.

Lemma less_than_irrefl a : less_than a a = Return false.
Proof.
  destruct a as [x|x]; cbn [less_than]; f_equal.
  - unfold String.ltb. pose proof (String.compare_antisym x x) as H.
    destruct (String.compare x x); [reflexivity | discriminate | reflexivity].
  - apply Z.ltb_irrefl.
Qed.

(** [min] returns a member that no member lies below. *)
Lemma min_from_least ts : forall cur m,
  min_from cur ts = Return m ->
  m ∈ cur :: ts /\ forall t, t ∈ cur :: ts -> less_than t m = Return false.
Proof.
  induction ts as [|x ts IH]; intros cur m Hm; cbn [min_from] in Hm.
  - injection Hm as <-. split; [left|]. intros t Ht.
    apply list_elem_of_singleton in Ht. subst t. apply less_than_irrefl.
  - destruct (less_than x cur) as [[|]|e] eqn:Hx; [| |discriminate].
    + destruct (IH x m Hm) as [Hin Hleast]. split; [right; exact Hin|].
      intros t Ht. apply elem_of_cons in Ht as [->|Ht]; [|apply Hleast; exact Ht].
      pose proof (Hleast x ltac:(left)) as Hxm.
      destruct (less_than_total x m Hxm) as [->|Hmx].
      * apply less_than_asym. exact Hx.
      * apply less_than_asym. eapply less_than_trans; eassumption.
    + destruct (IH cur m Hm) as [Hin Hleast]. split.
      * apply elem_of_cons in Hin as [->|Hin]; [left | right; right; exact Hin].
      * intros t Ht. apply elem_of_cons in Ht as [->|Ht]; [apply Hleast; left|].
        apply elem_of_cons in Ht as [->|Ht]; [|apply Hleast; right; exact Ht].
        pose proof (Hleast cur ltac:(left)) as Hcm.
        destruct (less_than_total x cur Hx) as [->|Hcx]; [exact Hcm|].
        destruct (less_than_total cur m Hcm) as [->|Hmc].
        -- exact Hx.
        -- apply less_than_asym. eapply less_than_trans; eassumption.
Qed.

(** [min] over strings does not raise. *)
Lemma min_from_strings ts : forall cur,
  Forall (fun t => exists s, t = MStr s) (cur :: ts) -> exists m, min_from cur ts = Return m.
Proof.
  induction ts as [|x ts IH]; intros cur Hall; cbn [min_from]; [eauto|].
  apply Forall_cons in Hall as [[s ->] Hall].
  pose proof Hall as Hall'. apply Forall_cons in Hall' as [[s' ->] Hts].
  cbn [less_than]. destruct (String.ltb s' s); apply IH.
  - exact Hall.
  - constructor; [eauto | exact Hts].
Qed.

Lemma add_to_files_paths p s fs :
  fg_file_path <$> add_to_files p s fs =
    if bool_decide (p ∈ fg_file_path <$> fs) then fg_file_path <$> fs
    else (fg_file_path <$> fs) ++ [p].
Proof.
  induction fs as [|g fs IH]; cbn [add_to_files fmap list_fmap]; [reflexivity|].
  destruct (decide (fg_file_path g = p)) as [Hg|Hg].
  - rewrite (bool_decide_eq_true_2 _ Hg).
    cbn [fmap list_fmap fg_file_path]. rewrite bool_decide_eq_true_2; [reflexivity|].
    rewrite Hg. left.
  - rewrite (bool_decide_eq_false_2 _ Hg). cbn [fmap list_fmap]. rewrite IH.
    destruct (decide (p ∈ fg_file_path <$> fs)) as [Hin|Hin].
    + rewrite !bool_decide_eq_true_2; [reflexivity | right; exact Hin | exact Hin].
    + rewrite !bool_decide_eq_false_2; [reflexivity | | exact Hin].
      intros Hin'. apply elem_of_cons in Hin' as [->|Hin']; [apply Hg; reflexivity | auto].
Qed.

Lemma add_to_files_NoDup p s fs :
  NoDup (fg_file_path <$> fs) -> NoDup (fg_file_path <$> add_to_files p s fs).
Proof.
  intros Hnd. rewrite add_to_files_paths. case_bool_decide as Hin; [exact Hnd|].
  apply NoDup_app. split; [exact Hnd|]. split; [|apply NoDup_singleton].
  intros x Hx Hx'. apply list_elem_of_singleton in Hx'. subst x. contradiction.
Qed.

Lemma add_to_files_total p s fs :
  total_suggestions (add_to_files p s fs) = S (total_suggestions fs).
Proof.
  unfold total_suggestions.
  induction fs as [|g fs IH]; cbn [add_to_files sum_list_with]; [reflexivity|].
  destruct (bool_decide (fg_file_path g = p)).
  - cbn [sum_list_with fg_suggestions]. rewrite length_app. cbn [length]. lia.
  - cbn [sum_list_with]. rewrite IH. lia.
Qed.

(** The grouping loop on the result of a lookup: every document is read at
    its own index, so the loop does not raise. *)
Lemma group_loop_fold (hits : list Entry) : forall rest i fs,
  drop i hits = rest ->
  group_loop (entry_metadata <$> hits) i (entry_id <$> rest) fs =
  Return (foldl (fun fs e =>
                   add_to_files (get_or (entry_metadata e) "file_path" (MStr "unknown"))
                     (summary_of (entry_metadata e)) fs) fs rest).
Proof.
  intros rest. induction rest as [|e rest IH]; intros i fs Hdrop;
    cbn [fmap list_fmap group_loop foldl]; [reflexivity|].
  assert (Hi : hits !! i = Some e).
  { rewrite <- (Nat.add_0_r i), <- lookup_drop, Hdrop. reflexivity. }
  assert (Hrest : drop (S i) hits = rest).
  { rewrite <- (Nat.add_1_r i), <- drop_drop, Hdrop. reflexivity. }
  destruct hits as [|h hits']; [discriminate|].
  cbn [fmap list_fmap]. change (entry_metadata h :: (entry_metadata <$> hits'))
    with (entry_metadata <$> (h :: hits')).
  rewrite list_lookup_fmap, Hi. cbn [fmap option_fmap option_map].
  apply IH. exact Hrest.
Qed.

Lemma fold_add_to_files_invariant (rest : list Entry) : forall fs,
  NoDup (fg_file_path <$> fs) ->
  let fs' := foldl (fun fs e =>
                   add_to_files (get_or (entry_metadata e) "file_path" (MStr "unknown"))
                     (summary_of (entry_metadata e)) fs) fs rest in
  NoDup (fg_file_path <$> fs') /\
  total_suggestions fs' = total_suggestions fs + length rest.
Proof.
  induction rest as [|e rest IH]; intros fs Hnd; cbn [foldl length].
  - split; [exact Hnd | lia].
  - destruct (IH _ (add_to_files_NoDup
                      (get_or (entry_metadata e) "file_path" (MStr "unknown"))
                      (summary_of (entry_metadata e)) fs Hnd)) as [Hnd' Htot].
    split; [exact Hnd'|]. cbv zeta in Htot. rewrite Htot, add_to_files_total. lia.
Qed.

(** [get_review] as a function of the documents of the review. *)
Lemma get_review_unfold (now : string) (rid : MetaValue) (c : Collection) :
  get_review now rid c =
    (c, Return
          match of_review rid c with
          | [] => None
          | _ :: _ =>
              let hits := of_review rid c in
              let fs := foldl (fun fs e =>
                                 add_to_files
                                   (get_or (entry_metadata e) "file_path" (MStr "unknown"))
                                   (summary_of (entry_metadata e)) fs) [] hits in
              match timestamps_of (entry_metadata <$> hits) with
              | [] => Some {| review_id := rid; files := fs; created_at := MStr now;
                              suggestion_count := length hits |}
              | t :: ts =>
                  match min_from t ts with
                  | Return m => Some {| review_id := rid; files := fs; created_at := m;
                                        suggestion_count := length hits |}
                  | Raise _ => None
                  end
              end
          end).
Proof.
  unfold get_review, collection_get.
  cbv [try_except bind get_state ret pack ids metadatas lift print].
  fold (of_review rid c).
  generalize (of_review rid c). intros [|h hits]; [reflexivity|].
  cbn [fmap list_fmap].
  change (entry_id h :: (entry_id <$> hits)) with (entry_id <$> (h :: hits)).
  change (entry_metadata h :: (entry_metadata <$> hits))
    with (entry_metadata <$> (h :: hits)).
  rewrite (group_loop_fold (h :: hits) (h :: hits) 0 [] eq_refl).
  cbv zeta. rewrite length_fmap.
  destruct (timestamps_of _) as [|t ts]; [reflexivity|].
  destruct (min_from t ts); reflexivity.
Qed.

(** X4: [get_review] never raises and leaves the store as it is.  Without a
    document of the review it answers [None].  A summary it answers carries
    the requested id, counts exactly the documents of the review, files each
    of them once under pairwise distinct file paths, and is dated with a
    stored creation time that no other creation time of the review lies
    below, or with the current time when none is stored.  When the creation
    times of the review are strings, as [store_review_context] writes them,
    and the review has a document, a summary is answered. *)
Theorem get_review_summary (now : string) (rid : MetaValue) (c : Collection) :
  let hits := of_review rid c in
  let stamps := timestamps_of (entry_metadata <$> hits) in
  exists o,
    get_review now rid c = (c, Return o) /\
    (hits = [] -> o = None) /\
    (forall r, o = Some r ->
       review_id r = rid /\
       suggestion_count r = length hits /\
       total_suggestions (files r) = length hits /\
       NoDup (fg_file_path <$> files r) /\
       (stamps = [] -> created_at r = MStr now) /\
       (stamps <> [] -> created_at r ∈ stamps) /\
       (forall t, t ∈ stamps -> less_than t (created_at r) = Return false)) /\
    (hits <> [] -> Forall (fun t => exists s, t = MStr s) stamps -> o <> None).
Proof.
  cbv zeta. unfold get_review, collection_get.
  cbv [try_except bind get_state ret pack ids metadatas lift print].
  fold (of_review rid c).
  generalize (of_review rid c). intros [|h hits].
  - exists None. cbn. repeat split; try discriminate. intros H. contradiction.
  - cbn [fmap list_fmap].
    change (entry_id h :: (entry_id <$> hits)) with (entry_id <$> (h :: hits)).
    change (entry_metadata h :: (entry_metadata <$> hits))
      with (entry_metadata <$> (h :: hits)).
    rewrite (group_loop_fold (h :: hits) (h :: hits) 0 [] eq_refl).
    destruct (fold_add_to_files_invariant (h :: hits) [] (NoDup_nil_2)) as [Hnd Htot].
    cbv zeta in Hnd, Htot.
    destruct (timestamps_of (entry_metadata <$> h :: hits)) as [|t ts] eqn:Hts.
    + eexists. split; [reflexivity|]. split; [discriminate|]. split.
      * intros r [= <-]. cbn [review_id suggestion_count files created_at].
        rewrite length_fmap. repeat split; auto.
        -- intros H. contradiction.
        -- intros t Ht. inversion Ht.
      * intros _ _. discriminate.
    + destruct (min_from t ts) as [m|e] eqn:Hmin.
      * eexists. split; [reflexivity|]. split; [discriminate|]. split.
        -- intros r [= <-]. cbn [review_id suggestion_count files created_at].
           rewrite length_fmap. destruct (min_from_least ts t m Hmin) as [Hin Hleast].
           repeat split; auto. discriminate.
        -- intros _ _. discriminate.
      * eexists. split; [reflexivity|]. split; [discriminate|]. split; [discriminate|].
        intros _ Hall. destruct (min_from_strings ts t Hall) as [m Hm]. congruence.
Qed.

End GetReviewFacts.

(** ** [get_statistics]: the totals *)

Section StatsTotals.

Import VectorStore StatsService StoreSpec StatsSpec.

Lemma has_feedback_action (m : Metadata) :
  has_feedback m = true ->
  get_or m "action" (MStr EmptyString) ∈ [MStr "accept"; MStr "reject"; MStr "edit"].
Proof.
  unfold has_feedback, is_feedback_action, get_or. intros H.
  apply bool_decide_eq_true_1 in H.
  destruct (m !! "action") as [v|]; [exact H|].
  exfalso. cbn [default] in H. revert H. compute_done.
Qed.

(** One counted item adds one to exactly one of the three counters. *)
Lemma count_item_sum (m : Metadata) (t t' : Tally) :
  has_feedback m = true -> count_item m t = Return t' ->
  (t_accepts t' + t_rejects t' + t_edits t' = t_accepts t + t_rejects t + t_edits t + 1)%Z /\
  (t_accepts t <= t_accepts t')%Z /\ (t_rejects t <= t_rejects t')%Z /\
  (t_edits t <= t_edits t')%Z.
Proof.
  intros Hf Hc. apply has_feedback_action in Hf. unfold count_item in Hc.
  destruct (confidence_range _) as [range|e]; [|discriminate]. injection Hc as <-.
  rewrite !elem_of_cons, elem_of_nil in Hf.
  destruct Hf as [Ha|[Ha|[Ha|[]]]]; rewrite Ha;
    repeat first [ rewrite bool_decide_eq_true_2 by reflexivity
                 | rewrite bool_decide_eq_false_2 by discriminate ];
    cbn [t_accepts t_rejects t_edits]; lia.
Qed.

Lemma count_loop_sum (items : list Metadata) : forall t t',
  Forall (fun m => has_feedback m = true) items ->
  count_loop items t = Return t' ->
  (t_accepts t' + t_rejects t' + t_edits t' =
     t_accepts t + t_rejects t + t_edits t + Z.of_nat (length items))%Z /\
  (t_accepts t <= t_accepts t')%Z /\ (t_rejects t <= t_rejects t')%Z /\
  (t_edits t <= t_edits t')%Z.
Proof.
  induction items as [|m items IH]; intros t t' Hall Hc; cbn [count_loop] in Hc.
  - injection Hc as <-. cbn [length]. lia.
  - apply Forall_cons in Hall as [Hm Hall].
    destruct (count_item m t) as [t1|e] eqn:H1; [|discriminate].
    destruct (count_item_sum m t t1 Hm H1) as (Hs1 & Ha1 & Hr1 & He1).
    destruct (IH t1 t' Hall Hc) as (Hs & Ha & Hr & He).
    cbn [length]. lia.
Qed.

Lemma count_item_countable (m : Metadata) (t : Tally) :
  countable m -> exists t', count_item m t = Return t'.
Proof.
  intros [[n Hn] _]. unfold count_item. rewrite Hn. cbn [confidence_range]. eauto.
Qed.

Lemma count_loop_countable (items : list Metadata) : forall t,
  Forall countable items -> exists t', count_loop items t = Return t'.
Proof.
  induction items as [|m items IH]; intros t Hall; cbn [count_loop]; [eauto|].
  apply Forall_cons in Hall as [Hm Hall].
  destruct (count_item_countable m t Hm) as [t1 ->]. apply IH. exact Hall.
Qed.

Lemma insert_desc_strings {A} (key : A -> MetaValue) x : forall l,
  (exists s, key x = MStr s) -> Forall (fun y => exists s, key y = MStr s) l ->
  exists r, insert_desc key x l = Return r.
Proof.
  intros l [s Hs]. induction l as [|y ys IH]; intros Hall; cbn [insert_desc]; [eauto|].
  apply Forall_cons in Hall as [[s' Hs'] Hall]. rewrite Hs, Hs'. cbn [less_than].
  destruct (String.ltb s s'); [|eauto].
  destruct (IH Hall) as [r ->]. eauto.
Qed.

Lemma sorted_desc_strings {A} (key : A -> MetaValue) : forall l,
  Forall (fun y => exists s, key y = MStr s) l -> exists r, sorted_desc key l = Return r.
Proof.
  induction l as [|x l IH]; intros Hall; cbn [sorted_desc]; [eauto|].
  apply Forall_cons in Hall as [Hx Hall].
  destruct (IH Hall) as [r Hr]. rewrite Hr.
  apply insert_desc_strings; [exact Hx|].
  destruct (sorted_desc_sorted key l r Hr) as [_ Hp]. rewrite Hp. exact Hall.
Qed.

Lemma Sorted_take {A} (R : A -> A -> Prop) (l : list A) : forall n,
  Sorted R l -> Sorted R (take n l).
Proof.
  induction l as [|x l IH]; intros [|n] Hs; cbn [take]; try constructor.
  - apply IH. apply Sorted_inv in Hs. apply Hs.
  - apply Sorted_inv in Hs as [_ Hhd]. destruct l as [|y l]; destruct n; cbn [take]; constructor.
    inversion Hhd; assumption.
Qed.

Lemma Sorted_patterns (l : list Metadata) :
  Sorted (not_before feedback_time) l -> Sorted (not_before p_timestamp) (pattern_of <$> l).
Proof.
  induction l as [|x l IH]; intros Hs; cbn [fmap list_fmap]; [constructor|].
  apply Sorted_inv in Hs as [Hs Hhd]. constructor; [apply IH; exact Hs|].
  destruct l as [|y l]; cbn [fmap list_fmap]; constructor.
  inversion Hhd; assumption.
Qed.

Lemma feedback_items_length (c : Collection) :
  length (List.filter has_feedback (entry_metadata <$> c)) =
  length (filter in_terminal_state c).
Proof.
  induction c as [|e c IH]; [reflexivity|].
  cbn [fmap list_fmap List.filter]. rewrite filter_cons.
  destruct (has_feedback (entry_metadata e)) eqn:Hf.
  - rewrite decide_True by (apply has_feedback_spec; exact Hf). cbn [length]. rewrite IH. reflexivity.
  - rewrite decide_False; [exact IH|]. intros H. apply has_feedback_spec in H. congruence.
Qed.

Lemma feedback_items_Forall (P : Metadata -> Prop) (c : Collection) :
  Forall (fun e => in_terminal_state e -> P (entry_metadata e)) c ->
  Forall P (List.filter has_feedback (entry_metadata <$> c)).
Proof.
  induction c as [|e c IH]; intros Hall; cbn [fmap list_fmap List.filter]; [constructor|].
  apply Forall_cons in Hall as [He Hall].
  destruct (has_feedback (entry_metadata e)) eqn:Hf; [|apply IH; exact Hall].
  constructor; [|apply IH; exact Hall]. apply He, has_feedback_spec. exact Hf.
Qed.

Lemma get_statistics_returns (c : Collection) :
  exists stats, get_statistics c = (c, Return stats).
Proof.
  rewrite get_statistics_unfold.
  destruct (List.filter has_feedback (entry_metadata <$> c)); [eauto|].
  cbv zeta. destruct (count_loop _ _); [|eauto]. destruct (sorted_desc _ _); eauto.
Qed.

(** X5: [get_statistics] answers a dictionary and leaves the store as it is.
    When the dictionary reports no error, its total is the number of
    documents in a terminal action state; and when that number is positive,
    the counts of accepts, rejects and edits are not negative and add up to
    the total, the acceptance rate is computed from the accepts and the
    total, and the recent patterns are the first ten (or all, if fewer) in
    descending order of feedback time.  No error is reported when every
    document in a terminal state has an integer confidence and a string
    time. *)
Theorem get_statistics_totals (c : Collection) :
  let n := length (filter in_terminal_state c) in
  exists stats,
    get_statistics c = (c, Return stats) /\
    (error stats = None ->
       total_feedback stats = Z.of_nat n /\
       (n = 0 -> stats = zeroed) /\
       (0 < n ->
          exists a r e ps,
            accepts stats = Some a /\ rejects stats = Some r /\ edits stats = Some e /\
            (0 <= a)%Z /\ (0 <= r)%Z /\ (0 <= e)%Z /\ (a + r + e = Z.of_nat n)%Z /\
            acceptance_rate stats = RatePercent a (Z.of_nat n) /\
            recent_patterns stats = Some ps /\
            length ps = Nat.min 10 n /\
            Sorted (not_before p_timestamp) ps)) /\
    (Forall (fun e => in_terminal_state e -> countable (entry_metadata e)) c ->
     error stats = None).
Proof.
  cbv zeta. rewrite get_statistics_unfold, <- feedback_items_length.
  assert (Hfb : Forall (fun m => has_feedback m = true)
                  (List.filter has_feedback (entry_metadata <$> c))).
  { apply Forall_forall. intros m Hm. apply list_elem_of_In, filter_In in Hm. apply Hm. }
  pose proof (feedback_items_Forall countable c) as Hcountable.
  destruct (List.filter has_feedback (entry_metadata <$> c)) as [|m items] eqn:Hitems.
  - exists zeroed. split; [reflexivity|]. split; [|reflexivity].
    intros _. split; [reflexivity|]. split; [reflexivity|]. cbn [length]. lia.
  - cbv zeta. set (all := m :: items) in *.
    destruct (count_loop all tally0) as [t|e] eqn:Hcount.
    + destruct (sorted_desc feedback_time all) as [sorted|e] eqn:Hsort.
      * eexists. split; [reflexivity|]. split; [|reflexivity].
        intros _. cbn [total_feedback accepts rejects edits acceptance_rate recent_patterns].
        split; [reflexivity|]. split; [discriminate|]. intros Hpos.
        destruct (count_loop_sum all tally0 t Hfb Hcount) as (Hs & Ha & Hr & He).
        destruct (sorted_desc_sorted feedback_time all sorted Hsort) as [Hsorted Hp].
        exists (t_accepts t), (t_rejects t), (t_edits t), (pattern_of <$> take 10 sorted).
        cbn [tally0 t_accepts t_rejects t_edits] in Hs, Ha, Hr, He.
        repeat split; try assumption; try lia.
        -- rewrite length_fmap, length_take, Hp. reflexivity.
        -- apply Sorted_patterns, Sorted_take. exact Hsorted.
      * eexists. split; [reflexivity|]. split; [discriminate|].
        intros Hall. destruct (sorted_desc_strings feedback_time all) as [r Hr]; [|congruence].
        eapply Forall_impl; [apply Hcountable; exact Hall|]. intros x [_ Hx]. exact Hx.
    + eexists. split; [reflexivity|]. split; [discriminate|].
      intros Hall. destruct (count_loop_countable all tally0 (Hcountable Hall)) as [t Ht].
      congruence.
Qed.

Lemma map_total_insert `{Countable K} {V} (g : V -> Z) (k : K) (x : V) (m : gmap K V) :
  map_fold (fun _ v total => (g v + total)%Z) 0%Z (<[k := x]> m) =
  (map_fold (fun _ v total => (g v + total)%Z) 0%Z m + g x - from_option g 0%Z (m !! k))%Z.
Proof.
  destruct (m !! k) as [v|] eqn:Hk; cbn [from_option].
  - rewrite <- insert_delete_eq.
    rewrite map_fold_insert_L; [|intros; lia | apply lookup_delete_eq].
    rewrite (map_fold_delete_L _ _ k v m); [lia | intros; lia | exact Hk].
  - rewrite map_fold_insert_L; [lia | intros; lia | exact Hk].
Qed.

Lemma category_total_bump category f (m : gmap MetaValue CategoryCounts) :
  (forall c, cat_accept (f c) + cat_reject (f c) + cat_edit (f c) =
             cat_accept c + cat_reject c + cat_edit c + 1)%Z ->
  category_total (bump_category category f m) = (category_total m + 1)%Z.
Proof.
  intros Hf. unfold category_total, bump_category.
  rewrite (map_total_insert (fun c => cat_accept c + cat_reject c + cat_edit c)%Z).
  rewrite Hf. destruct (m !! category); cbn; lia.
Qed.

Lemma confidence_total_bump range f (m : gmap string ConfidenceCounts) :
  (forall c, conf_accept (f c) + conf_reject (f c) = conf_accept c + conf_reject c + 1)%Z ->
  confidence_total (bump_confidence range f m) = (confidence_total m + 1)%Z.
Proof.
  intros Hf. unfold confidence_total, bump_confidence.
  rewrite (map_total_insert (fun c => conf_accept c + conf_reject c)%Z).
  rewrite Hf. destruct (m !! range); cbn; lia.
Qed.

(** The two breakdowns keep step with the counters. *)
Lemma count_item_breakdowns (m : Metadata) (t t' : Tally) :
  count_item m t = Return t' ->
  category_total (t_by_category t) = (t_accepts t + t_rejects t + t_edits t)%Z ->
  confidence_total (t_by_confidence t) = (t_accepts t + t_rejects t)%Z ->
  category_total (t_by_category t') = (t_accepts t' + t_rejects t' + t_edits t')%Z /\
  confidence_total (t_by_confidence t') = (t_accepts t' + t_rejects t')%Z.
Proof.
  unfold count_item. intros Hc Hcat Hconf.
  destruct (confidence_range _) as [range|e]; [|discriminate]. injection Hc as <-.
  destruct (bool_decide (get_or m "action" (MStr EmptyString) = MStr "accept")).
  { cbn [t_accepts t_rejects t_edits t_by_category t_by_confidence].
    rewrite category_total_bump, confidence_total_bump by (intros; cbn; lia). lia. }
  destruct (bool_decide (get_or m "action" (MStr EmptyString) = MStr "reject")).
  { cbn [t_accepts t_rejects t_edits t_by_category t_by_confidence].
    rewrite category_total_bump, confidence_total_bump by (intros; cbn; lia). lia. }
  destruct (bool_decide (get_or m "action" (MStr EmptyString) = MStr "edit")).
  { cbn [t_accepts t_rejects t_edits t_by_category t_by_confidence].
    rewrite category_total_bump by (intros; cbn; lia). lia. }
  auto.
Qed.

Lemma count_loop_breakdowns (items : list Metadata) : forall t t',
  count_loop items t = Return t' ->
  category_total (t_by_category t) = (t_accepts t + t_rejects t + t_edits t)%Z ->
  confidence_total (t_by_confidence t) = (t_accepts t + t_rejects t)%Z ->
  category_total (t_by_category t') = (t_accepts t' + t_rejects t' + t_edits t')%Z /\
  confidence_total (t_by_confidence t') = (t_accepts t' + t_rejects t')%Z.
Proof.
  induction items as [|m items IH]; intros t t' Hc Hcat Hconf; cbn [count_loop] in Hc.
  - injection Hc as <-. auto.
  - destruct (count_item m t) as [t1|e] eqn:H1; [|discriminate].
    destruct (count_item_breakdowns m t t1 H1 Hcat Hconf) as [Hcat1 Hconf1].
    exact (IH t1 t' Hc Hcat1 Hconf1).
Qed.

(** X26: whenever the statistics carry the three counters, the breakdown
    by category holds every accept, reject and edit once, and the breakdown
    by confidence holds every accept and reject once: edits are left out of
    the confidence breakdown. *)
Theorem get_statistics_breakdowns (c : Collection) :
  exists stats,
    get_statistics c = (c, Return stats) /\
    forall a r e,
      accepts stats = Some a -> rejects stats = Some r -> edits stats = Some e ->
      exists by_cat by_conf,
        by_category stats = Some by_cat /\ by_confidence stats = Some by_conf /\
        category_total by_cat = (a + r + e)%Z /\
        confidence_total by_conf = (a + r)%Z.
Proof.
  rewrite get_statistics_unfold.
  destruct (List.filter has_feedback (entry_metadata <$> c)) as [|m items].
  { eexists. split; [reflexivity|]. discriminate. }
  cbv zeta. destruct (count_loop (m :: items) tally0) as [t|err] eqn:Hcount.
  2:{ eexists. split; [reflexivity|]. discriminate. }
  destruct (sorted_desc feedback_time (m :: items)) as [sorted|err].
  2:{ eexists. split; [reflexivity|]. discriminate. }
  eexists. split; [reflexivity|].
  cbn [accepts rejects edits by_category by_confidence].
  intros a r e [= <-] [= <-] [= <-].
  destruct (count_loop_breakdowns (m :: items) tally0 t Hcount) as [Hcat Hconf];
    [reflexivity | reflexivity |].
  exists (t_by_category t), (t_by_confidence t). auto.
Qed.

End StatsTotals.

(** ** The handlers that read the store *)

Section ReadHandlers.

Import VectorStore Api StoreSpec.

(** X6: for a request with one of the three actions the handler answers
    with success and status 200 whenever its service can be built, and with
    status 500 when the construction raises.  In either case the store is
    left exactly as it was, also when a record matches the pair: success is
    reported although [store_feedback] has written nothing. *)
Theorem submit_feedback_valid_action (new_FeedbackService : Construction)
    (now : string) (request : FeedbackRequest) (c : Collection) :
  action request ∈ ["accept"; "reject"; "edit"] ->
  (submit_feedback new_FeedbackService now request c).1 = c /\
  (new_FeedbackService = Return tt ->
   (submit_feedback new_FeedbackService now request c).2 =
     Return {| success := true;
               message := "Feedback " +:+ action request +:+ "ed successfully" |} /\
   response_status (submit_feedback new_FeedbackService now request c).2 = 200%Z /\
   observe (review_id request) (suggestion_id request)
     (submit_feedback new_FeedbackService now request c).1 =
   observe (review_id request) (suggestion_id request) c) /\
  (forall e, new_FeedbackService = Raise e ->
   (submit_feedback new_FeedbackService now request c).2 =
     Raise (HTTPException 500 (Py.message e)) /\
   response_status (submit_feedback new_FeedbackService now request c).2 = 500%Z).
Proof.
  intros Hok. unfold submit_feedback, process_feedback. cbv [try_except bind].
  rewrite bool_decide_eq_true_2 by exact Hok. cbv [ret lift].
  destruct new_FeedbackService as [[]|e0].
  - rewrite store_feedback_unfold. cbn [fst snd response_status].
    split; [reflexivity|]. split; [auto|]. intros e [=].
  - cbv [raise]. cbn [fst snd response_status].
    split; [reflexivity|]. split; [intros [=]|]. intros e [= <-]. auto.
Qed.

(** X7: the handler of [GET /api/review/{review_id}] never changes the
    store.  When its service can be built it answers with status 200 and
    the summary when the store has one, and with status 404 otherwise, also
    when reading the store failed, and never with 500; it answers 500 when
    the construction of the service raises. *)
Theorem get_review_endpoint_answers (new_ReviewService : Construction)
    (now review_id : string) (c : Collection) :
  (get_review_endpoint new_ReviewService now review_id c).1 = c /\
  (new_ReviewService = Return tt ->
   match (VectorStore.get_review now (MStr review_id) c).2 with
   | Return (Some r) => (get_review_endpoint new_ReviewService now review_id c).2 = Return r
   | _ => (get_review_endpoint new_ReviewService now review_id c).2 =
            Raise (HTTPException 404 "Review not found")
   end /\
   response_status (get_review_endpoint new_ReviewService now review_id c).2
     ∈ [200%Z; 404%Z]) /\
  (forall e, new_ReviewService = Raise e ->
   (forall status_code detail, e <> HTTPException status_code detail) ->
   (get_review_endpoint new_ReviewService now review_id c).2 =
     Raise (HTTPException 500 (Py.message e))).
Proof.
  unfold get_review_endpoint. cbv [try_except bind lift].
  destruct new_ReviewService as [[]|e0].
  - destruct (get_review_returns now (MStr review_id) c) as (o & -> & _).
    destruct o as [r|]; cbn; (split; [reflexivity|]);
      (split; [intros _; split; [reflexivity | compute_done] | intros e [=]]).
  - split; [destruct e0; reflexivity|]. split; [intros [=]|].
    intros e [= ->] Hnot. destruct e; try reflexivity.
    exfalso. exact (Hnot _ _ eq_refl).
Qed.

(** X8: the handler of [GET /api/reviews] never changes the store.  When
    its service can be built it answers with status 200 and the list
    [get_recent_reviews] returns, for every limit and every iteration order
    of the id set: a failure inside the store is answered with a list.  It
    answers 500 when the construction of the service raises. *)
Theorem get_reviews_always_answers (new_ReviewService : Construction)
    (set_iter : list MetaValue -> list MetaValue)
    (now : string) (limit : Z) (c : Collection) :
  (get_reviews new_ReviewService set_iter now limit c).1 = c /\
  (new_ReviewService = Return tt ->
   exists reviews,
     get_reviews new_ReviewService set_iter now limit c = (c, Return reviews) /\
     get_recent_reviews set_iter now limit c = (c, Return reviews) /\
     response_status (get_reviews new_ReviewService set_iter now limit c).2 = 200%Z) /\
  (forall e, new_ReviewService = Raise e ->
   (get_reviews new_ReviewService set_iter now limit c).2 =
     Raise (HTTPException 500 (Py.message e))).
Proof.
  unfold get_reviews. cbv [try_except bind ret lift].
  destruct new_ReviewService as [[]|e0].
  - rewrite get_recent_reviews_unfold.
    destruct (reviews_loop_returns now c
                (slice_to limit (set_iter (collect_review_ids (entry_metadata <$> c)))) [])
      as (rs & -> & _).
    cbn [app]. destruct (sorted_desc created_at rs) as [sorted|err];
      (split; [reflexivity|]); (split; [intros _; eexists; repeat split | intros e [=]]).
  - cbv [raise]. split; [reflexivity|]. split; [intros [=]|]. intros e [= <-]. reflexivity.
Qed.

(** X9: the handler of [GET /api/stats] leaves the store as it is.  When
    its service can be built it answers with status 200 and the dictionary
    [get_statistics] returns: a failure of the aggregation is the
    dictionary with the error text in the body, not a 500 response.  It
    answers 500 when the construction of the service raises. *)
Theorem get_stats_always_answers (new_StatsService : Construction) (c : Collection) :
  (get_stats new_StatsService c).1 = c /\
  (new_StatsService = Return tt ->
   exists stats,
     get_stats new_StatsService c = (c, Return stats) /\
     StatsService.get_statistics c = (c, Return stats) /\
     response_status (get_stats new_StatsService c).2 = 200%Z) /\
  (forall e, new_StatsService = Raise e ->
   (get_stats new_StatsService c).2 = Raise (HTTPException 500 (Py.message e))).
Proof.
  unfold get_stats. cbv [try_except bind ret lift].
  destruct new_StatsService as [[]|e0].
  - destruct (get_statistics_returns c) as (stats & ->).
    split; [reflexivity|]. split; [intros _; eexists; repeat split | intros e [=]].
  - cbv [raise]. split; [reflexivity|]. split; [intros [=]|]. intros e [= <-]. reflexivity.
Qed.

End ReadHandlers.

(** ** [generate_review]: what a run touches, and the identifiers it hands out *)

Section GeneratorFacts.

Import Text Json Models ReviewService ParseSpec.

Variable rank : string -> VectorStore.Collection -> list VectorStore.Entry.
Variable llm : nat -> string -> outcome string.
Variable uuid_source : nat -> string.
Variable json_loads : string -> outcome JSON.
Variable validate_int : JSON -> option Z.
Variable validate_str : JSON -> option string.
Variable min_confidence : Z.

Lemma suggestion_of_fields id_ fp sug_data s :
  suggestion_of validate_int validate_str id_ fp sug_data = Return s ->
  id s = id_ /\ file_path s = fp.
Proof.
  unfold suggestion_of, new_Suggestion. destruct sug_data; try discriminate.
  repeat match goal with
         | |- context [match ?x with Some _ => _ | None => _ end] => destruct x
         end; try discriminate.
  intros [= <-]. split; reflexivity.
Qed.

Lemma built_prefix_fields fp items : forall n,
  let built := built_prefix uuid_source validate_int validate_str fp n items in
  id <$> built = uuid_source <$> seq n (length built) /\
  Forall (fun s => file_path s = fp) built.
Proof.
  induction items as [|x items IH]; intros n; cbn [built_prefix].
  - split; [reflexivity | constructor].
  - destruct (suggestion_of _ _ _ _ x) as [s|e] eqn:Hs; [|split; [reflexivity | constructor]].
    destruct (suggestion_of_fields _ _ _ _ Hs) as [Hid Hfp].
    destruct (IH (S n)) as [Hids Hfps]. cbv zeta in *.
    cbn [length seq fmap list_fmap]. rewrite Hid. split.
    + change (list_fmap Suggestion string id) with (fmap (M := list) id).
      change (list_fmap nat string uuid_source) with (fmap (M := list) uuid_source).
      rewrite Hids. reflexivity.
    + constructor; assumption.
Qed.

Lemma suggestions_loop_draws fp items : forall w acc,
  exists k o,
    suggestions_loop uuid_source validate_int validate_str fp items (w, acc) =
      ((advance k w,
        acc ++ built_prefix uuid_source validate_int validate_str fp (uuids_drawn w) items),
       o) /\
    length (built_prefix uuid_source validate_int validate_str fp (uuids_drawn w) items) <= k.
Proof.
  induction items as [|x items IH]; intros w acc; cbn [suggestions_loop built_prefix].
  - exists 0, (Return tt). cbv [ret advance]. rewrite app_nil_r.
    split; [destruct w; reflexivity | cbn; lia].
  - cbv [bind on_world]. cbn [fst snd]. rewrite build_suggestion_eval.
    destruct (suggestion_of _ _ _ _ x) as [s|e].
    + cbv [modify]. cbn [fst snd].
      destruct (IH (advance 1 w) (acc ++ [s])) as (k & o & -> & Hk).
      exists (k + 1), o. rewrite <- app_assoc. cbn [app uuids_drawn advance] in *.
      split; [|cbn [length]; change (1 + uuids_drawn w) with (S (uuids_drawn w)) in Hk; lia].
      f_equal. f_equal. unfold advance. cbn. f_equal. lia.
    + exists 1, (Raise e). rewrite app_nil_r. split; [reflexivity | cbn; lia].
Qed.

(** The world after a response has been parsed, and what was built. *)
Lemma parse_llm_response_draws response fp w :
  exists k result,
    _parse_llm_response uuid_source json_loads validate_int validate_str response fp w =
      (advance k w, Return result) /\
    length result <= k /\
    id <$> result = uuid_source <$> seq (uuids_drawn w) (length result) /\
    Forall (fun s => file_path s = fp) result.
Proof.
  destruct (extract_json_returns response (w, @nil Suggestion)) as [text Hwl].
  unfold _parse_llm_response, with_local, try_except.
  cbv [bind]. rewrite Hwl. cbv [lift get_state ret print].
  assert (Hnone : exists k result,
            (w, Return (@nil Suggestion)) = (advance k w, Return result) /\
            length result <= k /\
            id <$> result = uuid_source <$> seq (uuids_drawn w) (length result) /\
            Forall (fun s => file_path s = fp) result).
  { exists 0, []. split; [destruct w; reflexivity|]. cbn. repeat split; [lia | constructor]. }
  destruct (json_loads text) as [data|e]; [|destruct e; exact Hnone].
  destruct (iterate data) as [items|e]; [|destruct e; exact Hnone].
  destruct (suggestions_loop_draws fp items w []) as (k & o & -> & Hk).
  destruct (built_prefix_fields fp items (uuids_drawn w)) as [Hids Hfps].
  cbv zeta in Hids, Hfps. cbn [app] in *.
  exists k. eexists. split; [destruct o as [[]|e]; [|destruct e]; reflexivity|].
  cbn [snd]. auto.
Qed.

(** One file: the store is left alone, the engine is called once, and the
    suggestions carry the path of the file and the identifiers drawn. *)
Lemma review_file_effect file_change parsed_diff review_id w :
  exists k result,
    _review_file rank llm uuid_source json_loads validate_int validate_str
      file_change parsed_diff review_id w =
      ({| suggestions_collection := suggestions_collection w;
          uuids_drawn := k + uuids_drawn w;
          llm_calls := S (llm_calls w) |}, Return result) /\
    length result <= k /\
    id <$> result = uuid_source <$> seq (uuids_drawn w) (length result) /\
    Forall (fun s => file_path s = DiffParser.path file_change) result.
Proof.
  unfold _review_file.
  destruct (find_similar_code_returns rank (_build_code_context file_change) 3
              (suggestions_collection w)) as [similar Hs].
  cbv [bind on_store]. rewrite Hs. cbv [try_except _call_llm].
  cbn [suggestions_collection uuids_drawn llm_calls].
  destruct (llm (llm_calls w) _) as [response|e].
  - match goal with
    | |- context [_parse_llm_response _ _ _ _ ?r ?p ?w0] =>
        destruct (parse_llm_response_draws r p w0) as (k & result & -> & Hk & Hids & Hfps)
    end.
    exists k, result. split; [reflexivity|]. auto.
  - exists 0, []. cbv [print ret bind]. split; [reflexivity|].
    cbn. repeat split; [lia | constructor].
Qed.

(** The loop over the files: the identifiers of what is generated are those
    of pairwise distinct draws made during the loop. *)
Lemma review_loop_effect parsed_diff review_id fs : forall acc w,
  exists k generated draws,
    review_loop rank llm uuid_source json_loads validate_int validate_str
      fs parsed_diff review_id acc w =
      ({| suggestions_collection := suggestions_collection w;
          uuids_drawn := k + uuids_drawn w;
          llm_calls := length fs + llm_calls w |}, Return (acc ++ generated)) /\
    length generated <= k /\
    id <$> generated = uuid_source <$> draws /\
    NoDup draws /\
    Forall (fun j => uuids_drawn w <= j < k + uuids_drawn w) draws /\
    Forall (fun s => file_path s ∈ DiffParser.path <$> fs) generated.
Proof.
  induction fs as [|f fs IH]; intros acc w; cbn [review_loop].
  - exists 0, [], []. cbv [ret]. rewrite app_nil_r.
    split; [destruct w; reflexivity|]. cbn. repeat split; try constructor.
  - destruct (review_file_effect f parsed_diff review_id w)
      as (k1 & r1 & Hf & Hk1 & Hids1 & Hfp1).
    cbv [bind]. rewrite Hf.
    match goal with
    | |- context [review_loop _ _ _ _ _ _ fs _ _ ?a ?w0] =>
        destruct (IH a w0) as (k2 & g2 & d2 & -> & Hk2 & Hids2 & Hnd2 & Hr2 & Hfp2)
    end.
    cbn [suggestions_collection uuids_drawn llm_calls] in *.
    exists (k2 + k1), (r1 ++ g2), (seq (uuids_drawn w) (length r1) ++ d2).
    split.
    { rewrite <- app_assoc. cbn [length].
      replace (k2 + (k1 + uuids_drawn w)) with (k2 + k1 + uuids_drawn w) by lia.
      replace (length fs + S (llm_calls w)) with (S (length fs) + llm_calls w) by lia.
      reflexivity. }
    split; [rewrite length_app; lia|].
    split; [rewrite !fmap_app, Hids1, Hids2; reflexivity|].
    split.
    { apply NoDup_app. split; [apply NoDup_seq|]. split; [|exact Hnd2].
      intros j Hj Hj'. apply elem_of_seq in Hj.
      rewrite Forall_forall in Hr2. specialize (Hr2 j Hj'). lia. }
    split.
    { apply Forall_app. split.
      - apply Forall_forall. intros j Hj. apply elem_of_seq in Hj. lia.
      - eapply Forall_impl; [exact Hr2|]. cbn beta. intros j Hj. lia. }
    apply Forall_app. split.
    + eapply Forall_impl; [exact Hfp1|]. cbn beta. intros s ->. left.
    + eapply Forall_impl; [exact Hfp2|]. cbn beta. intros s Hs. right. exact Hs.
Qed.

Lemma example_uuid_inj i j : example_uuid i = example_uuid j -> i = j.
Proof.
  unfold example_uuid. intros H. apply String.app_inj in H.
  apply (inj pretty) in H. exact H.
Qed.

(** X10: a run of [generate_review] returns, leaves the feedback store
    exactly as it was, calls the generation engine once for each file of
    the diff, whatever the engine answers, and draws at least one
    identifier for each suggestion it returns. *)
Theorem generate_review_leaves_store
    (parsed_diff : DiffParser.ParsedDiff) (review_id : string) (w : World) :
  exists w' result,
    generate_review rank llm uuid_source json_loads validate_int validate_str min_confidence
      parsed_diff review_id w = (w', Return result) /\
    suggestions_collection w' = suggestions_collection w /\
    llm_calls w' = length (DiffParser.files parsed_diff) + llm_calls w /\
    length result + uuids_drawn w <= uuids_drawn w'.
Proof.
  unfold generate_review, all_suggestions.
  destruct (review_loop_effect parsed_diff review_id (DiffParser.files parsed_diff) [] w)
    as (k & generated & draws & Hloop & Hk & _).
  cbv [bind ret]. rewrite Hloop. cbn [app].
  eexists. eexists. split; [reflexivity|].
  cbn [suggestions_collection uuids_drawn llm_calls].
  split; [reflexivity|]. split; [reflexivity|].
  pose proof (sublist_length _ _
                (bool_filter_sublist (fun s => (min_confidence <=? confidence s)%Z) generated)).
  lia.
Qed.

(** X11: when the identifier source never repeats itself, the suggestions
    [generate_review] returns have pairwise distinct ids, and each of them
    carries the path of a file of the diff. *)
Theorem generate_review_distinct_ids
    (parsed_diff : DiffParser.ParsedDiff) (review_id : string) (w : World) :
  (forall i j, uuid_source i = uuid_source j -> i = j) ->
  exists result,
    (generate_review rank llm uuid_source json_loads validate_int validate_str min_confidence
       parsed_diff review_id w).2 = Return result /\
    NoDup (id <$> result) /\
    Forall (fun s => file_path s ∈ DiffParser.path <$> DiffParser.files parsed_diff) result.
Proof.
  intros Hinj. unfold generate_review, all_suggestions.
  destruct (review_loop_effect parsed_diff review_id (DiffParser.files parsed_diff) [] w)
    as (k & generated & draws & Hloop & _ & Hids & Hnd & _ & Hfp).
  cbv [bind ret]. rewrite Hloop. cbn [app snd].
  eexists. split; [reflexivity|].
  pose proof (bool_filter_sublist (fun s => (min_confidence <=? confidence s)%Z) generated)
    as Hsub.
  split.
  - eapply sublist_NoDup; [|apply fmap_sublist; exact Hsub].
    rewrite Hids. apply NoDup_fmap_2; [|exact Hnd].
    intros i j. apply Hinj.
  - apply Forall_forall. intros s Hs. rewrite Forall_forall in Hfp. apply Hfp.
    apply list_elem_of_In, filter_In in Hs. apply list_elem_of_In, Hs.
Qed.

End GeneratorFacts.

(** ** [store_review_context] *)

Section StoreContextFacts.

Import VectorStore Models VectorStoreAdd StoreSpec ReviewSpec ContextSpec.

Lemma doc_id_of_inj rid fp s1 s2 : doc_id_of rid fp s1 = doc_id_of rid fp s2 -> id s1 = id s2.
Proof.
  unfold doc_id_of. intros H.
  repeat (apply String.app_inj in H). exact H.
Qed.

Lemma stored_entries_ids clock rid fp ctx ss : forall k,
  entry_id <$> stored_entries clock k rid fp ctx ss = doc_id_of rid fp <$> ss.
Proof.
  induction ss as [|s ss IH]; intros k; cbn [stored_entries fmap list_fmap]; [reflexivity|].
  f_equal. apply IH.
Qed.

(** The loop of [store_review_context] appends some of the documents of the
    suggestions, in order, and does not raise. *)
Lemma add_loop_adds clock rid fp ctx ss : forall k (c : Collection),
  exists added,
    add_loop clock k rid fp ctx ss c = (c ++ added, Return tt) /\
    sublist added (stored_entries clock k rid fp ctx ss).
Proof.
  induction ss as [|s ss IH]; intros k c; cbn [add_loop stored_entries].
  - exists []. rewrite app_nil_r. split; [reflexivity | constructor].
  - cbv [bind collection_add modify].
    destruct (bool_decide (doc_id_of rid fp s ∈ entry_id <$> c)).
    + destruct (IH (S k) c) as (added & -> & Hsub).
      exists added. split; [reflexivity|]. apply sublist_cons. exact Hsub.
    + destruct (IH (S k) (c ++ [stored_entry rid fp ctx s (clock k)])) as (added & Hrun & Hsub).
      exists (stored_entry rid fp ctx s (clock k) :: added).
      unfold stored_entry in Hrun at 1. rewrite Hrun, <- app_assoc.
      split; [reflexivity|]. apply sublist_skip. exact Hsub.
Qed.

(** With fresh and pairwise distinct ids every suggestion is stored. *)
Lemma add_loop_fresh clock rid fp ctx ss : forall k (c : Collection),
  NoDup (id <$> ss) ->
  Forall (fun s => doc_id_of rid fp s ∉ entry_id <$> c) ss ->
  add_loop clock k rid fp ctx ss c = (c ++ stored_entries clock k rid fp ctx ss, Return tt).
Proof.
  induction ss as [|s ss IH]; intros k c Hnd Hfresh; cbn [add_loop stored_entries].
  - cbv [ret]. rewrite app_nil_r. reflexivity.
  - apply Forall_cons in Hfresh as [Hs Hfresh]. cbn [fmap list_fmap] in Hnd.
    apply NoDup_cons in Hnd as [Hhead Hnd].
    cbv [bind collection_add modify]. rewrite bool_decide_eq_false_2 by exact Hs.
    fold (stored_entry rid fp ctx s (clock k)).
    rewrite (IH (S k) _ Hnd).
    + rewrite <- app_assoc. reflexivity.
    + apply Forall_forall. intros s' Hs'. rewrite fmap_app. cbn [fmap list_fmap entry_id stored_entry].
      intros Hin. apply elem_of_app in Hin as [Hin|Hin].
      * rewrite Forall_forall in Hfresh. exact (Hfresh s' Hs' Hin).
      * apply list_elem_of_singleton in Hin. apply doc_id_of_inj in Hin.
        apply Hhead. rewrite <- Hin. apply list_elem_of_fmap. eauto.
Qed.

Lemma store_review_context_adds clock rid fp ctx ss (c : Collection) :
  exists added,
    store_review_context clock rid fp ctx ss c = (c ++ added, Return tt) /\
    sublist added (stored_entries clock 0 rid fp ctx ss).
Proof.
  unfold store_review_context, try_except.
  destruct (add_loop_adds clock rid fp ctx ss 0 c) as (added & -> & Hsub).
  exists added. split; [reflexivity | exact Hsub].
Qed.

Lemma stored_entries_pending clock rid fp ctx ss : forall k,
  Forall (fun e => has_feedback (entry_metadata e) = false /\
                   matches_where [("review_id", MStr rid)] (entry_metadata e) = true /\
                   get_or (entry_metadata e) "file_path" (MStr "unknown") = MStr fp)
    (stored_entries clock k rid fp ctx ss).
Proof.
  induction ss as [|s ss IH]; intros k; cbn [stored_entries]; constructor; [|apply IH].
  cbn [entry_metadata stored_entry]. split; [reflexivity|]. split; [|reflexivity].
  unfold matches_where. cbn [forallb fst snd]. rewrite andb_true_r.
  apply bool_decide_eq_true_2. reflexivity.
Qed.

Lemma filter_feedback_added clock rid fp ctx ss k (added : Collection) :
  sublist added (stored_entries clock k rid fp ctx ss) ->
  List.filter has_feedback (entry_metadata <$> added) = [].
Proof.
  intros Hsub.
  assert (Hall : Forall (fun e => has_feedback (entry_metadata e) = false) added).
  { apply Forall_forall. intros e He.
    pose proof (stored_entries_pending clock rid fp ctx ss k) as Hp.
    rewrite Forall_forall in Hp. apply (Hp e). eapply elem_of_sublist; eassumption. }
  clear Hsub. induction Hall as [|e es He _ IH]; [reflexivity|].
  cbn [fmap list_fmap List.filter]. rewrite He. exact IH.
Qed.

Lemma of_review_stored clock rid fp ctx ss k :
  of_review (MStr rid) (stored_entries clock k rid fp ctx ss) =
  stored_entries clock k rid fp ctx ss.
Proof.
  pose proof (stored_entries_pending clock rid fp ctx ss k) as Hall.
  unfold of_review. induction Hall as [|e es (_ & He & _) _ IH]; [reflexivity|].
  cbn [List.filter]. rewrite He, IH. reflexivity.
Qed.

Lemma timestamps_of_stored clock rid fp ctx ss : forall k,
  (forall j, clock j <> EmptyString) ->
  timestamps_of (entry_metadata <$> stored_entries clock k rid fp ctx ss) =
  (fun j => MStr (clock j)) <$> seq k (length ss).
Proof.
  intros k Hclock. revert k.
  induction ss as [|s ss IH]; intros k; cbn [stored_entries fmap list_fmap length seq];
    [reflexivity|].
  unfold timestamps_of in *. cbn [omap list_omap].
  change (entry_metadata (stored_entry rid fp ctx s (clock k)) !! "timestamp")
    with (Some (MStr (clock k))).
  cbn [truthy]. rewrite (proj2 (String.eqb_neq _ _) (Hclock k)). cbn [negb].
  f_equal. apply IH.
Qed.

Lemma fold_same_path p (es : list Entry) : forall acc,
  Forall (fun e => get_or (entry_metadata e) "file_path" (MStr "unknown") = p) es ->
  foldl (fun fs e =>
           add_to_files (get_or (entry_metadata e) "file_path" (MStr "unknown"))
             (summary_of (entry_metadata e)) fs)
    [ {| fg_file_path := p; fg_suggestions := acc |} ] es =
  [ {| fg_file_path := p;
       fg_suggestions := acc ++ (summary_of <$> (entry_metadata <$> es)) |} ].
Proof.
  induction es as [|e es IH]; intros acc Hall; cbn [foldl fmap list_fmap].
  - rewrite app_nil_r. reflexivity.
  - apply Forall_cons in Hall as [He Hall]. rewrite He. cbn [add_to_files fg_file_path].
    rewrite bool_decide_eq_true_2 by reflexivity. cbn [fg_suggestions].
    rewrite (IH _ Hall), <- app_assoc. reflexivity.
Qed.

Lemma summaries_of_stored clock rid fp ctx ss : forall k,
  summary_of <$> (entry_metadata <$> stored_entries clock k rid fp ctx ss) =
  pending_summary <$> ss.
Proof.
  induction ss as [|s ss IH]; intros k; cbn [stored_entries fmap list_fmap]; [reflexivity|].
  rewrite IH. reflexivity.
Qed.

(** X12: [store_review_context] never raises and only appends: the store it
    leaves is the old store followed by documents of the suggestions, in
    their order, each with the code context as its text and with action
    pending; when the ids of the suggestions are pairwise distinct and none
    of the document ids is in the store yet, every suggestion is stored. *)
Theorem store_review_context_appends
    (clock : nat -> string) (rid fp ctx : string) (ss : list Suggestion) (c : Collection) :
  (exists added,
     store_review_context clock rid fp ctx ss c = (c ++ added, Return tt) /\
     sublist added (stored_entries clock 0 rid fp ctx ss)) /\
  (NoDup (id <$> ss) ->
   Forall (fun s => doc_id_of rid fp s ∉ entry_id <$> c) ss ->
   store_review_context clock rid fp ctx ss c =
     (c ++ stored_entries clock 0 rid fp ctx ss, Return tt)) /\
  (forall k e, e ∈ stored_entries clock k rid fp ctx ss ->
     entry_document e = ctx /\
     entry_metadata e !! "action" = Some (MStr "pending") /\
     entry_metadata e !! "review_id" = Some (MStr rid) /\
     entry_metadata e !! "file_path" = Some (MStr fp)).
Proof.
  split; [apply store_review_context_adds|]. split.
  - intros Hnd Hfresh. unfold store_review_context, try_except.
    rewrite (add_loop_fresh clock rid fp ctx ss 0 c Hnd Hfresh). reflexivity.
  - induction ss as [|s ss IH]; intros k e He; cbn [stored_entries] in He; [inversion He|].
    apply elem_of_cons in He as [->|He]; [|exact (IH _ _ He)].
    cbn [stored_entry entry_document entry_metadata]. repeat split.
Qed.

(** X13: storing the suggestions of a file for a review the store does not
    know yet, then asking for the review, gives a summary with one file
    group that lists every suggestion just stored, in order and as pending,
    counts them, and is dated with the earliest of their clock readings. *)
Theorem store_review_context_round_trip
    (clock : nat -> string) (now rid fp ctx : string) (ss : list Suggestion) (c : Collection) :
  ss <> [] ->
  NoDup (id <$> ss) ->
  Forall (fun s => doc_id_of rid fp s ∉ entry_id <$> c) ss ->
  of_review (MStr rid) c = [] ->
  (forall k, clock k <> EmptyString) ->
  let c' := (store_review_context clock rid fp ctx ss c).1 in
  exists r,
    get_review now (MStr rid) c' = (c', Return (Some r)) /\
    review_id r = MStr rid /\
    files r = [ {| fg_file_path := MStr fp; fg_suggestions := pending_summary <$> ss |} ] /\
    suggestion_count r = length ss /\
    exists k, k < length ss /\ created_at r = MStr (clock k) /\
              forall j, j < length ss -> String.ltb (clock j) (clock k) = false.
Proof.
  intros Hne Hnd Hfresh Hnew Hclock. cbv zeta.
  unfold store_review_context, try_except.
  rewrite (add_loop_fresh clock rid fp ctx ss 0 c Hnd Hfresh). cbn [fst].
  rewrite get_review_unfold.
  assert (Hhits : of_review (MStr rid) (c ++ stored_entries clock 0 rid fp ctx ss) =
                  stored_entries clock 0 rid fp ctx ss).
  { unfold of_review in *. rewrite List.filter_app, Hnew. apply of_review_stored. }
  rewrite Hhits. cbv zeta.
  destruct ss as [|s ss]; [contradiction|].
  rewrite (timestamps_of_stored clock rid fp ctx (s :: ss) 0 Hclock).
  cbn [length seq fmap list_fmap].
  change (list_fmap nat MetaValue (fun j => MStr (clock j)) (seq 1 (length ss)))
    with ((fun j => MStr (clock j)) <$> seq 1 (length ss)).
  destruct (min_from_strings ((fun j => MStr (clock j)) <$> seq 1 (length ss)) (MStr (clock 0)))
    as [m Hm].
  { change (Forall (fun t => exists s0, t = MStr s0)
              ((fun j => MStr (clock j)) <$> seq 0 (S (length ss)))).
    apply Forall_fmap, Forall_forall. intros j _. cbn. eauto. }
  rewrite Hm.
  destruct (min_from_least _ _ _ Hm) as [Hin Hleast].
  change (MStr (clock 0) :: ((fun j => MStr (clock j)) <$> seq 1 (length ss)))
    with ((fun j => MStr (clock j)) <$> seq 0 (S (length ss))) in Hin, Hleast.
  apply list_elem_of_fmap in Hin as (k & -> & Hk). apply elem_of_seq in Hk.
  cbn [stored_entries]. eexists. split; [reflexivity|].
  cbn [review_id files created_at suggestion_count].
  split; [reflexivity|]. split.
  - cbn [foldl]. change (pending_metadata rid fp s (clock 0)) with
      (entry_metadata (stored_entry rid fp ctx s (clock 0))).
    cbn [add_to_files].
    pose proof (stored_entries_pending clock rid fp ctx (s :: ss) 0) as Hall.
    cbn [stored_entries] in Hall. apply Forall_cons in Hall as [(_ & _ & Hp) Hall].
    rewrite Hp. rewrite fold_same_path.
    + cbn [app fmap list_fmap]. rewrite summaries_of_stored. reflexivity.
    + eapply Forall_impl; [exact Hall|]. intros e (_ & _ & He). exact He.
  - split.
    { change (length (stored_entries clock 0 rid fp ctx (s :: ss)) = length (s :: ss)).
      rewrite <- (length_fmap entry_id), stored_entries_ids, length_fmap. reflexivity. }
    exists k. split; [lia|]. split; [reflexivity|].
    intros j Hj.
    assert (Hjin : MStr (clock j) ∈ (fun j => MStr (clock j)) <$> seq 0 (S (length ss))).
    { apply list_elem_of_fmap. exists j. split; [reflexivity|]. apply elem_of_seq. cbn in Hj. lia. }
    specialize (Hleast _ Hjin). cbn [less_than] in Hleast. congruence.
Qed.

(** X14: storing the suggestions of a file changes no statistic: the
    documents it adds are pending, and [get_statistics] answers after the
    call what it answered before. *)
Theorem store_review_context_keeps_statistics
    (clock : nat -> string) (rid fp ctx : string) (ss : list Suggestion) (c : Collection) :
  (StatsService.get_statistics (store_review_context clock rid fp ctx ss c).1).2 =
  (StatsService.get_statistics c).2.
Proof.
  destruct (store_review_context_adds clock rid fp ctx ss c) as (added & -> & Hsub).
  cbn [fst]. rewrite !get_statistics_unfold. cbn [snd].
  rewrite fmap_app, List.filter_app, (filter_feedback_added _ _ _ _ _ _ _ Hsub), app_nil_r.
  reflexivity.
Qed.

(** X15: suggestions that were stored and not judged yet never come back as
    similar feedback: whatever the similarity order, every record
    [find_similar_code] returns after [store_review_context] comes from a
    document the store held before the call. *)
Theorem stored_context_is_not_similar
    (rank : string -> Collection -> list Entry)
    (clock : nat -> string) (rid fp ctx : string) (ss : list Suggestion) (c : Collection)
    (code_context : string) (limit : Z) :
  (forall text store e, e ∈ rank text store -> e ∈ store) ->
  let c' := (store_review_context clock rid fp ctx ss c).1 in
  exists result,
    find_similar_code rank code_context limit c' = (c', Return result) /\
    forall r, r ∈ result ->
      exists e, e ∈ c /\ entry_document e = sr_code_context r /\
                entry_metadata e !! "action" = Some (sr_action r).
Proof.
  intros Hrank. cbv zeta.
  destruct (store_review_context_adds clock rid fp ctx ss c) as (added & -> & Hsub).
  cbn [fst]. rewrite find_similar_code_unfold. eexists. split; [reflexivity|].
  destruct (Z.min (limit * 3) 20 <=? 0)%Z; [intros r Hr; inversion Hr|].
  cbv zeta. set (c' := c ++ _). set (hits := take _ (rank code_context c')).
  assert (Hhits : forall e, e ∈ hits -> e ∈ c').
  { intros e He. apply (Hrank code_context). unfold hits in He.
    apply list_elem_of_lookup in He as [i Hi]. apply lookup_take_Some in Hi as [Hi _].
    apply list_elem_of_lookup. eauto. }
  destruct hits as [|h hits'] eqn:Hh; [intros r Hr; inversion Hr|].
  rewrite <- Hh in *. clear Hh h hits'.
  apply Forall_forall.
  apply (similar_loop_Forall _ limit hits); [|reflexivity|constructor].
  intros e He Hact. cbn [sr_action sr_code_context].
  apply Hhits in He. unfold c' in He. apply elem_of_app in He as [He|He].
  - exists e. split; [exact He|]. split; [reflexivity|].
    unfold is_feedback_action in Hact. apply bool_decide_eq_true_1 in Hact.
    unfold get_or in *. destruct (entry_metadata e !! "action") as [v|]; [reflexivity|].
    exfalso. cbn [default] in Hact. revert Hact. compute_done.
  - exfalso.
    pose proof (stored_entries_pending clock rid fp ctx ss 0) as Hall.
    rewrite Forall_forall in Hall.
    destruct (Hall e (elem_of_sublist _ _ _ He Hsub)) as [Hp _].
    unfold has_feedback in Hp. congruence.
Qed.

End StoreContextFacts.

(** ** [parse] *)

Section ParseDiffFacts.

Import DiffParser PatchSpec.

Lemma parse_loop_kept patch_set : forall fs,
  parse_loop patch_set fs = fs ++ (file_change_of <$> kept patch_set).
Proof.
  unfold kept. induction patch_set as [|f patch_set IH]; intros fs;
    cbn [parse_loop List.filter].
  - cbn. rewrite app_nil_r. reflexivity.
  - destruct (is_removed_file f); cbn [negb]; rewrite IH; [reflexivity|].
    cbn [fmap list_fmap]. rewrite <- app_assoc. reflexivity.
Qed.

Lemma files_loop_no_path fs p n w :
  (forall f, f ∈ fs -> path f <> p) -> files_loop fs p n w = EmptyString.
Proof.
  induction fs as [|f fs IH]; intros Hno; cbn [files_loop]; [reflexivity|].
  rewrite (proj2 (String.eqb_neq _ _) (Hno f ltac:(left))).
  apply IH. intros g Hg. apply Hno. right. exact Hg.
Qed.

(** X16: [parse] raises exactly when the diff library does; otherwise it
    keeps the input text and turns the files of the patch that are not
    removed files into file changes, in order, with the library's counts of
    added and removed lines; a path the patch only removes has the empty
    context. *)
Theorem parse_skips_removed_files
    (PatchSet : string -> outcome (list PatchedFile)) (diff_content : string) :
  match PatchSet diff_content with
  | Raise e => parse PatchSet diff_content = Raise e
  | Return patch_set =>
      exists diff,
        parse PatchSet diff_content = Return diff /\
        raw_content diff = diff_content /\
        files diff = file_change_of <$> kept patch_set /\
        forall p line_number context_lines,
          (forall f, f ∈ patch_set -> pf_path f = p -> is_removed_file f = true) ->
          get_file_context diff p line_number context_lines = EmptyString
  end.
Proof.
  unfold parse. destruct (PatchSet diff_content) as [patch_set|e]; [|reflexivity].
  eexists. split; [reflexivity|]. cbn [raw_content files].
  rewrite parse_loop_kept. cbn [app]. split; [reflexivity|]. split; [reflexivity|].
  intros p n w Hremoved. unfold get_file_context. cbn [files].
  apply files_loop_no_path. intros f Hf Hp.
  apply list_elem_of_fmap in Hf as (pf & -> & Hpf). cbn [path file_change_of] in Hp.
  unfold kept in Hpf. apply list_elem_of_In, filter_In in Hpf as [Hin Hkept].
  apply list_elem_of_In in Hin. rewrite (Hremoved pf Hin Hp) in Hkept. discriminate.
Qed.

End ParseDiffFacts.

(** ** [store_review_session] and [create_review] *)

Section SessionFacts.

Import Models ReviewService VectorStoreAdd ContextSpec RequestSpec PatchSpec ReviewApi.

Variable rank : string -> VectorStore.Collection -> list VectorStore.Entry.
Variable llm : nat -> string -> outcome string.
Variable uuid_source : nat -> string.
Variable json_loads : string -> outcome Json.JSON.
Variable validate_int : Json.JSON -> option Z.
Variable validate_str : Json.JSON -> option string.
Variable min_confidence : Z.
Variable PatchSet : string -> outcome (list DiffParser.PatchedFile).
Variable fetch_pr_diff : string -> outcome (string * string).
Variable fetch_pr_diff_by_repo : string -> string -> Z -> outcome (string * string).
Variable clock : nat -> nat -> string.
Variable now : string.

Lemma stored_entries_for rid f fs ss readings : forall k (part : list Suggestion),
  f ∈ fs ->
  (forall s, s ∈ part -> s ∈ ss /\ file_path s = DiffParser.path f) ->
  Forall (stored_for rid fs ss)
    (stored_entries readings k rid (DiffParser.path f) (_build_code_context f) part).
Proof.
  intros k part Hf. revert k.
  induction part as [|s part IH]; intros k Hpart; cbn [stored_entries]; constructor.
  - destruct (Hpart s ltac:(left)) as [Hs Hp]. exists f, s, (readings k). auto.
  - apply IH. intros s' Hs'. apply Hpart. right. exact Hs'.
Qed.

Lemma session_loop_effect rid ss fs0 fs : forall k w,
  (forall f, f ∈ fs -> f ∈ fs0) ->
  exists added,
    session_loop clock k rid fs ss w = (with_added added w, Return tt) /\
    Forall (stored_for rid fs0 ss) added.
Proof.
  induction fs as [|f fs IH]; intros k w Hsub; cbn [session_loop].
  - exists []. unfold with_added. rewrite app_nil_r.
    split; [destruct w; reflexivity | constructor].
  - cbv [bind on_store].
    destruct (store_review_context_adds (clock k) rid (DiffParser.path f)
                (_build_code_context f)
                (List.filter (fun s => String.eqb (file_path s) (DiffParser.path f)) ss)
                (suggestions_collection w)) as (added1 & -> & Hsub1).
    match goal with
    | |- context [session_loop _ _ _ fs _ ?w0] =>
        destruct (IH (S k) w0) as (added & -> & Hadded)
    end.
    { intros g Hg. apply Hsub. right. exact Hg. }
    eexists. unfold with_added. cbn [suggestions_collection uuids_drawn llm_calls].
    rewrite <- app_assoc. split; [reflexivity|].
    apply Forall_app. split; [|exact Hadded].
    apply Forall_forall. intros e He.
    assert (Hfull : Forall (stored_for rid fs0 ss)
              (stored_entries (clock k) 0 rid (DiffParser.path f) (_build_code_context f)
                 (List.filter (fun s => String.eqb (file_path s) (DiffParser.path f)) ss))).
    { apply stored_entries_for; [apply Hsub; left|].
      intros s Hs. apply list_elem_of_In, filter_In in Hs as [Hin Hp].
      split; [apply list_elem_of_In; exact Hin | apply String.eqb_eq; exact Hp]. }
    rewrite Forall_forall in Hfull. apply Hfull. eapply elem_of_sublist; eassumption.
Qed.

Lemma stored_for_pending rid fs ss added :
  Forall (stored_for rid fs ss) added ->
  List.filter StoreSpec.has_feedback (VectorStore.entry_metadata <$> added) = [].
Proof.
  induction 1 as [|e es (f & s & t & _ & _ & _ & ->) _ IH]; [reflexivity|].
  cbn [fmap list_fmap List.filter]. exact IH.
Qed.

Lemma generate_review_returns parsed_diff review_id w :
  exists w' result,
    generate_review rank llm uuid_source json_loads validate_int validate_str min_confidence
      parsed_diff review_id w = (w', Return result).
Proof.
  unfold generate_review, all_suggestions.
  destruct (review_loop_returns rank llm uuid_source json_loads validate_int validate_str
              parsed_diff review_id (DiffParser.files parsed_diff) [] w)
    as (w' & generated & Hloop).
  cbv [bind ret]. rewrite Hloop. eauto.
Qed.

(** X17: [store_review_session] never raises, draws no identifier and calls
    no engine; it only appends documents to the store, each of them the
    pending record of one of the given suggestions under a file of the diff
    whose path is the suggestion's own, so that a suggestion for a path
    outside the diff is not stored; and the statistics after the call are
    those before it. *)
Theorem store_review_session_appends
    (rid : string) (parsed_diff : DiffParser.ParsedDiff) (ss : list Suggestion) (w : World) :
  exists added,
    store_review_session clock rid parsed_diff ss w = (with_added added w, Return tt) /\
    Forall (stored_for rid (DiffParser.files parsed_diff) ss) added /\
    (forall e, e ∈ added ->
       exists s, s ∈ ss /\
         file_path s ∈ DiffParser.path <$> DiffParser.files parsed_diff /\
         VectorStore.entry_metadata e !! "suggestion_id" = Some (MStr (id s)) /\
         VectorStore.entry_metadata e !! "action" = Some (MStr "pending")) /\
    (StatsService.get_statistics (suggestions_collection w ++ added)).2 =
    (StatsService.get_statistics (suggestions_collection w)).2.
Proof.
  unfold store_review_session.
  destruct (session_loop_effect rid ss (DiffParser.files parsed_diff)
              (DiffParser.files parsed_diff) 0 w) as (added & Hrun & Hadded); [auto|].
  exists added. split; [exact Hrun|]. split; [exact Hadded|]. split.
  - intros e He. rewrite Forall_forall in Hadded.
    destruct (Hadded e He) as (f & s & t & Hf & Hs & Hp & ->).
    exists s. split; [exact Hs|]. split.
    + rewrite Hp. apply list_elem_of_fmap. eauto.
    + split; reflexivity.
  - rewrite !get_statistics_unfold. cbn [snd].
    rewrite fmap_app, List.filter_app, (stored_for_pending _ _ _ _ Hadded), app_nil_r.
    reflexivity.
Qed.

Lemma get_diff_content_refused request w :
  refused request = true ->
  exists detail, get_diff_content fetch_pr_diff fetch_pr_diff_by_repo request w =
                   (w, Raise (HTTPException 400 detail)).
Proof.
  unfold refused, get_diff_content.
  destruct (String.eqb (source request) "github").
  - intros ->. cbv [raise]. eauto.
  - destruct (String.eqb (source request) "diff"); [intros ->|intros _]; cbv [raise]; eauto.
Qed.

Lemma get_diff_content_keeps_world request w :
  exists o, get_diff_content fetch_pr_diff fetch_pr_diff_by_repo request w = (w, o).
Proof.
  unfold get_diff_content.
  repeat match goal with |- context [if ?b then _ else _] => destruct b end;
    cbv [raise ret bind lift];
    try match goal with |- context [match ?o with Return _ => _ | Raise _ => _ end] =>
          destruct o end; eauto.
Qed.

(** X18: a request the handler refuses is answered with status 500, not
    with the 400 the handler raises for it: the 400 exception is caught by
    the handler's own blanket [except].  Nothing is fetched, parsed, asked
    of the engine or stored; one identifier has been drawn. *)
Theorem create_review_refused_is_500 (request : ReviewRequest) (w : World) :
  refused request = true ->
  let run := create_review rank llm uuid_source json_loads validate_int validate_str
               min_confidence PatchSet fetch_pr_diff fetch_pr_diff_by_repo clock now
               request w in
  (exists detail, run.2 = Raise (HTTPException 500 detail)) /\
  Api.response_status run.2 = 500%Z /\
  run.1 = ParseSpec.advance 1 w.
Proof.
  intros Href. cbv zeta. unfold create_review. cbv [try_except bind uuid4].
  match goal with
  | |- context [get_diff_content _ _ _ ?w0] =>
      destruct (get_diff_content_refused request w0 Href) as [detail ->]
  end.
  cbv [raise]. cbn [fst snd Api.response_status]. split; [eauto|]. split; reflexivity.
Qed.

(** X19: whatever the request, the engine and the libraries do, the handler
    answers with status 200 or 500; when it answers 500 nothing was stored
    and the engine was not called. *)
Theorem create_review_status (request : ReviewRequest) (w : World) :
  let run := create_review rank llm uuid_source json_loads validate_int validate_str
               min_confidence PatchSet fetch_pr_diff fetch_pr_diff_by_repo clock now
               request w in
  Api.response_status run.2 ∈ [200%Z; 500%Z] /\
  (Api.response_status run.2 = 500%Z -> run.1 = ParseSpec.advance 1 w).
Proof.
  cbv zeta. unfold create_review. cbv [try_except bind uuid4].
  match goal with
  | |- context [get_diff_content _ _ _ ?w0] =>
      destruct (get_diff_content_keeps_world request w0) as [o ->]
  end.
  destruct o as [diff_content|e].
  2:{ cbv [raise]. cbn [fst snd Api.response_status]. split; [compute_done | reflexivity]. }
  cbv [lift]. destruct (DiffParser.parse PatchSet diff_content) as [parsed_diff|e].
  2:{ cbv [raise]. cbn [fst snd Api.response_status]. split; [compute_done | reflexivity]. }
  match goal with
  | |- context [generate_review _ _ _ _ _ _ _ ?d ?r ?w0] =>
      destruct (generate_review_returns d r w0) as (w1 & result & ->)
  end.
  unfold store_review_session.
  match goal with
  | |- context [session_loop _ _ ?r ?fs ?ss ?w0] =>
      destruct (session_loop_effect r ss fs fs 0 w0) as (added & -> & _); [auto|]
  end.
  cbv [ret]. cbn [fst snd Api.response_status]. split; [compute_done | discriminate].
Qed.



End SessionFacts.

(** ** The text of an answer: fenced blocks and answers that are no array *)

Section AnswerFacts.

Import Text Json Models ReviewService ParseSpec TextSpec.

Variable uuid_source : nat -> string.
Variable json_loads : string -> outcome JSON.
Variable validate_int : JSON -> option Z.
Variable validate_str : JSON -> option string.

Lemma append_cons c (s x : string) : String c s +:+ x = String c (s +:+ x).
Proof. reflexivity. Qed.

Lemma append_nil_l (x : string) : EmptyString +:+ x = x.
Proof. reflexivity. Qed.

Lemma append_nil_r (s : string) : s +:+ EmptyString = s.
Proof.
  induction s as [|c s IH]; [reflexivity|]. rewrite append_cons. f_equal. exact IH.
Qed.

Lemma append_snoc (cur : string) d b : (cur +:+ String d EmptyString) +:+ b = cur +:+ String d b.
Proof.
  induction cur as [|c cur IH]; [reflexivity|]. rewrite !append_cons. f_equal. exact IH.
Qed.

Lemma prefix_app sep rest : String.prefix sep (sep +:+ rest) = true.
Proof.
  induction sep as [|c sep IH]; [destruct rest; reflexivity|].
  rewrite append_cons. cbn [String.prefix].
  destruct (ascii_dec c c); [exact IH | congruence].
Qed.

Lemma prefix_mismatch c sep d s : d <> c -> String.prefix (String c sep) (String d s) = false.
Proof. intros Hd. cbn [String.prefix]. destruct (ascii_dec c d); [congruence | reflexivity]. Qed.

Lemma contains_prefix sep s : String.prefix sep s = true -> contains sep s = true.
Proof. intros H. destruct s; cbn [contains]; rewrite H; reflexivity. Qed.

Lemma contains_app sep pre rest : contains sep (pre +:+ sep +:+ rest) = true.
Proof.
  induction pre as [|c pre IH].
  - rewrite append_nil_l. apply contains_prefix, prefix_app.
  - rewrite append_cons. cbn [contains]. rewrite IH. apply orb_true_r.
Qed.

Lemma no_char_no_contains c sep s : has_char c s = false -> contains (String c sep) s = false.
Proof.
  induction s as [|d s IH]; cbn [has_char contains]; [reflexivity|].
  intros H. apply orb_false_iff in H as [Hd Hs]. apply Ascii.eqb_neq in Hd.
  rewrite prefix_mismatch by exact Hd. exact (IH Hs).
Qed.

Lemma has_char_lstrip c s : has_char c s = false -> has_char c (lstrip s) = false.
Proof.
  induction s as [|d s IH]; cbn [lstrip]; [reflexivity|].
  intros H. destruct (is_space d); [|exact H].
  cbn [has_char] in H. apply orb_false_iff in H as [_ Hs]. exact (IH Hs).
Qed.

Lemma has_char_rstrip c s : has_char c s = false -> has_char c (rstrip s) = false.
Proof.
  induction s as [|d s IH]; cbn [rstrip]; [reflexivity|].
  cbn [has_char]. intros H. apply orb_false_iff in H as [Hd Hs]. specialize (IH Hs).
  destruct (rstrip s) as [|e r].
  - destruct (is_space d); cbn [has_char]; [reflexivity|]. rewrite Hd. reflexivity.
  - cbn [has_char] in *. rewrite Hd. exact IH.
Qed.

Lemma split_go_skip sep x : forall cur rest,
  split_go sep (String.length x) cur (x +:+ rest) = split_go sep 0 cur rest.
Proof.
  induction x as [|c x IH]; intros cur rest; cbn [String.length].
  - rewrite append_nil_l. reflexivity.
  - rewrite append_cons. cbn [split_go]. apply IH.
Qed.

Lemma split_go_walk c sep body : forall cur rest,
  has_char c body = false ->
  split_go (String c sep) 0 cur (body +:+ rest) = split_go (String c sep) 0 (cur +:+ body) rest.
Proof.
  induction body as [|d body IH]; intros cur rest Hfree.
  - rewrite append_nil_l, append_nil_r. reflexivity.
  - cbn [has_char] in Hfree. apply orb_false_iff in Hfree as [Hd Hb].
    apply Ascii.eqb_neq in Hd. rewrite append_cons. cbn [split_go].
    rewrite prefix_mismatch by exact Hd. rewrite (IH _ _ Hb), append_snoc. reflexivity.
Qed.

Lemma split_go_match c sep cur rest :
  split_go (String c sep) 0 cur (String c sep +:+ rest) =
  cur :: split_go (String c sep) 0 EmptyString rest.
Proof.
  rewrite append_cons. cbn [split_go]. rewrite <- append_cons, prefix_app.
  cbn [String.length Nat.sub]. rewrite ?Nat.sub_0_r. rewrite split_go_skip. reflexivity.
Qed.

Lemma split_go_none sep s : forall cur,
  contains sep s = false -> split_go sep 0 cur s = [cur +:+ s].
Proof.
  induction s as [|d s IH]; intros cur Hc; cbn [split_go].
  - rewrite append_nil_r. reflexivity.
  - cbn [contains] in Hc. apply orb_false_iff in Hc as [Hp Hs].
    rewrite Hp, (IH _ Hs), append_snoc. reflexivity.
Qed.

(** What is handed to the decoder for an answer with one fenced block. *)
Lemma extract_json_fenced {S} response pre body post (s : S) :
  strip response = pre +:+ "```json" +:+ body +:+ "```" +:+ post ->
  has_char backtick pre = false ->
  has_char backtick body = false ->
  contains "```json" (body +:+ "```" +:+ post) = false ->
  extract_json response s = (s, Return (strip body)).
Proof.
  intros Hform Hpre Hbody Hpost. unfold extract_json. rewrite Hform.
  change "```json" with (String backtick "``json") in *.
  change "```" with (String backtick "``") in *.
  rewrite contains_app. unfold split.
  rewrite (split_go_walk backtick "``json" pre _ _ Hpre), split_go_match.
  rewrite (split_go_none _ _ _ Hpost), !append_nil_l.
  cbv [bind lift index]. cbn [lookup list_lookup].
  rewrite (split_go_walk backtick "``" body _ _ Hbody), split_go_match, append_nil_l.
  cbn [lookup list_lookup]. reflexivity.
Qed.

Lemma extract_json_bare {S} body (s : S) :
  has_char backtick body = false -> extract_json body s = (s, Return (strip body)).
Proof.
  intros Hbody. unfold extract_json.
  assert (Hfree : has_char backtick (strip body) = false).
  { unfold strip. apply has_char_rstrip, has_char_lstrip. exact Hbody. }
  change "```json" with (String backtick "``json").
  change "```" with (String backtick "``").
  rewrite !no_char_no_contains by exact Hfree. reflexivity.
Qed.

(** The parser looks at an answer only through the text it extracts. *)
Lemma parse_llm_response_by_text r1 r2 fp w :
  extract_json r1 (w, @nil Suggestion) = extract_json r2 (w, @nil Suggestion) ->
  _parse_llm_response uuid_source json_loads validate_int validate_str r1 fp w =
  _parse_llm_response uuid_source json_loads validate_int validate_str r2 fp w.
Proof.
  intros H. unfold _parse_llm_response, with_local, try_except. cbv [bind].
  rewrite H. reflexivity.
Qed.

(** X21: an answer that, once stripped, holds its JSON in one fenced block
    opened by ```json is parsed exactly as that JSON alone, whatever text
    stands before and after the block: the text handed to the decoder is
    the stripped inside of the block. *)
Theorem parse_llm_response_unwraps_fence
    (response pre body post fp : string) (w : World) :
  strip response = pre +:+ "```json" +:+ body +:+ "```" +:+ post ->
  has_char backtick pre = false ->
  has_char backtick body = false ->
  contains "```json" (body +:+ "```" +:+ post) = false ->
  extract_json response w = (w, Return (strip body)) /\
  _parse_llm_response uuid_source json_loads validate_int validate_str response fp w =
  _parse_llm_response uuid_source json_loads validate_int validate_str body fp w.
Proof.
  intros Hform Hpre Hbody Hpost. split.
  - exact (extract_json_fenced response pre body post w Hform Hpre Hbody Hpost).
  - apply parse_llm_response_by_text.
    rewrite (extract_json_fenced response pre body post _ Hform Hpre Hbody Hpost).
    rewrite (extract_json_bare body _ Hbody). reflexivity.
Qed.

Lemma keys_head members seen :
  keys members seen = [] \/ exists k rest, keys members seen = JStr k :: rest.
Proof.
  revert seen. induction members as [|[k v] members IH]; intros seen; cbn [keys]; [auto|].
  destruct (bool_decide (k ∈ seen)); [apply IH | eauto].
Qed.

Lemma chars_head s : chars s = [] \/ exists k rest, chars s = JStr k :: rest.
Proof. destruct s; cbn [chars]; eauto. Qed.

Lemma built_prefix_not_object fp n items :
  match items with JObj _ :: _ => False | _ => True end ->
  built_prefix uuid_source validate_int validate_str fp n items = [].
Proof.
  destruct items as [|x items]; [reflexivity|]. cbn [built_prefix].
  destruct x; cbn [suggestion_of]; try reflexivity. contradiction.
Qed.

(** X22: the parser wants an array of objects.  When the decoded answer is
    anything else (an object that wraps the array, a string, a number, an
    array whose first item is not an object) the parser returns the empty
    list and does not raise. *)
Theorem parse_llm_response_wants_array
    (response fp text : string) (w : World) (data : JSON) :
  extract_json response (w, @nil Suggestion) = ((w, @nil Suggestion), Return text) ->
  json_loads text = Return data ->
  match data with JArr (JObj _ :: _) => False | _ => True end ->
  (_parse_llm_response uuid_source json_loads validate_int validate_str response fp w).2 =
    Return [].
Proof.
  intros Htext Hdata Hshape.
  unfold _parse_llm_response, with_local, try_except. cbv [bind].
  rewrite Htext. cbv [lift]. rewrite Hdata.
  assert (Hitems : match iterate data with
                   | Return items => match items with JObj _ :: _ => False | _ => True end
                   | Raise _ => True
                   end).
  { destruct data as [| | | | s|items|members]; cbn [iterate]; auto.
    - destruct (chars_head s) as [->|(k & rest & ->)]; exact I.
    - destruct (keys_head members []) as [->|(k & rest & ->)]; exact I. }
  destruct (iterate data) as [items|e].
  - destruct (suggestions_loop_eval uuid_source validate_int validate_str fp items w [])
      as (k & o & ->).
    rewrite (built_prefix_not_object fp _ items Hitems).
    destruct o as [[]|e]; [|destruct e]; reflexivity.
  - destruct e; reflexivity.
Qed.

End AnswerFacts.

(** ** [find_similar_code] and [get_recent_reviews] at the edges of their limits *)

Section LimitFacts.

Import VectorStore StoreSpec.

(** X23: [find_similar_code] asks the engine for the smaller of three times
    the limit and twenty documents, and looks at nothing else: every record
    it returns is built from one of those first documents of the ranking,
    so at most twenty records are returned however large the limit is, and
    a judged document ranked after them is never returned. *)
Theorem find_similar_code_window
    (rank : string -> Collection -> list Entry) (c : Collection)
    (code_context : string) (limit : Z) :
  let seen := take (Z.to_nat (Z.min (limit * 3) 20)) (rank code_context c) in
  exists result,
    find_similar_code rank code_context limit c = (c, Return result) /\
    length result <= 20 /\
    forall r, r ∈ result ->
      exists e, e ∈ seen /\ entry_document e = sr_code_context r /\
                has_feedback (entry_metadata e) = true.
Proof.
  cbv zeta. rewrite find_similar_code_unfold. eexists. split; [reflexivity|].
  destruct (Z.leb_spec (Z.min (limit * 3) 20) 0) as [Hn|Hn].
  - split; [cbn; lia | intros r Hr; inversion Hr].
  - cbv zeta. set (hits := take _ (rank code_context c)).
    destruct hits as [|h hits'] eqn:Hh; [split; [cbn; lia | intros r Hr; inversion Hr]|].
    rewrite <- Hh in *. clear Hh h hits'. split.
    + assert (Hlen : length hits <= 20).
      { unfold hits. rewrite length_take. lia. }
      assert (Hloop : forall docs metas i acc,
                length (similar_loop limit metas i docs acc) <= length acc + length docs).
      { clear. induction docs as [|d docs IH]; intros metas i acc; cbn [similar_loop length]; [lia|].
        destruct (is_feedback_action _).
        - destruct (_ <=? _)%Z; [rewrite length_app; cbn; lia|].
          specialize (IH metas (S i) (acc ++ [ {|
             sr_code_context := d;
             sr_suggestion := get_or (default ∅ (metas !! i)) "suggestion" (MStr EmptyString);
             sr_action := get_or (default ∅ (metas !! i)) "action" (MStr "pending");
             sr_reason := get_or (default ∅ (metas !! i)) "reason" (MStr EmptyString);
             sr_category := get_or (default ∅ (metas !! i)) "category" (MStr EmptyString);
             sr_confidence := get_or (default ∅ (metas !! i)) "confidence" (MInt 0) |} ])).
          rewrite length_app in IH. cbn [length] in IH. lia.
        - destruct (_ <=? _)%Z; [lia|]. specialize (IH metas (S i) acc). lia. }
      specialize (Hloop (entry_document <$> hits) (entry_metadata <$> hits) 0 []).
      rewrite length_fmap in Hloop. cbn [length] in Hloop. lia.
    + apply Forall_forall.
      apply (similar_loop_Forall _ limit hits); [|reflexivity|constructor].
      intros e He Hact. cbn [sr_code_context]. exists e. auto.
Qed.

(** X24: a negative limit is no error and does not by itself give the
    empty list: the ids are cut with [[:limit]], which leaves out the last
    [-limit] ids of the iteration, and only summaries of the ids before
    them are returned. *)
Theorem get_recent_reviews_negative_limit
    (set_iter : list MetaValue -> list MetaValue) (now : string) (limit : Z) (c : Collection) :
  (limit < 0)%Z ->
  (forall l, NoDup l -> set_iter l ≡ₚ l) ->
  let known := collect_review_ids (entry_metadata <$> c) in
  let kept := take (length known - Z.to_nat (- limit)) (set_iter known) in
  exists rs,
    get_recent_reviews set_iter now limit c = (c, Return rs) /\
    length rs <= length known - Z.to_nat (- limit) /\
    (forall r, r ∈ rs -> review_id r ∈ kept) /\
    (forall rs', (reviews_loop now kept [] c).2 = Return rs' ->
       (exists sorted, sorted_desc created_at rs' = Return sorted) -> rs ≡ₚ rs').
Proof.
  intros Hneg Hiter. cbv zeta. rewrite get_recent_reviews_unfold.
  set (known := collect_review_ids (entry_metadata <$> c)).
  assert (Hcut : slice_to limit (set_iter known) =
                 take (length known - Z.to_nat (- limit)) (set_iter known)).
  { unfold slice_to. destruct (Z.leb_spec 0 limit); [lia|].
    rewrite (Permutation_length (Hiter known (collect_review_ids_NoDup _))). reflexivity. }
  rewrite Hcut.
  destruct (reviews_loop_returns now c
              (take (length known - Z.to_nat (- limit)) (set_iter known)) [])
    as (rs & Hloop & Hsub).
  rewrite Hloop. cbn [app snd].
  pose proof (sublist_length _ _ Hsub) as Hlen.
  rewrite length_fmap, length_take in Hlen.
  destruct (sorted_desc created_at rs) as [sorted|e] eqn:Hsort.
  - exists sorted. split; [reflexivity|].
    destruct (sorted_desc_sorted created_at rs sorted Hsort) as [_ Hp].
    split; [rewrite Hp; lia|]. split.
    + intros r Hr. rewrite Hp in Hr.
      eapply elem_of_sublist; [|exact Hsub]. apply list_elem_of_fmap. eauto.
    + intros rs' [= <-] _. exact Hp.
  - exists []. split; [reflexivity|]. split; [cbn; lia|]. split.
    + intros r Hr. inversion Hr.
    + intros rs' [= <-] [sorted Hs]. congruence.
Qed.

End LimitFacts.

(** ** A stored session, read back *)

Section SessionRoundTrip.

Import VectorStore Models ReviewService VectorStoreAdd StoreSpec ReviewSpec ContextSpec
       RequestSpec SessionSpec TextSpec.

Lemma append_assoc (a b c : string) : (a +:+ b) +:+ c = a +:+ (b +:+ c).
Proof.
  induction a as [|d a IH]; [reflexivity|]. rewrite !append_cons. f_equal. exact IH.
Qed.

Lemma has_char_app c (a x : string) : has_char c (a +:+ String c x) = true.
Proof.
  induction a as [|d a IH].
  - rewrite append_nil_l. cbn [has_char]. rewrite Ascii.eqb_refl. reflexivity.
  - rewrite append_cons. cbn [has_char]. rewrite IH. apply orb_true_r.
Qed.

(** A text is split in one way only at its last separator. *)
Lemma append_sep_inj c (a : string) : forall b x y,
  has_char c x = false -> has_char c y = false ->
  a +:+ String c x = b +:+ String c y -> a = b /\ x = y.
Proof.
  induction a as [|d a IH]; intros [|e b] x y Hx Hy H.
  - rewrite !append_nil_l in H. injection H as ->. auto.
  - rewrite append_nil_l, append_cons in H. injection H as -> ->.
    rewrite has_char_app in Hx. discriminate.
  - rewrite append_nil_l, append_cons in H. injection H as -> <-.
    rewrite has_char_app in Hy. discriminate.
  - rewrite !append_cons in H. injection H as -> H.
    destruct (IH b x y Hx Hy H) as [-> ->]. auto.
Qed.

Lemma doc_id_of_inj_path rid p1 p2 s1 s2 :
  has_char underscore (id s1) = false -> has_char underscore (id s2) = false ->
  doc_id_of rid p1 s1 = doc_id_of rid p2 s2 -> p1 = p2 /\ id s1 = id s2.
Proof.
  intros H1 H2 H. unfold doc_id_of in H. do 2 apply String.app_inj in H.
  change "_" with (String underscore EmptyString) in H.
  rewrite !append_cons, !append_nil_l in H.
  exact (append_sep_inj underscore p1 p2 (id s1) (id s2) H1 H2 H).
Qed.

Lemma doc_id_of_prefix rid p s : String.prefix (rid +:+ "_") (doc_id_of rid p s) = true.
Proof. unfold doc_id_of. rewrite <- append_assoc. apply prefix_app. Qed.

Lemma for_file_spec f ss s :
  s ∈ for_file f ss <-> s ∈ ss /\ file_path s = DiffParser.path f.
Proof.
  unfold for_file. rewrite !list_elem_of_In, filter_In, String.eqb_eq. reflexivity.
Qed.

Lemma session_entries_for clock rid ss fs0 fs : forall k,
  (forall f, f ∈ fs -> f ∈ fs0) ->
  Forall (stored_for rid fs0 ss) (session_entries clock k rid fs ss).
Proof.
  induction fs as [|f fs IH]; intros k Hsub; cbn [session_entries]; [constructor|].
  apply Forall_app. split.
  - apply stored_entries_for; [apply Hsub; left|]. intros s Hs. apply for_file_spec. exact Hs.
  - apply IH. intros g Hg. apply Hsub. right. exact Hg.
Qed.

Lemma NoDup_for_file f ss : NoDup (id <$> ss) -> NoDup (id <$> for_file f ss).
Proof.
  intros Hnd. eapply sublist_NoDup; [exact Hnd|].
  apply fmap_sublist, bool_filter_sublist.
Qed.

(** The document ids of a session are pairwise distinct when the paths of
    the diff and the ids of the suggestions are, and no id holds an
    underscore. *)
Lemma session_entries_NoDup clock rid ss fs : forall k,
  NoDup (DiffParser.path <$> fs) ->
  NoDup (id <$> ss) ->
  Forall (fun s => has_char underscore (id s) = false) ss ->
  NoDup (entry_id <$> session_entries clock k rid fs ss).
Proof.
  induction fs as [|f fs IH]; intros k Hpaths Hids Hfree; cbn [session_entries];
    [constructor|].
  cbn [fmap list_fmap] in Hpaths. apply NoDup_cons in Hpaths as [Hf Hpaths].
  rewrite fmap_app. apply NoDup_app. split; [|split].
  - rewrite stored_entries_ids. apply NoDup_fmap_2_strong; [|].
    + intros s1 s2 Hs1 Hs2 Heq. apply doc_id_of_inj in Heq.
      apply for_file_spec in Hs1 as [Hs1 _]. apply for_file_spec in Hs2 as [Hs2 _].
      apply list_elem_of_lookup in Hs1 as [i Hi]. apply list_elem_of_lookup in Hs2 as [j Hj].
      assert (i = j) as ->; [|congruence].
      eapply NoDup_lookup; [exact Hids| |]; rewrite list_lookup_fmap;
        [rewrite Hi | rewrite Hj]; cbn; [reflexivity | by rewrite Heq].
    + eapply sublist_NoDup; [|apply bool_filter_sublist].
      eapply NoDup_fmap_1. exact Hids.
  - intros x Hx Hx'. rewrite stored_entries_ids in Hx.
    apply list_elem_of_fmap in Hx as (s1 & -> & Hs1). apply for_file_spec in Hs1 as [Hs1 Hp1].
    apply list_elem_of_fmap in Hx' as (e & He & Hin).
    pose proof (session_entries_for clock rid ss fs fs (S k) (fun g Hg => Hg)) as Hall.
    rewrite Forall_forall in Hall. destruct (Hall e Hin) as (g & s2 & t & Hg & Hs2 & Hp2 & ->).
    cbn [entry_id stored_entry] in He.
    rewrite Forall_forall in Hfree.
    destruct (doc_id_of_inj_path rid _ _ s1 s2 (Hfree _ Hs1) (Hfree _ Hs2) He) as [Hpath _].
    apply Hf. rewrite Hpath. apply list_elem_of_fmap. eauto.
  - apply IH; assumption.
Qed.

(** With fresh and pairwise distinct document ids the session stores every
    suggestion under its file. *)
Lemma session_loop_fresh clock rid ss fs : forall k w,
  NoDup (entry_id <$> session_entries clock k rid fs ss) ->
  (forall x, x ∈ entry_id <$> session_entries clock k rid fs ss ->
     x ∉ entry_id <$> suggestions_collection w) ->
  NoDup (id <$> ss) ->
  session_loop clock k rid fs ss w =
    (with_added (session_entries clock k rid fs ss) w, Return tt).
Proof.
  induction fs as [|f fs IH]; intros k w Hnd Hfresh Hids; cbn [session_loop session_entries].
  - unfold with_added. rewrite app_nil_r. destruct w; reflexivity.
  - cbn [session_entries] in Hnd, Hfresh. rewrite fmap_app in Hnd, Hfresh.
    apply NoDup_app in Hnd as (Hnd1 & Hdisj & Hnd2).
    cbv [bind on_store]. unfold store_review_context, try_except.
    fold (for_file f ss).
    rewrite add_loop_fresh.
    + rewrite IH.
      * unfold with_added. cbn [suggestions_collection uuids_drawn llm_calls].
        rewrite <- app_assoc. reflexivity.
      * exact Hnd2.
      * intros x Hx. cbn [suggestions_collection]. rewrite fmap_app.
        intros Hin. apply elem_of_app in Hin as [Hin|Hin].
        -- apply (Hfresh x); [apply elem_of_app; right; exact Hx | exact Hin].
        -- exact (Hdisj x Hin Hx).
      * exact Hids.
    + apply NoDup_for_file. exact Hids.
    + apply Forall_forall. intros s Hs Hin.
      apply (Hfresh (doc_id_of rid (DiffParser.path f) s)); [|exact Hin].
      apply elem_of_app. left. rewrite stored_entries_ids.
      apply list_elem_of_fmap. eauto.
Qed.

(** Each suggestion belongs to exactly one file of a diff whose paths are
    pairwise distinct. *)
Lemma for_file_partition ss : forall fs,
  NoDup (DiffParser.path <$> fs) ->
  Forall (fun s => file_path s ∈ DiffParser.path <$> fs) ss ->
  sum_list_with (fun f => length (for_file f ss)) fs = length ss.
Proof.
  induction ss as [|s ss IH]; intros fs Hpaths Hall.
  - clear Hpaths Hall. induction fs as [|f fs IHf]; [reflexivity|].
    cbn [sum_list_with]. rewrite IHf. reflexivity.
  - apply Forall_cons in Hall as [Hs Hall]. cbn [length]. rewrite <- (IH fs Hpaths Hall).
    clear IH Hall. induction fs as [|f fs IHf]; [inversion Hs|].
    cbn [fmap list_fmap] in Hpaths, Hs. apply NoDup_cons in Hpaths as [Hf Hpaths].
    cbn [sum_list_with]. unfold for_file at 1. cbn [List.filter]. fold (for_file f ss).
    destruct (String.eqb (file_path s) (DiffParser.path f)) eqn:Heq.
    + apply String.eqb_eq in Heq. cbn [length].
      assert (Hrest : sum_list_with (fun f0 => length (for_file f0 (s :: ss))) fs =
                      sum_list_with (fun f0 => length (for_file f0 ss)) fs).
      { clear IHf Hpaths Hs. induction fs as [|g fs IHg]; [reflexivity|].
        cbn [sum_list_with]. unfold for_file at 1. cbn [List.filter]. fold (for_file g ss).
        rewrite (proj2 (String.eqb_neq _ _)).
        - rewrite IHg; [reflexivity|]. intros Hin. apply Hf. right. exact Hin.
        - intros Hg. apply Hf. rewrite <- Heq, Hg. left. }
      rewrite Hrest. lia.
    + apply String.eqb_neq in Heq. apply elem_of_cons in Hs as [Hs|Hs]; [congruence|].
      rewrite (IHf Hpaths Hs). lia.
Qed.

Lemma session_entries_length clock rid ss fs : forall k,
  length (session_entries clock k rid fs ss) =
  sum_list_with (fun f => length (for_file f ss)) fs.
Proof.
  induction fs as [|f fs IH]; intros k; cbn [session_entries sum_list_with]; [reflexivity|].
  rewrite length_app, IH. f_equal.
  rewrite <- (length_fmap entry_id), stored_entries_ids, length_fmap. reflexivity.
Qed.

Lemma of_review_session clock rid ss fs : forall k,
  of_review (MStr rid) (session_entries clock k rid fs ss) = session_entries clock k rid fs ss.
Proof.
  induction fs as [|f fs IH]; intros k; cbn [session_entries]; [reflexivity|].
  unfold of_review in *. rewrite List.filter_app, IH. f_equal. apply of_review_stored.
Qed.

Lemma timestamps_of_strings (ms : list Metadata) :
  Forall (fun m => forall t, m !! "timestamp" = Some t -> exists s, t = MStr s) ms ->
  Forall (fun t => exists s, t = MStr s) (timestamps_of ms).
Proof.
  unfold timestamps_of. induction 1 as [|m ms Hm _ IH]; cbn [omap list_omap]; [constructor|].
  destruct (m !! "timestamp") as [t|] eqn:Ht; [|exact IH].
  destruct (truthy t); [|exact IH]. constructor; [apply Hm; reflexivity | exact IH].
Qed.

Lemma session_timestamps clock rid ss fs k :
  Forall (fun t => exists s, t = MStr s)
    (timestamps_of (entry_metadata <$> session_entries clock k rid fs ss)).
Proof.
  apply timestamps_of_strings, Forall_fmap, Forall_forall. intros e He.
  pose proof (session_entries_for clock rid ss fs fs k (fun g Hg => Hg)) as Hall.
  rewrite Forall_forall in Hall. destruct (Hall e He) as (f & s & t & _ & _ & _ & ->).
  cbn. intros t' [= <-]. eauto.
Qed.

(** X25: a session stored for a review the store does not know yet can be
    read back in full.  When the paths of the diff are pairwise distinct,
    the suggestions have pairwise distinct ids without underscores and are
    each about a file of the diff, and no document id in the store starts
    with the review id and an underscore, then after [store_review_session]
    the summary [get_review] answers counts exactly the given suggestions,
    files each of them once, and keeps the file paths apart. *)
Theorem store_review_session_round_trip
    (clock : nat -> nat -> string) (now rid : string)
    (parsed_diff : DiffParser.ParsedDiff) (ss : list Suggestion) (w : World) :
  ss <> [] ->
  NoDup (DiffParser.path <$> DiffParser.files parsed_diff) ->
  NoDup (id <$> ss) ->
  Forall (fun s => file_path s ∈ DiffParser.path <$> DiffParser.files parsed_diff /\
                   has_char underscore (id s) = false) ss ->
  of_review (MStr rid) (suggestions_collection w) = [] ->
  (forall e, e ∈ suggestions_collection w ->
     String.prefix (rid +:+ "_") (entry_id e) = false) ->
  let w' := (store_review_session clock rid parsed_diff ss w).1 in
  exists r,
    get_review now (MStr rid) (suggestions_collection w') =
      (suggestions_collection w', Return (Some r)) /\
    suggestion_count r = length ss /\
    total_suggestions (files r) = length ss /\
    NoDup (fg_file_path <$> files r).
Proof.
  intros Hne Hpaths Hids Hall Hnew Hfresh. cbv zeta.
  assert (Hin : Forall (fun s => file_path s ∈ DiffParser.path <$> DiffParser.files parsed_diff) ss).
  { eapply Forall_impl; [exact Hall|]. intros s [Hs _]. exact Hs. }
  assert (Hfree : Forall (fun s => has_char underscore (id s) = false) ss).
  { eapply Forall_impl; [exact Hall|]. intros s [_ Hs]. exact Hs. }
  set (added := session_entries clock 0 rid (DiffParser.files parsed_diff) ss).
  assert (Hrun : store_review_session clock rid parsed_diff ss w = (with_added added w, Return tt)).
  { unfold store_review_session. apply session_loop_fresh.
    - apply session_entries_NoDup; assumption.
    - intros x Hx Hx'. apply list_elem_of_fmap in Hx as (e & -> & He).
      pose proof (session_entries_for clock rid ss (DiffParser.files parsed_diff)
                    (DiffParser.files parsed_diff) 0 (fun g Hg => Hg)) as Hfor.
      rewrite Forall_forall in Hfor. destruct (Hfor e He) as (f & s & t & _ & _ & _ & ->).
      apply list_elem_of_fmap in Hx' as (e' & He' & Hin').
      specialize (Hfresh e' Hin'). rewrite <- He' in Hfresh. cbn [entry_id stored_entry] in Hfresh.
      rewrite doc_id_of_prefix in Hfresh. discriminate.
    - exact Hids. }
  rewrite Hrun. cbn [fst with_added suggestions_collection].
  assert (Hlen : length added = length ss).
  { unfold added. rewrite session_entries_length. apply for_file_partition; assumption. }
  assert (Hhits : of_review (MStr rid) (suggestions_collection w ++ added) = added).
  { unfold of_review in *. rewrite List.filter_app, Hnew. apply of_review_session. }
  rewrite get_review_unfold, Hhits.
  destruct added as [|e es] eqn:Hadded.
  { destruct ss; [contradiction | discriminate Hlen]. }
  rewrite <- Hadded in *. cbv zeta.
  destruct (fold_add_to_files_invariant added [] NoDup_nil_2) as [Hnd Htot]. cbv zeta in Hnd, Htot.
  pose proof (session_timestamps clock rid ss (DiffParser.files parsed_diff) 0) as Hstamps.
  fold added in Hstamps.
  destruct (timestamps_of (entry_metadata <$> added)) as [|t ts].
  - eexists. split; [reflexivity|]. cbn [suggestion_count files].
    split; [exact Hlen|]. split; [rewrite Htot; cbn; exact Hlen | exact Hnd].
  - destruct (min_from_strings ts t Hstamps) as [m ->].
    eexists. split; [reflexivity|]. cbn [suggestion_count files].
    split; [exact Hlen|]. split; [rewrite Htot; cbn; exact Hlen | exact Hnd].
Qed.

End SessionRoundTrip.


(** ** The properties at concrete inputs *)

Import VectorStore StoreSpec Examples.

(** C1 on a store with a pending, an accepted and a rejected suggestion. *)
Lemma find_similar_code_only_terminal_witness :
  exists result,
    find_similar_code insertion_order "+ 1: x = compute()" 3 mixed_store =
      (mixed_store, Return result) /\
    (forall r, r ∈ result ->
       sr_action r ∈ [MStr "accept"; MStr "reject"; MStr "edit"] /\
       exists e, e ∈ mixed_store /\ entry_document e = sr_code_context r /\
                 entry_metadata e !! "action" = Some (sr_action r)) /\
    (Z.of_nat (length result) <= 3)%Z.
Proof.
  destruct (find_similar_code_only_terminal insertion_order mixed_store
              "+ 1: x = compute()" 3) as (result & Hrun & Hterminal & Hbound).
  - intros text store e He. exact He.
  - exists result. split; [exact Hrun|]. split; [exact Hterminal|]. apply Hbound. lia.
Defined.

(** C3 on that store: accept, then reject with a reason; the record is
    still the pending one. *)
Lemma store_feedback_second_write_lost_witness :
  observe "r1" "s1" mixed_store = Some (entry_metadata (judged "s1" "pending")) /\
  exists m2,
    observe "r1" "s1"
      (store_feedback "2024-03-03T09:00:00" "r1" "s1" "reject" (Some "too strict") None
         (store_feedback "2024-03-02T09:00:00" "r1" "s1" "accept" None None mixed_store).1).1
      = Some m2 /\
    m2 !! "action" = Some (MStr "pending") /\
    m2 !! "reason" = None /\
    m2 !! "feedback_timestamp" = None.
Proof.
  split; [reflexivity|].
  destruct (store_feedback_second_write_lost mixed_store "r1" "s1"
              "2024-03-02T09:00:00" "accept" None None
              "2024-03-03T09:00:00" "reject" (Some "too strict") None)
    as (_ & _ & _ & Hsame & _).
  exists (entry_metadata (judged "s1" "pending")).
  split; [rewrite Hsame; reflexivity|]. repeat split.
Defined.

(** C10 on that store: an edit whose text is the empty string leaves the
    record pending. *)
Lemma store_feedback_empty_edit_updates_nothing_witness :
  observe "r1" "s1"
    (store_feedback "2024-03-02T09:00:00" "r1" "s1" "edit" None (Some EmptyString)
       mixed_store).1 = Some (entry_metadata (judged "s1" "pending")) /\
  entry_metadata (judged "s1" "pending") !! "action" = Some (MStr "pending") /\
  entry_metadata (judged "s1" "pending") !! "feedback_timestamp" = None.
Proof.
  destruct (store_feedback_empty_edit_updates_nothing mixed_store "2024-03-02T09:00:00"
              "r1" "s1" "edit" None (Some EmptyString)) as (_ & _ & Hfound).
  - right. reflexivity.
  - destruct (Hfound (entry_metadata (judged "s1" "pending")) eq_refl) as [Hsame _].
    split; [exact Hsame|]. split; reflexivity.
Defined.

(** C7 when the set of ids is iterated in insertion order. *)
Lemma get_recent_reviews_misses_latest_witness :
  (get_review "now" (MStr "b") RecentExample.store_b_newer).2 =
    Return (Some (RecentExample.summary "b" RecentExample.june)) /\
  get_recent_reviews (fun ids_ => ids_) "now" 1 RecentExample.store_b_newer =
    (RecentExample.store_b_newer,
     Return [RecentExample.summary "a" RecentExample.january]).
Proof.
  destruct (get_recent_reviews_misses_latest (fun ids_ => ids_)) as (Hnewer & _ & _ & Hcut).
  - intros l _. reflexivity.
  - split; [exact Hnewer|]. destruct Hcut as [Hcut|Hcut]; [exact Hcut|].
    vm_compute in Hcut. discriminate Hcut.
Defined.

(** C8 on similar feedback that was only edited: no section, no header. *)
Lemma prompt_guidance_at_most_three_witness :
  ReviewService._build_review_prompt "+ 1: x = compute()" "f.py" edit_only =
    PromptSpec.prompt_text "f.py" "+ 1: x = compute()" EmptyString /\
  ReviewService._build_review_prompt "+ 1: x = compute()" "f.py" edit_only =
    ReviewService._build_review_prompt "+ 1: x = compute()" "f.py" [] /\
  Text.contains "Learned Preferences"
    (ReviewService._build_review_prompt "+ 1: x = compute()" "f.py" edit_only) = false /\
  Text.contains "User typically"
    (ReviewService._build_review_prompt "+ 1: x = compute()" "f.py" edit_only) = false.
Proof.
  destruct (prompt_guidance_at_most_three "+ 1: x = compute()" "f.py" edit_only)
    as (_ & _ & _ & _ & _ & _ & Hnone & _).
  destruct Hnone as [Htext Hsame].
  - intros r Hr. apply list_elem_of_singleton in Hr. subst r. split; discriminate.
  - split; [exact Htext|]. split; [exact Hsame|]. split; vm_compute; reflexivity.
Defined.

(** C9 on a store with pending suggestions only. *)
Lemma get_statistics_zeroed_without_feedback_witness :
  StatsService.get_statistics RecentExample.store_b_newer =
    (RecentExample.store_b_newer,
     Return {| StatsService.error := None;
               StatsService.total_feedback := 0;
               StatsService.acceptance_rate := StatsService.RateInt 0;
               StatsService.accepts := None;
               StatsService.rejects := None;
               StatsService.edits := None;
               StatsService.by_category := Some ∅;
               StatsService.by_confidence := Some ∅;
               StatsService.recent_patterns := Some [] |}).
Proof.
  destruct (get_statistics_zeroed_without_feedback RecentExample.store_b_newer)
    as (_ & _ & Hzero).
  apply Hzero. apply Forall_forall. compute_done.
Defined.

(** C4 on a request with the action approve. *)
Lemma submit_feedback_invalid_action_status_witness :
  Api.response_status
    (Api.submit_feedback (Return tt) "2024-03-02T09:00:00" approve_request mixed_store).2 =
    500%Z.
Proof.
  destruct (submit_feedback_invalid_action_status (Return tt) "2024-03-02T09:00:00"
              approve_request mixed_store) as (_ & Hstatus & _).
  - compute_done.
  - exact Hstatus.
Defined.

(** X1 on the example store, the set of ids iterated in insertion order. *)
Lemma get_recent_reviews_bounded_sorted_witness :
  exists rs,
    get_recent_reviews (fun ids_ => ids_) "now" 1 RecentExample.store_b_newer =
      (RecentExample.store_b_newer, Return rs) /\
    (Z.of_nat (length rs) <= 1)%Z /\
    NoDup (review_id <$> rs) /\
    Sorted (not_before created_at) rs.
Proof.
  apply (get_recent_reviews_bounded_sorted (fun ids_ => ids_) "now" 1
           RecentExample.store_b_newer).
  - intros l _. reflexivity.
  - lia.
Defined.

(** X2 on the store with a pending, an accepted and a rejected suggestion. *)
Lemma store_feedback_frame_witness :
  length (store_feedback "2024-03-02T09:00:00" "r1" "s1" "accept" None None mixed_store).1 =
    length mixed_store /\
  exists e',
    (store_feedback "2024-03-02T09:00:00" "r1" "s1" "accept" None None mixed_store).1 !! 1
      = Some e' /\
    e' = judged "s2" "accept".
Proof.
  destruct (store_feedback_frame mixed_store "2024-03-02T09:00:00" "r1" "s1" "accept"
              None None) as [Hlen Hframe].
  - compute_done.
  - split; [exact Hlen|].
    destruct (Hframe 1 (judged "s2" "accept") eq_refl) as (e' & He' & _ & _ & _ & Hsame).
    exists e'. split; [exact He'|]. apply Hsame. discriminate.
Defined.

(** X3 on that store: an edit that carries a text; the summary still shows
    the suggestion as it was generated. *)
Lemma store_feedback_edit_is_not_written_witness :
  exists m,
    observe "r1" "s1"
      (store_feedback "2024-03-02T09:00:00" "r1" "s1" "edit" None (Some "call it total")
         mixed_store).1 = Some m /\
    ss_suggestion (summary_of m) = MStr "name the result" /\
    ss_action (summary_of m) = MStr "pending".
Proof.
  destruct (store_feedback_edit_is_not_written mixed_store "2024-03-02T09:00:00" "r1" "s1"
              "edit" "call it total" None (entry_metadata (judged "s1" "pending")))
    as (m & Hobs & Htext & Haction & _).
  - discriminate.
  - reflexivity.
  - exists m. split; [exact Hobs|]. split; [rewrite Htext | rewrite Haction]; reflexivity.
Defined.

(** X6 on a request that accepts a suggestion the store holds as pending:
    success is reported and the record is still pending. *)
Lemma submit_feedback_valid_action_witness :
  Api.response_status
    (Api.submit_feedback (Return tt) "2024-03-02T09:00:00"
       {| Api.review_id := "r1"; Api.suggestion_id := "s1"; Api.action := "accept";
          Api.reason := None; Api.edited_suggestion := None |} mixed_store).2 = 200%Z /\
  (Api.submit_feedback (Return tt) "2024-03-02T09:00:00"
     {| Api.review_id := "r1"; Api.suggestion_id := "s1"; Api.action := "accept";
        Api.reason := None; Api.edited_suggestion := None |} mixed_store).1 = mixed_store /\
  observe "r1" "s1" mixed_store = Some (entry_metadata (judged "s1" "pending")).
Proof.
  destruct (submit_feedback_valid_action (Return tt) "2024-03-02T09:00:00"
              {| Api.review_id := "r1"; Api.suggestion_id := "s1"; Api.action := "accept";
                 Api.reason := None; Api.edited_suggestion := None |} mixed_store)
    as (Hsame & Hbuilt & _).
  - compute_done.
  - destruct (Hbuilt eq_refl) as (_ & Hstatus & _).
    split; [exact Hstatus|]. split; [exact Hsame | reflexivity].
Defined.

(** X11 on the two-file diff and the engine that always answers. *)
Lemma generate_review_distinct_ids_witness :
  exists result,
    (ReviewService.generate_review insertion_order steady_engine ParseSpec.example_uuid
       Json.loads_fragment Models.strict_int Models.strict_str 30 two_file_diff "review-1"
       ParseSpec.world0).2 = Return result /\
    NoDup (Models.id <$> result) /\
    Forall (fun s => Models.file_path s ∈ DiffParser.path <$> DiffParser.files two_file_diff)
      result.
Proof.
  apply (generate_review_distinct_ids insertion_order steady_engine ParseSpec.example_uuid
           Json.loads_fragment Models.strict_int Models.strict_str 30 two_file_diff
           "review-1" ParseSpec.world0).
  exact example_uuid_inj.
Defined.

(** X13: two suggestions stored for a new review next to the review [r1]. *)
Lemma store_review_context_round_trip_witness :
  exists r,
    get_review "now" (MStr "r2")
      (VectorStoreAdd.store_review_context SessionExamples.noon "r2" "a.py" "+ 10: print(x)"
         SessionExamples.two_suggestions mixed_store).1 =
      ((VectorStoreAdd.store_review_context SessionExamples.noon "r2" "a.py" "+ 10: print(x)"
          SessionExamples.two_suggestions mixed_store).1, Return (Some r)) /\
    files r = [ {| fg_file_path := MStr "a.py";
                   fg_suggestions :=
                     ContextSpec.pending_summary <$> SessionExamples.two_suggestions |} ] /\
    suggestion_count r = 2.
Proof.
  destruct (store_review_context_round_trip SessionExamples.noon "now" "r2" "a.py"
              "+ 10: print(x)" SessionExamples.two_suggestions mixed_store)
    as (r & Hget & _ & Hfiles & Hcount & _).
  - discriminate.
  - compute_done.
  - compute_done.
  - reflexivity.
  - intros k. discriminate.
  - exists r. split; [exact Hget|]. split; [exact Hfiles | exact Hcount].
Defined.

(** X15 on the same store and suggestions. *)
Lemma stored_context_is_not_similar_witness :
  exists result,
    find_similar_code insertion_order "+ 10: print(x)" 3
      (VectorStoreAdd.store_review_context SessionExamples.noon "r2" "a.py" "+ 10: print(x)"
         SessionExamples.two_suggestions mixed_store).1 =
      ((VectorStoreAdd.store_review_context SessionExamples.noon "r2" "a.py" "+ 10: print(x)"
          SessionExamples.two_suggestions mixed_store).1, Return result) /\
    forall r, r ∈ result ->
      exists e, e ∈ mixed_store /\ entry_document e = sr_code_context r /\
                entry_metadata e !! "action" = Some (sr_action r).
Proof.
  apply (stored_context_is_not_similar insertion_order SessionExamples.noon "r2" "a.py"
           "+ 10: print(x)" SessionExamples.two_suggestions mixed_store "+ 10: print(x)" 3).
  intros text store e He. exact He.
Defined.

(** X18 on a request whose source is neither github nor diff. *)
Lemma create_review_refused_is_500_witness :
  Api.response_status
    (ReviewApi.create_review insertion_order steady_engine ParseSpec.example_uuid
       Json.loads_fragment Models.strict_int Models.strict_str 30
       SessionExamples.reads_hi_patch SessionExamples.no_token SessionExamples.no_token_by_repo
       SessionExamples.session_noon "2024-03-01T12:00:01"
       SessionExamples.svn_request ParseSpec.world0).2 = 500%Z.
Proof.
  destruct (create_review_refused_is_500 insertion_order steady_engine ParseSpec.example_uuid
              Json.loads_fragment Models.strict_int Models.strict_str 30
              SessionExamples.reads_hi_patch SessionExamples.no_token
              SessionExamples.no_token_by_repo SessionExamples.session_noon
              "2024-03-01T12:00:01" SessionExamples.svn_request ParseSpec.world0)
    as (_ & Hstatus & _).
  - reflexivity.
  - exact Hstatus.
Defined.


(** X21 on an answer with a sentence before and after the fenced block. *)
Lemma parse_llm_response_unwraps_fence_witness :
  ReviewService._parse_llm_response ParseSpec.example_uuid Json.loads_fragment
    Models.strict_int Models.strict_str TextSpec.fenced_response "a.py" ParseSpec.world0 =
  ReviewService._parse_llm_response ParseSpec.example_uuid Json.loads_fragment
    Models.strict_int Models.strict_str (nl +:+ hi_response +:+ nl) "a.py" ParseSpec.world0 /\
  length (match (ReviewService._parse_llm_response ParseSpec.example_uuid Json.loads_fragment
                   Models.strict_int Models.strict_str TextSpec.fenced_response "a.py"
                   ParseSpec.world0).2 with
          | Return suggestions => suggestions
          | Raise _ => []
          end) = 1.
Proof.
  destruct (parse_llm_response_unwraps_fence ParseSpec.example_uuid Json.loads_fragment
              Models.strict_int Models.strict_str TextSpec.fenced_response
              ("Here is my review:" +:+ nl) (nl +:+ hi_response +:+ nl)
              (nl +:+ "Let me know if you need more.") "a.py" ParseSpec.world0)
    as [_ Hsame].
  - vm_compute. reflexivity.
  - vm_compute. reflexivity.
  - vm_compute. reflexivity.
  - vm_compute. reflexivity.
  - split; [exact Hsame|]. vm_compute. reflexivity.
Defined.

(** X22 on an answer that wraps its array in an object. *)
Lemma parse_llm_response_wants_array_witness :
  Json.loads_fragment TextSpec.wrapped_response =
    Return (Json.JObj [("suggestions",
                        Json.JArr [Json.JObj [("line_number", Json.JInt 3)]])]) /\
  (ReviewService._parse_llm_response ParseSpec.example_uuid Json.loads_fragment
     Models.strict_int Models.strict_str TextSpec.wrapped_response "a.py" ParseSpec.world0).2 =
    Return [].
Proof.
  assert (Hloads : Json.loads_fragment TextSpec.wrapped_response =
            Return (Json.JObj [("suggestions",
                                Json.JArr [Json.JObj [("line_number", Json.JInt 3)]])])).
  { vm_compute. reflexivity. }
  split; [exact Hloads|].
  apply (parse_llm_response_wants_array ParseSpec.example_uuid Json.loads_fragment
           Models.strict_int Models.strict_str TextSpec.wrapped_response "a.py"
           TextSpec.wrapped_response ParseSpec.world0
           (Json.JObj [("suggestions",
                        Json.JArr [Json.JObj [("line_number", Json.JInt 3)]])])).
  - vm_compute. reflexivity.
  - exact Hloads.
  - exact I.
Defined.

(** X24 on the example store with limit -1: one of the two reviews is
    returned. *)
Lemma get_recent_reviews_negative_limit_witness :
  exists rs,
    get_recent_reviews (fun ids_ => ids_) "now" (-1) RecentExample.store_b_newer =
      (RecentExample.store_b_newer, Return rs) /\
    rs ≡ₚ [RecentExample.summary "a" RecentExample.january].
Proof.
  destruct (get_recent_reviews_negative_limit (fun ids_ => ids_) "now" (-1)
              RecentExample.store_b_newer) as (rs & Hrun & _ & _ & Hperm).
  - lia.
  - intros l _. reflexivity.
  - exists rs. split; [exact Hrun|]. apply Hperm.
    + vm_compute. reflexivity.
    + eexists. vm_compute. reflexivity.
Defined.

(** X25: two suggestions for [a.py] stored as review [r2] next to the
    review [r1], and read back. *)
Lemma store_review_session_round_trip_witness :
  exists r,
    get_review "now" (MStr "r2")
      (ReviewService.suggestions_collection
         (ReviewService.store_review_session SessionExamples.session_noon "r2" hi_diff
            SessionExamples.two_suggestions SessionExamples.busy_world).1) =
      (ReviewService.suggestions_collection
         (ReviewService.store_review_session SessionExamples.session_noon "r2" hi_diff
            SessionExamples.two_suggestions SessionExamples.busy_world).1,
       Return (Some r)) /\
    suggestion_count r = 2.
Proof.
  destruct (store_review_session_round_trip SessionExamples.session_noon "now" "r2" hi_diff
              SessionExamples.two_suggestions SessionExamples.busy_world)
    as (r & Hget & Hcount & _).
  - discriminate.
  - compute_done.
  - compute_done.
  - compute_done.
  - reflexivity.
  - apply Forall_forall. compute_done.
  - exists r. split; [exact Hget | exact Hcount].
Defined.
